(** * Ticket normalisation, sectioning and summary of the ticket summary app

    Shallow embedding of [config.py], [data_processor.py]
    ([filter_and_clean_data], [get_data_summary]) and of
    [divide_tickets_into_sections] from [story_generator.py].

    A pandas DataFrame is a record of its column names and its rows; a row
    is an association list from column name to cell, a column of the frame
    that a row does not list holds NaN there (as pandas fills it). *)

From Stdlib Require Import String Ascii List ZArith Lia Bool Sorting.Permutation Sorting.Sorted.
Import ListNotations.
Open Scope string_scope.
Open Scope list_scope.

(** ** config.py *)

Definition SELECTED_COLUMNS : list string :=
  [ "ORDER_NUMBER"; "ACCEPTANCE_TIME"; "COMPLETION_TIME"; "CUSTOMER_COMPLETION_TIME";
    "CUSTOMER_NUMBER"; "ORDER_TYPE"; "PROCESSING_STATUS"; "SERVICE_CATEGORY";
    "ORDER_DESCRIPTION_1"; "ORDER_DESCRIPTION_2"; "COMPLETION_RESULT_KB"; "NOTE_MAXIMUM" ].

Definition VALID_CATEGORIES : list string :=
  [ "HDW"; "NET"; "KAI"; "KAV"; "GIGA"; "VOD"; "KAD" ].

(** The dict [CATEGORY_MAPPING]; [None] is a key the dict lacks. *)
Definition CATEGORY_MAPPING (k : string) : option string :=
  if String.eqb k "KAI" then Some "Broadband"
  else if String.eqb k "NET" then Some "Broadband"
  else if String.eqb k "KAV" then Some "Voice"
  else if String.eqb k "KAD" then Some "TV"
  else if String.eqb k "GIGA" then Some "GIGA"
  else if String.eqb k "VOD" then Some "VOD"
  else if String.eqb k "HDW" then Some "Hardware"
  else None.

Definition STORY_SECTIONS : list string :=
  [ "Initial Issue"; "Follow-ups"; "Developments"; "Later Incidents"; "Recent Events" ].

(** ** DataFrames *)

(** A cell: NaN/None/NaT, a string, a number, or a datetime64 value
    (nanoseconds since the epoch). *)
Inductive cell : Type :=
| CNull
| CStr (s : string)
| CNum (z : Z)
| CTime (t : Z).

Definition row : Type := list (string * cell).

Record frame : Type := mkFrame { cols : list string; rows : list row }.

(** [pd.DataFrame()] *)
Definition empty_frame : frame := mkFrame [] [].

(** [df.empty]: no rows or no columns. *)
Definition frame_empty (df : frame) : bool :=
  match rows df, cols df with
  | [], _ | _, [] => true
  | _, _ => false
  end.

Definition mem (c : string) (l : list string) : bool :=
  existsb (String.eqb c) l.

(** [row[c]] *)
Fixpoint get (r : row) (c : string) : cell :=
  match r with
  | [] => CNull
  | (k, v) :: r' => if String.eqb k c then v else get r' c
  end.

(** [row[c] = v]: overwrite the column, or add it at the end. *)
Fixpoint set (r : row) (c : string) (v : cell) : row :=
  match r with
  | [] => [(c, v)]
  | (k, w) :: r' => if String.eqb k c then (k, v) :: r' else (k, w) :: set r' c v
  end.

(** [df.iloc[start:end]] on the rows, with Python's clamping slice. *)
Definition iloc_slice {A} (l : list A) (start end_ : nat) : list A :=
  firstn (end_ - start) (skipn start l).

(** ** story_generator.divide_tickets_into_sections *)

Definition section_bounds (total_tickets section_size i : nat) : nat * nat :=
  let start_idx := i * section_size in
  let end_idx :=
    if Nat.eqb i (length STORY_SECTIONS - 1) then total_tickets
    else (i + 1) * section_size in
  (start_idx, end_idx).

Definition divide_tickets_into_sections (df : frame) : list (string * frame) :=
  if frame_empty df then map (fun s => (s, empty_frame)) STORY_SECTIONS
  else
    let total_tickets := length (rows df) in
    let section_size := Nat.max 1 (total_tickets / 5) in
    map (fun '(i, section_name) =>
           let '(start_idx, end_idx) := section_bounds total_tickets section_size i in
           (section_name, mkFrame (cols df) (iloc_slice (rows df) start_idx end_idx)))
        (combine (seq 0 (length STORY_SECTIONS)) STORY_SECTIONS).

Definition section_sizes (df : frame) : list nat :=
  map (fun p => length (rows (snd p))) (divide_tickets_into_sections df).

(** ** data_processor.filter_and_clean_data *)

(** [[col for col in SELECTED_COLUMNS if col in df.columns]] *)
Definition available_columns_of (df : frame) : list string :=
  filter (fun col => mem col (cols df)) SELECTED_COLUMNS.

(** [df[available_columns]]: each row keeps exactly these columns, in order. *)
Definition project_row (available_columns : list string) (r : row) : row :=
  map (fun c => (c, get r c)) available_columns.

Definition project (available_columns : list string) (df : frame) : frame :=
  mkFrame available_columns (map (project_row available_columns) (rows df)).

(** [Series.isin(VALID_CATEGORIES)]: exact, case-sensitive equality; NaN and
    non-string cells are never in the list. *)
Definition isin_valid (c : cell) : bool :=
  match c with
  | CStr s => mem s VALID_CATEGORIES
  | _ => false
  end.

(** [df[df['SERVICE_CATEGORY'].isin(VALID_CATEGORIES)]] *)
Definition filter_valid (df : frame) : frame :=
  mkFrame (cols df) (filter (fun r => isin_valid (get r "SERVICE_CATEGORY")) (rows df)).

(** [Series.map(CATEGORY_MAPPING)]: a key the dict lacks becomes NaN. *)
Definition map_category (c : cell) : cell :=
  match c with
  | CStr s => match CATEGORY_MAPPING s with Some p => CStr p | None => CNull end
  | _ => CNull
  end.

Definition SENTINEL : string := "No information available".

(** [Series.fillna('No information available')]: only NaN is replaced. *)
Definition fillna (c : cell) : cell :=
  match c with
  | CNull => CStr SENTINEL
  | _ => c
  end.

Definition isna (c : cell) : bool :=
  match c with CNull => true | _ => false end.

(** The int64 value pandas hands to numpy for a non-NaT datetime cell. *)
Definition values_for_argsort (c : cell) : Z :=
  match c with CTime t => t | CNum z => z | _ => 0%Z end.

Definition map_column (f : cell -> cell) (c : string) (df : frame) : frame :=
  mkFrame (cols df) (map (fun r => set r c (f (get r c))) (rows df)).

Definition DATE_COLUMNS : list string :=
  [ "ACCEPTANCE_TIME"; "COMPLETION_TIME"; "CUSTOMER_COMPLETION_TIME" ].

Definition TEXT_COLUMNS : list string :=
  [ "ORDER_DESCRIPTION_1"; "ORDER_DESCRIPTION_2"; "COMPLETION_RESULT_KB"; "NOTE_MAXIMUM" ].

Section Normalize.

(** [pd.to_datetime(x, format=DATE_FORMAT, errors='coerce')] on one cell:
    [None] is NaT.  This is pandas' parser, not code of the repository, and
    no property below depends on how it parses. *)
Variable to_datetime : cell -> option Z.

(** [np.argsort(values, kind='quicksort')]: numpy's primitive, a parameter
    here; [numpy_aquicksort] below is numpy's algorithm. *)
Variable argsort : list Z -> list nat.

Definition convert_cell (c : cell) : cell :=
  match to_datetime c with Some t => CTime t | None => CNull end.

(** [for date_col in [...]: if date_col in df.columns: df[date_col] = pd.to_datetime(...)] *)
Definition convert_dates (df : frame) : frame :=
  fold_left (fun d date_col =>
               if mem date_col (cols d) then map_column convert_cell date_col d else d)
            DATE_COLUMNS df.

(** [df['PRODUCT'] = df['SERVICE_CATEGORY'].map(CATEGORY_MAPPING)] *)
Definition add_product (df : frame) : frame :=
  mkFrame (cols df ++ ["PRODUCT"])
    (map (fun r => set r "PRODUCT" (map_category (get r "SERVICE_CATEGORY"))) (rows df)).

(** pandas' [nargsort(items, kind='quicksort', na_position='last')]: the
    non-NaN positions ordered by numpy's argsort of their values, then the NaN
    positions in their original order. *)
Definition nargsort (items : list cell) : list nat :=
  let idx := seq 0 (length items) in
  let non_nan_idx := filter (fun i => negb (isna (nth i items CNull))) idx in
  let non_nans := map (fun i => values_for_argsort (nth i items CNull)) non_nan_idx in
  let nan_idx := filter (fun i => isna (nth i items CNull)) idx in
  map (fun j => nth j non_nan_idx 0%nat) (argsort non_nans) ++ nan_idx.

(** [df.sort_values(c)]: rows taken in the order of the indexer. *)
Definition sort_values (c : string) (df : frame) : frame :=
  let indexer := nargsort (map (fun r => get r c) (rows df)) in
  mkFrame (cols df) (map (fun i => nth i (rows df) []) indexer).

Definition fill_text (df : frame) : frame :=
  fold_left (fun d col => if mem col (cols d) then map_column fillna col d else d)
            TEXT_COLUMNS df.

(** Steps after the category filter, applied to a non-empty filtered frame. *)
Definition clean_filtered (df_filtered : frame) : frame :=
  let d1 := convert_dates df_filtered in
  let d2 := add_product d1 in
  let d3 := if mem "ACCEPTANCE_TIME" (cols d2) then sort_values "ACCEPTANCE_TIME" d2 else d2 in
  fill_text d3.

(** [filter_and_clean_data(df)]; the model raises no exception, so the
    [except] branch is not reached. *)
Definition filter_and_clean_data (df : frame) : frame :=
  if frame_empty df then empty_frame
  else
    let available_columns := available_columns_of df in
    if negb (mem "SERVICE_CATEGORY" available_columns) then empty_frame
    else
      let df_filtered := filter_valid (project available_columns df) in
      if frame_empty df_filtered then df_filtered
      else clean_filtered df_filtered.

End Normalize.

(** ** numpy's [aquicksort_] (portable C++ path, npysort/quicksort.cpp)

    The argsort numpy runs for [kind='quicksort'] on datetime64 values, which
    is what pandas' [nargsort] calls.  [v] holds the keys, [a] the index
    array [tosort]; positions are [Z] as the C pointers are.  Every loop
    carries a fuel bound larger than its iteration count. *)
Module NumpySort.

Fixpoint upd {A} (l : list A) (i : nat) (x : A) : list A :=
  match l, i with
  | [], _ => []
  | _ :: l', O => x :: l'
  | y :: l', S i' => y :: upd l' i' x
  end.

Definition at_ (a : list nat) (i : Z) : nat := nth (Z.to_nat i) a 0%nat.
Definition put (a : list nat) (i : Z) (x : nat) : list nat := upd a (Z.to_nat i) x.
Definition key (v : list Z) (a : list nat) (i : Z) : Z := nth (at_ a i) v 0%Z.

(** [Tag::less] for datetime64 without NaT. *)
Definition less (x y : Z) : bool := Z.ltb x y.

Definition swap (a : list nat) (i j : Z) : list nat :=
  let x := at_ a i in let y := at_ a j in put (put a i y) j x.

Definition SMALL_QUICKSORT : Z := 15.

(** [do ++pi; while (less(v[*pi], vp));] *)
Fixpoint scan_up (fuel : nat) (v : list Z) (a : list nat) (pi vp : Z) : Z :=
  match fuel with
  | O => pi
  | S f => let pi' := (pi + 1)%Z in
           if less (key v a pi') vp then scan_up f v a pi' vp else pi'
  end.

(** [do --pj; while (less(vp, v[*pj]));] *)
Fixpoint scan_down (fuel : nat) (v : list Z) (a : list nat) (pj vp : Z) : Z :=
  match fuel with
  | O => pj
  | S f => let pj' := (pj - 1)%Z in
           if less vp (key v a pj') then scan_down f v a pj' vp else pj'
  end.

(** The partition [for (;;)] loop; returns the array and [pi]. *)
Fixpoint partition_loop (fuel : nat) (v : list Z) (a : list nat) (pi pj vp : Z)
  : list nat * Z :=
  match fuel with
  | O => (a, pi)
  | S f =>
      let pi' := scan_up fuel v a pi vp in
      let pj' := scan_down fuel v a pj vp in
      if (pj' <=? pi')%Z then (a, pi')
      else partition_loop f v (swap a pi' pj') pi' pj' vp
  end.

(** One pass of [while ((pr - pl) > SMALL_QUICKSORT)]: median of three,
    partition, push the larger part with its depth. *)
Definition partition_step (fuel : nat) (v : list Z) (a : list nat) (pl pr cdepth : Z)
           (stack : list (Z * Z * Z)) : list nat * Z * Z * Z * list (Z * Z * Z) :=
  let pm := (pl + Z.shiftr (pr - pl) 1)%Z in
  let a1 := if less (key v a pm) (key v a pl) then swap a pm pl else a in
  let a2 := if less (key v a1 pr) (key v a1 pm) then swap a1 pr pm else a1 in
  let a3 := if less (key v a2 pm) (key v a2 pl) then swap a2 pm pl else a2 in
  let vp := key v a3 pm in
  let pj := (pr - 1)%Z in
  let a4 := swap a3 pm pj in
  let '(a5, pi) := partition_loop fuel v a4 pl pj vp in
  let a6 := swap a5 pi (pr - 1) in
  let cdepth' := (cdepth - 1)%Z in
  if (pi - pl <? pr - pi)%Z
  then (a6, pl, (pi - 1)%Z, cdepth', ((pi + 1)%Z, pr, cdepth') :: stack)
  else (a6, (pi + 1)%Z, pr, cdepth', (pl, (pi - 1)%Z, cdepth') :: stack).

Fixpoint partition_while (fuel : nat) (v : list Z) (a : list nat) (pl pr cdepth : Z)
         (stack : list (Z * Z * Z)) : list nat * Z * Z * Z * list (Z * Z * Z) :=
  match fuel with
  | O => (a, pl, pr, cdepth, stack)
  | S f =>
      if (SMALL_QUICKSORT <? pr - pl)%Z then
        let '(a', pl', pr', cdepth', stack') := partition_step fuel v a pl pr cdepth stack in
        partition_while f v a' pl' pr' cdepth' stack'
      else (a, pl, pr, cdepth, stack)
  end.

(** Inner insertion loop: shift [*pk] up while [pj > pl && less(vp, v[*pk])],
    then store [vi]. *)
Fixpoint insert_shift (fuel : nat) (v : list Z) (a : list nat) (pl pj : Z) (vi : nat)
  : list nat :=
  match fuel with
  | O => put a pj vi
  | S f =>
      if (pl <? pj)%Z && less (nth vi v 0%Z) (key v a (pj - 1)) then
        insert_shift f v (put a pj (at_ a (pj - 1))) pl (pj - 1) vi
      else put a pj vi
  end.

(** [for (pi = pl + 1; pi <= pr; ++pi)] *)
Fixpoint insertion (fuel : nat) (v : list Z) (a : list nat) (pl pi pr : Z) : list nat :=
  match fuel with
  | O => a
  | S f =>
      if (pi <=? pr)%Z then
        insertion f v (insert_shift fuel v a pl pi (at_ a pi)) pl (pi + 1) pr
      else a
  end.

(** [aheapsort_] on [n] entries from [pl]: the C code indexes [a = tosort - 1]
    from 1, so heap position [k] is [pl + k - 1]. *)
Definition hp (base k : Z) : Z := (base + k - 1)%Z.

(** [for (i = .., j = ..; j <= n;) {...} a[i] = tmp;] *)
Fixpoint sift (fuel : nat) (v : list Z) (a : list nat) (base : Z) (tmp : nat) (i j n : Z)
  : list nat :=
  match fuel with
  | O => put a (hp base i) tmp
  | S f =>
      if (j <=? n)%Z then
        let j' := if (j <? n)%Z && less (key v a (hp base j)) (key v a (hp base (j + 1)))
                  then (j + 1)%Z else j in
        if less (nth tmp v 0%Z) (key v a (hp base j')) then
          sift f v (put a (hp base i) (at_ a (hp base j'))) base tmp j' (j' + j') n
        else put a (hp base i) tmp
      else put a (hp base i) tmp
  end.

(** [for (l = n >> 1; l > 0; --l)] *)
Fixpoint heap_build (fuel : nat) (v : list Z) (a : list nat) (base l n : Z) : list nat :=
  match fuel with
  | O => a
  | S f =>
      if (0 <? l)%Z then
        heap_build f v (sift fuel v a base (at_ a (hp base l)) l (2 * l) n) base (l - 1) n
      else a
  end.

(** [for (; n > 1;)] *)
Fixpoint heap_extract (fuel : nat) (v : list Z) (a : list nat) (base n : Z) : list nat :=
  match fuel with
  | O => a
  | S f =>
      if (1 <? n)%Z then
        let tmp := at_ a (hp base n) in
        let a' := put a (hp base n) (at_ a (hp base 1)) in
        heap_extract f v (sift fuel v a' base tmp 1 2 (n - 1)) base (n - 1)
      else a
  end.

Definition aheapsort (fuel : nat) (v : list Z) (a : list nat) (pl n : Z) : list nat :=
  heap_extract fuel v (heap_build fuel v a pl (Z.shiftr n 1) n) pl n.

(** The outer [for (;;)]: heapsort when the depth budget is spent, else
    partition and finish with insertion sort; then pop the stack. *)
Fixpoint qs_loop (fuel : nat) (v : list Z) (a : list nat) (pl pr cdepth : Z)
         (stack : list (Z * Z * Z)) : list nat :=
  match fuel with
  | O => a
  | S f =>
      let '(a1, stack1) :=
        if (cdepth <? 0)%Z then (aheapsort fuel v a pl (pr - pl + 1), stack)
        else
          let '(a', pl', pr', _, stack') := partition_while fuel v a pl pr cdepth stack in
          (insertion fuel v a' pl' (pl' + 1) pr', stack') in
      match stack1 with
      | [] => a1
      | (pl2, pr2, d) :: st => qs_loop f v a1 pl2 pr2 d st
      end
  end.

(** [npy_get_msb(num) * 2] is the depth budget. *)
Definition aquicksort (v : list Z) (tosort : list nat) : list nat :=
  let num := Z.of_nat (length v) in
  qs_loop (2 * length v + 2) v tosort 0 (num - 1) (Z.log2 num * 2) [].

Definition numpy_argsort (ks : list Z) : list nat :=
  aquicksort ks (seq 0 (length ks)).

End NumpySort.

(** ** data_processor.get_data_summary *)

Definition cell_eqb (a b : cell) : bool :=
  match a, b with
  | CNull, CNull => true
  | CStr x, CStr y => String.eqb x y
  | CNum x, CNum y => Z.eqb x y
  | CTime x, CTime y => Z.eqb x y
  | _, _ => false
  end.

Definition column (df : frame) (c : string) : list cell :=
  map (fun r => get r c) (rows df).

Definition dropna (l : list cell) : list cell := filter (fun c => negb (isna c)) l.

Fixpoint tally_add (c : cell) (m : list (cell * nat)) : list (cell * nat) :=
  match m with
  | [] => [(c, 1%nat)]
  | (k, n) :: m' => if cell_eqb k c then (k, S n) :: m' else (k, n) :: tally_add c m'
  end.

Definition tally (l : list cell) : list (cell * nat) :=
  fold_left (fun m c => tally_add c m) l [].

Fixpoint insert_desc (p : cell * nat) (l : list (cell * nat)) : list (cell * nat) :=
  match l with
  | [] => [p]
  | q :: l' => if Nat.ltb (snd q) (snd p) then p :: l else q :: insert_desc p l'
  end.

(** [Series.value_counts().to_dict()]: counts of the non-NaN values, most
    frequent first. *)
Definition value_counts (l : list cell) : list (cell * nat) :=
  fold_left (fun acc p => insert_desc p acc) (tally (dropna l)) [].

(** [Series.nunique()]: distinct non-NaN values. *)
Definition nunique (l : list cell) : nat := length (tally (dropna l)).

Fixpoint as_times (l : list cell) : option (list Z) :=
  match l with
  | [] => Some []
  | CTime t :: l' => option_map (cons t) (as_times l')
  | _ :: _ => None
  end.

Definition ns_per_day : Z := (86400 * 1000000000)%Z.

(** The [date_range_days] block; [None] is the exception raised by [max],
    [min], [-] or [.days] on values that are not datetimes. *)
Definition date_range (df : frame) : option Z :=
  if mem "ACCEPTANCE_TIME" (cols df) then
    let valid_dates := dropna (column df "ACCEPTANCE_TIME") in
    match as_times valid_dates with
    | Some [] => Some 0%Z
    | Some (t :: ts) =>
        Some ((fold_left Z.max ts t - fold_left Z.min ts t) / ns_per_day)%Z
    | None => None
    end
  else Some 0%Z.

Record summary : Type := mkSummary {
  total_tickets : nat;
  unique_customers : nat;
  date_range_days : Z;
  product_counts : list (cell * nat);
  category_counts : list (cell * nat) }.

Definition get_data_summary (df : frame) : summary :=
  if frame_empty df then mkSummary 0 0 0 [] []
  else
    match date_range df with
    | None => mkSummary (length (rows df)) 0 0 [] []
    | Some date_range_days =>
        mkSummary (length (rows df))
          (if mem "CUSTOMER_NUMBER" (cols df) then nunique (column df "CUSTOMER_NUMBER") else 0)
          date_range_days
          (if mem "PRODUCT" (cols df) then value_counts (column df "PRODUCT") else [])
          (if mem "SERVICE_CATEGORY" (cols df) then value_counts (column df "SERVICE_CATEGORY") else [])
    end.

Definition sum_counts (m : list (cell * nat)) : nat := fold_right (fun p s => snd p + s) 0%nat m.

(** ** The contract of numpy's argsort, and an argsort that meets it

    [np.argsort] returns the positions of its input in an order that sorts
    the values.  [insertion_argsort] is a plain insertion sort on positions,
    used to run the pipeline on concrete inputs with an argsort that is
    proved to meet the contract. *)

Definition argsort_spec (argsort : list Z -> list nat) : Prop :=
  forall ks, Permutation (argsort ks) (seq 0 (length ks)) /\
             Sorted (fun i j => (nth i ks 0 <= nth j ks 0)%Z) (argsort ks).

Fixpoint ins_idx (ks : list Z) (i : nat) (l : list nat) : list nat :=
  match l with
  | [] => [i]
  | j :: l' => if Z.leb (nth i ks 0%Z) (nth j ks 0%Z) then i :: l else j :: ins_idx ks i l'
  end.

Definition insertion_argsort (ks : list Z) : list nat :=
  fold_right (ins_idx ks) [] (seq 0 (length ks)).

(** ** Row-wise view of the column updates

    [map_column] updates one column of every row; a [fold_left] of such
    updates over a list of columns is, row by row, a [fold_left] of
    [row_step]. *)
Definition row_step (cs : list string) (f : cell -> cell) (r : row) (c : string) : row :=
  if mem c cs then set r c (f (get r c)) else r.

Definition convert_row (to_datetime : cell -> option Z) (cs : list string) (r : row) : row :=
  fold_left (row_step cs (convert_cell to_datetime)) DATE_COLUMNS r.

Definition fill_row (cs : list string) (r : row) : row :=
  fold_left (row_step cs fillna) TEXT_COLUMNS r.

Definition product_row (r : row) : row :=
  set r "PRODUCT" (map_category (get r "SERVICE_CATEGORY")).

(** What [clean_filtered] does to one row of a frame with columns [cs]. *)
Definition finish_row (to_datetime : cell -> option Z) (cs : list string) (r : row) : row :=
  fill_row (cs ++ ["PRODUCT"]) (product_row (convert_row to_datetime cs r)).

(** The rows left after the projection and the category filter. *)
Definition post_filter_rows (df : frame) : list row :=
  rows (filter_valid (project (available_columns_of df) df)).

(** Example frames: [k] valid rows of one column. *)
Definition net_row : row := [("SERVICE_CATEGORY", CStr "NET")].
Definition net_frame (k : nat) : frame := mkFrame ["SERVICE_CATEGORY"] (repeat net_row k).

(** The spec's end-to-end batch: twelve rows, two with categories outside
    the whitelist, one without an acceptance time, one note missing and one
    note empty.  Its cells hold datetimes already, as an Excel upload gives
    them; [passthrough_datetime] keeps those and turns anything else into
    NaT. *)
Definition ex_row (k : Z) (cat : string) (t : cell) (note : cell) : row :=
  [("ORDER_NUMBER", CNum k); ("ACCEPTANCE_TIME", t); ("SERVICE_CATEGORY", CStr cat);
   ("NOTE_MAXIMUM", note)].

Definition ex_raw : frame :=
  mkFrame ["ORDER_NUMBER"; "ACCEPTANCE_TIME"; "SERVICE_CATEGORY"; "NOTE_MAXIMUM"]
    [ ex_row 1 "NET" (CTime 500) (CStr "router reset");
      ex_row 2 "XXX" (CTime 100) (CStr "x");
      ex_row 3 "KAV" (CTime 200) CNull;
      ex_row 4 "HDW" CNull (CStr "");
      ex_row 5 "NET" (CTime 200) (CStr "line check");
      ex_row 6 "KAI" (CTime 900) (CStr "ok");
      ex_row 7 "VOD" (CTime 50) (CStr "ok");
      ex_row 8 "GIGA" (CTime 700) (CStr "ok");
      ex_row 9 "KAD" (CTime 300) (CStr "ok");
      ex_row 10 "NET" (CTime 100) (CStr "ok");
      ex_row 11 "KAV" (CTime 400) (CStr "ok");
      ex_row 12 "ZZZ" (CTime 600) (CStr "ok") ].

Definition passthrough_datetime (c : cell) : option Z :=
  match c with CTime t => Some t | _ => None end.

(** Seventeen valid tickets that share one acceptance time, numbered 1 to
    17 in input order. *)
Definition tie_raw : frame :=
  mkFrame ["ORDER_NUMBER"; "ACCEPTANCE_TIME"; "SERVICE_CATEGORY"]
    (map (fun k => [("ORDER_NUMBER", CNum (Z.of_nat k)); ("ACCEPTANCE_TIME", CTime 1000);
                    ("SERVICE_CATEGORY", CStr "NET")])
         (seq 1 17)).

(** A cell of a datetime column: a timestamp or NaT. *)
Definition time_or_null (c : cell) : Prop := c = CNull \/ exists t, c = CTime t.

(** The timestamps of a list of cells, in order. *)
Fixpoint cell_times (l : list cell) : list Z :=
  match l with
  | [] => []
  | CTime t :: l' => t :: cell_times l'
  | _ :: l' => cell_times l'
  end.


(** A normalised-looking batch with times on a day scale: days 3, 10 (plus
    half a day), NaT and 1 (plus one hour). *)
Definition dated_raw : frame :=
  mkFrame ["ACCEPTANCE_TIME"; "SERVICE_CATEGORY"; "PRODUCT"]
    [ [("ACCEPTANCE_TIME", CTime (3 * ns_per_day)); ("SERVICE_CATEGORY", CStr "NET");
       ("PRODUCT", CStr "Broadband")];
      [("ACCEPTANCE_TIME", CTime (10 * ns_per_day + ns_per_day / 2));
       ("SERVICE_CATEGORY", CStr "VOD"); ("PRODUCT", CStr "VOD")];
      [("ACCEPTANCE_TIME", CNull); ("SERVICE_CATEGORY", CStr "NET");
       ("PRODUCT", CStr "Broadband")];
      [("ACCEPTANCE_TIME", CTime (ns_per_day + 3600 * 1000000000));
       ("SERVICE_CATEGORY", CStr "KAI"); ("PRODUCT", CStr "Voice")] ].

(** ** Python strings

    A Python [str] whose code points are all below 256 is a [string], one
    [ascii] per code point. *)

Definition nl : string := String "010"%char "".

(** [str.isspace] on the code points 0 to 255. *)
Definition is_space (ch : ascii) : bool :=
  let n := nat_of_ascii ch in
  (Nat.leb 9 n && Nat.leb n 13) || (Nat.leb 28 n && Nat.leb n 32) || Nat.eqb n 133 ||
  Nat.eqb n 160.

Fixpoint lstrip (s : string) : string :=
  match s with
  | EmptyString => EmptyString
  | String c s' => if is_space c then lstrip s' else s
  end.

Definition rstrip (s : string) : string :=
  string_of_list_ascii
    (rev (list_ascii_of_string (lstrip (string_of_list_ascii (rev (list_ascii_of_string s)))))).

(** [str.strip()] *)
Definition strip (s : string) : string := rstrip (lstrip s).

(** [str.lower()] on the code points 0 to 255. *)
Definition lower_char (ch : ascii) : ascii :=
  let n := nat_of_ascii ch in
  if (Nat.leb 65 n && Nat.leb n 90) || (Nat.leb 192 n && Nat.leb n 222 && negb (Nat.eqb n 215))
  then ascii_of_nat (n + 32) else ch.

Fixpoint py_lower (s : string) : string :=
  match s with
  | EmptyString => EmptyString
  | String c s' => String (lower_char c) (py_lower s')
  end.

Fixpoint string_of_uint (d : Decimal.uint) : string :=
  match d with
  | Decimal.Nil => ""
  | Decimal.D0 d => String "0" (string_of_uint d)
  | Decimal.D1 d => String "1" (string_of_uint d)
  | Decimal.D2 d => String "2" (string_of_uint d)
  | Decimal.D3 d => String "3" (string_of_uint d)
  | Decimal.D4 d => String "4" (string_of_uint d)
  | Decimal.D5 d => String "5" (string_of_uint d)
  | Decimal.D6 d => String "6" (string_of_uint d)
  | Decimal.D7 d => String "7" (string_of_uint d)
  | Decimal.D8 d => String "8" (string_of_uint d)
  | Decimal.D9 d => String "9" (string_of_uint d)
  end.

(** [str(n)] of an int. *)
Definition py_str_nat (n : nat) : string := string_of_uint (Nat.to_uint n).

Definition py_str_Z (z : Z) : string :=
  match Z.to_int z with
  | Decimal.Pos u => string_of_uint u
  | Decimal.Neg u => String "-" (string_of_uint u)
  end.

Definition is_dash (ch : ascii) : bool := Ascii.eqb ch "-".

(** [s.split('---')]: cut at each occurrence of three dashes, scanning
    left to right. *)
Fixpoint split_dash3 (s : string) : list string :=
  match s with
  | EmptyString => [""]
  | String c1 s1 =>
      let keep :=
        match split_dash3 s1 with
        | p :: ps => String c1 p :: ps
        | [] => [String c1 ""]
        end in
      match s1 with
      | String c2 (String c3 rest) =>
          if is_dash c1 && is_dash c2 && is_dash c3 then "" :: split_dash3 rest else keep
      | _ => keep
      end
  end.

(** ['---' in s] *)
Fixpoint contains_dash3 (s : string) : bool :=
  match s with
  | EmptyString => false
  | String c1 s1 =>
      match s1 with
      | String c2 (String c3 _) =>
          (is_dash c1 && is_dash c2 && is_dash c3) || contains_dash3 s1
      | _ => contains_dash3 s1
      end
  end.

(** ** [Timestamp.strftime('%B %d, %Y')]

    The civil date (proleptic Gregorian) of the day of a datetime64 value. *)
Definition civil_from_days (days : Z) : Z * Z * Z :=
  let z := (days + 719468)%Z in
  let era := (z / 146097)%Z in
  let doe := (z - era * 146097)%Z in
  let yoe := ((doe - doe / 1460 + doe / 36524 - doe / 146096) / 365)%Z in
  let doy := (doe - (365 * yoe + yoe / 4 - yoe / 100))%Z in
  let mp := ((5 * doy + 2) / 153)%Z in
  let d := (doy - (153 * mp + 2) / 5 + 1)%Z in
  let m := (if (mp <? 10)%Z then mp + 3 else mp - 9)%Z in
  let y := (yoe + era * 400 + (if (m <=? 2)%Z then 1 else 0))%Z in
  (y, m, d).

Definition MONTHS : list string :=
  [ "January"; "February"; "March"; "April"; "May"; "June"; "July"; "August";
    "September"; "October"; "November"; "December" ].

Definition two_digits (d : Z) : string :=
  if (d <? 10)%Z then ("0" ++ py_str_Z d)%string else py_str_Z d.

Definition strftime_date (t : Z) : string :=
  let '(y, m, d) := civil_from_days (t / ns_per_day)%Z in
  (nth (Z.to_nat (m - 1)) MONTHS "" ++ " " ++ two_digits d ++ ", " ++ py_str_Z y)%string.

(** ** story_generator.py: ticket text, narratives and product summaries *)

Section Story.

(** [str(v)] of a value that is not a string, as pandas holds it in the
    named column (the rendering depends on the column's dtype). *)
Variable render : string -> cell -> string.

(** [genai.GenerativeModel(model_name).generate_content(prompt).text];
    [None] is an exception raised by the call. *)
Variable generate : string -> string -> option string.

(** [os.getenv('GEMINI_API_KEY')] *)
Variable api_key : option string.

Definition cell_str (col : string) (c : cell) : string :=
  match c with CStr s => s | _ => render col c end.

(** [ticket.get(col, default)], formatted: the Series of a row is indexed
    by the frame's columns. *)
Definition ticket_field (df : frame) (r : row) (col default : string) : string :=
  if mem col (cols df) then cell_str col (get r col) else default.

(** The [date_str] block: a missing column (KeyError), NaN, or a value
    without [strftime] (AttributeError) give 'Date unavailable'. *)
Definition ticket_date (df : frame) (r : row) : string :=
  if mem "ACCEPTANCE_TIME" (cols df) then
    match get r "ACCEPTANCE_TIME" with
    | CTime t => strftime_date t
    | _ => "Date unavailable"
    end
  else "Date unavailable".

Definition ticket_info (df : frame) (r : row) : string :=
  strip (nl ++ "Ticket: " ++ ticket_field df r "ORDER_NUMBER" "Unknown" ++
         nl ++ "Date: " ++ ticket_date df r ++
         nl ++ "Customer: " ++ ticket_field df r "CUSTOMER_NUMBER" "Unknown" ++
         nl ++ "Issue: " ++ ticket_field df r "ORDER_DESCRIPTION_1" "No description" ++
         " - " ++ ticket_field df r "ORDER_DESCRIPTION_2" "No description" ++
         nl ++ "Resolution: " ++ ticket_field df r "COMPLETION_RESULT_KB" "No resolution info" ++
         nl ++ "Notes: " ++ ticket_field df r "NOTE_MAXIMUM" "No additional notes" ++ nl)%string.

Definition TICKET_SEPARATOR : string := (nl ++ "---" ++ nl)%string.

Definition prepare_ticket_data_for_gemini (section_df : frame) : string :=
  if frame_empty section_df then "No tickets in this section."
  else String.concat TICKET_SEPARATOR (map (ticket_info section_df) (rows section_df)).

Definition model_names : list string :=
  [ "gemini-1.5-flash"; "gemini-1.5-pro"; "gemini-pro"; "models/gemini-1.5-flash";
    "models/gemini-pro" ].

Definition gemini_prompt (ticket_data section_name product_name : string) : string :=
  (nl ++ "You are a customer service analyst creating a professional narrative summary for "
   ++ product_name ++ " services." ++ nl ++ nl ++
   "Section: " ++ section_name ++ nl ++
   "Ticket Data:" ++ nl ++ ticket_data ++ nl ++ nl ++
   "Please create a narrative summary that:" ++ nl ++
   "1. Describes the customer experience during this period" ++ nl ++
   "2. Highlights key issues and how they were resolved" ++ nl ++
   "3. Shows the timeline of events" ++ nl ++
   "4. Uses a professional, storytelling tone" ++ nl ++
   "5. Focuses on the customer journey" ++ nl ++ nl ++
   "Keep the narrative concise (2-3 sentences) and professional." ++ nl)%string.

(** The loop over [model_names]: the first model that answers wins. *)
Fixpoint first_answer (names : list string) (prompt : string) : option string :=
  match names with
  | [] => None
  | model_name :: rest =>
      match generate model_name prompt with
      | Some text => Some (strip text)
      | None => first_answer rest prompt
      end
  end.

(** [setup_gemini()] succeeds: the key is set and not empty. *)
Definition setup_gemini : bool :=
  match api_key with Some k => negb (String.eqb k "") | None => false end.

Definition fallback_ticket_count (ticket_data : string) : nat :=
  if contains_dash3 ticket_data then length (split_dash3 ticket_data) else 1.

Definition fallback_narrative (ticket_data section_name product_name err : string) : string :=
  ("During this " ++ py_lower section_name ++ " period, " ++
   py_str_nat (fallback_ticket_count ticket_data) ++ " tickets were processed for " ++
   product_name ++ " services. The team worked on resolving various technical issues " ++
   "and maintaining service quality. (AI summary unavailable: " ++ err ++ ")")%string.

Definition generate_gemini_narrative (ticket_data section_name product_name : string) : string :=
  if setup_gemini then
    match first_answer model_names (gemini_prompt ticket_data section_name product_name) with
    | Some text => text
    | None => fallback_narrative ticket_data section_name product_name "All Gemini models failed"
    end
  else
    fallback_narrative ticket_data section_name product_name
      "Please set GEMINI_API_KEY environment variable".

(** The Timeframe block of a non-empty section; [None] is the exception of
    [min()] or [strftime] on values that are not datetimes. *)
Definition timeframe_line (section_df : frame) : option string :=
  if mem "ACCEPTANCE_TIME" (cols section_df) then
    match as_times (dropna (column section_df "ACCEPTANCE_TIME")) with
    | Some [] => Some ("**Timeframe:** Date information unavailable" ++ nl ++ nl)%string
    | Some (t :: ts) =>
        let start_date := strftime_date (fold_left Z.min ts t) in
        let end_date := strftime_date (fold_left Z.max ts t) in
        Some (if String.eqb start_date end_date
              then ("**Timeframe:** " ++ start_date ++ nl ++ nl)%string
              else ("**Timeframe:** " ++ start_date ++ " to " ++ end_date ++ nl ++ nl)%string)
    | None => None
    end
  else Some "".

Definition ticket_numbers_line (section_df : frame) : string :=
  if mem "ORDER_NUMBER" (cols section_df) then
    match dropna (column section_df "ORDER_NUMBER") with
    | [] => ("**Ticket Numbers:** No ticket numbers available" ++ nl ++ nl)%string
    | ticket_numbers =>
        ("**Ticket Numbers:** " ++
         String.concat ", " (map (cell_str "ORDER_NUMBER") (firstn 5 ticket_numbers)) ++
         (if Nat.ltb 5 (length ticket_numbers)
          then " (and " ++ py_str_nat (length ticket_numbers - 5) ++ " more)" else "") ++
         nl ++ nl)%string
    end
  else "".

(** The text one section adds to the summary; an empty section adds none. *)
Definition section_text (product_name section_name : string) (section_df : frame) : option string :=
  if frame_empty section_df then Some ""
  else
    match timeframe_line section_df with
    | None => None
    | Some timeframe =>
        Some ("## " ++ section_name ++ nl ++ nl ++ timeframe ++ ticket_numbers_line section_df ++
              "**Narrative:** " ++
              generate_gemini_narrative (prepare_ticket_data_for_gemini section_df)
                section_name product_name ++ nl ++ nl ++
              "---" ++ nl ++ nl)%string
    end.

Fixpoint append_sections (product_name summary : string) (sections : list (string * frame))
  : option string :=
  match sections with
  | [] => Some summary
  | (section_name, section_df) :: rest =>
      match section_text product_name section_name section_df with
      | None => None
      | Some text => append_sections product_name (summary ++ text)%string rest
      end
  end.

(** [None] is an exception the function lets through. *)
Definition create_product_summary_with_gemini (df : frame) (product_name : string) : option string :=
  if frame_empty df then
    Some ("# " ++ product_name ++ " Service Summary" ++ nl ++ nl ++
          "No tickets found for this product category.")%string
  else if negb (mem "ACCEPTANCE_TIME" (cols df)) then
    Some ("# " ++ product_name ++ " Service Summary" ++ nl ++ nl ++
          "Error: Missing required ACCEPTANCE_TIME column.")%string
  else
    append_sections product_name ("# " ++ product_name ++ " Service Journey" ++ nl ++ nl)%string
      (divide_tickets_into_sections df).

(** [Series.unique()]: distinct values in order of first appearance. *)
Definition unique_values (l : list cell) : list cell :=
  fold_left (fun acc c => if existsb (cell_eqb c) acc then acc else acc ++ [c]) l [].

(** [df[df['PRODUCT'] == product]] for a non-NaN [product]. *)
Definition product_frame (df : frame) (product : cell) : frame :=
  mkFrame (cols df) (filter (fun r => cell_eqb (get r "PRODUCT") product) (rows df)).

Fixpoint summaries_for (df : frame) (products : list cell) : option (list (cell * string)) :=
  match products with
  | [] => Some []
  | product :: rest =>
      match create_product_summary_with_gemini (product_frame df product)
              (cell_str "PRODUCT" product) with
      | None => None
      | Some s => option_map (cons (product, s)) (summaries_for df rest)
      end
  end.

(** The dict of summaries, keyed by product, in insertion order. *)
Definition generate_all_summaries_with_gemini (df : frame) : option (list (cell * string)) :=
  if frame_empty df then Some []
  else if negb (mem "PRODUCT" (cols df)) then
    Some [(CStr "Error", "PRODUCT column not found in dataset")]
  else summaries_for df (unique_values (dropna (column df "PRODUCT"))).

End Story.

(** ** visualization.py: the data the charts are drawn from *)

(** [groupby(key).size()]: the number of rows of each key, keys ascending. *)
Fixpoint count_into (d : Z) (m : list (Z * nat)) : list (Z * nat) :=
  match m with
  | [] => [(d, 1%nat)]
  | (k, n) :: m' =>
      if (d <? k)%Z then (d, 1%nat) :: m
      else if (d =? k)%Z then (k, S n) :: m'
      else (k, n) :: count_into d m'
  end.

Definition group_size (ds : list Z) : list (Z * nat) :=
  fold_left (fun m d => count_into d m) ds [].

(** [create_ticket_trend_chart]: the [daily_counts] table handed to
    [px.line], a DATE given by its day number; [None] where the function
    returns None (also from its exception handler). *)
Definition create_ticket_trend_chart (df : frame) : option (list (Z * nat)) :=
  if frame_empty df || negb (mem "ACCEPTANCE_TIME" (cols df)) then None
  else
    let df_temp := filter (fun r => negb (isna (get r "ACCEPTANCE_TIME"))) (rows df) in
    match df_temp with
    | [] => None
    | _ =>
        match as_times (map (fun r => get r "ACCEPTANCE_TIME") df_temp) with
        | Some ts => Some (group_size (map (fun t => t / ns_per_day)%Z ts))
        | None => None
        end
    end.

(** [create_customer_activity_chart]: the top ten of [value_counts] handed
    to [px.bar]. *)
Definition create_customer_activity_chart (df : frame) : option (list (cell * nat)) :=
  if frame_empty df || negb (mem "CUSTOMER_NUMBER" (cols df)) then None
  else
    match firstn 10 (value_counts (column df "CUSTOMER_NUMBER")) with
    | [] => None
    | customer_counts => Some customer_counts
    end.

(** [create_product_distribution_chart]: the [value_counts] of PRODUCT handed
    to [px.pie]. *)
Definition create_product_distribution_chart (df : frame) : option (list (cell * nat)) :=
  if frame_empty df || negb (mem "PRODUCT" (cols df)) then None
  else
    match value_counts (column df "PRODUCT") with
    | [] => None
    | product_counts => Some product_counts
    end.

(** An uploaded batch before normalisation: acceptance times still text. *)
Definition upload_raw : frame :=
  mkFrame ["ORDER_NUMBER"; "ACCEPTANCE_TIME"; "SERVICE_CATEGORY"]
    [ [("ORDER_NUMBER", CStr "T001"); ("ACCEPTANCE_TIME", CStr "01/15/2024 10:30");
       ("SERVICE_CATEGORY", CStr "NET")];
      [("ORDER_NUMBER", CStr "T002"); ("ACCEPTANCE_TIME", CStr "01/16/2024 14:20");
       ("SERVICE_CATEGORY", CStr "KAV")] ].


(** ** Helpers for stating properties *)

(** The number of cells of [l] equal to [v]. *)
Definition count_value (v : cell) (l : list cell) : nat :=
  length (filter (fun c => cell_eqb c v) l).

(** [m] lists distinct non-NaN values, each with its number of occurrences
    in [l]. *)
Definition exact_counts (m : list (cell * nat)) (l : list cell) : Prop :=
  NoDup (map fst m) /\ forall k n, In (k, n) m -> k <> CNull /\ n = count_value k l.

(** Counts listed from the most to the least frequent. *)
Definition counts_descending (m : list (cell * nat)) : Prop :=
  Sorted (fun p q => (snd q <= snd p)%nat) m.

(** * Proofs *)

(** ** Slices *)

Lemma firstn_skipn_app {A} (x : list A) (m k : nat) :
  firstn m x ++ firstn k (skipn m x) = firstn (m + k) x.
Proof.
  revert x; induction m as [|m IH]; intros [|a x]; simpl; auto.
  - now rewrite firstn_nil.
  - now rewrite IH.
Qed.

Lemma iloc_slice_app {A} (l : list A) (a b c : nat) :
  a <= b -> b <= c -> iloc_slice l a b ++ iloc_slice l b c = iloc_slice l a c.
Proof.
  intros Hab Hbc; unfold iloc_slice.
  assert (Hs : skipn b l = skipn (b - a) (skipn a l))
    by (rewrite skipn_skipn; f_equal; lia).
  rewrite Hs, firstn_skipn_app; f_equal; lia.
Qed.

Lemma iloc_slice_length {A} (l : list A) (a b : nat) :
  length (iloc_slice l a b) = Nat.min (b - a) (length l - a).
Proof. unfold iloc_slice; now rewrite length_firstn, length_skipn. Qed.

Lemma iloc_slice_from_0 {A} (l : list A) (b : nat) : iloc_slice l 0 b = firstn b l.
Proof. unfold iloc_slice; now rewrite Nat.sub_0_r. Qed.

(** The five sections of a non-empty frame, written out. *)
Lemma divide_nonempty (df : frame) :
  frame_empty df = false ->
  let n := length (rows df) in
  let s := Nat.max 1 (n / 5) in
  divide_tickets_into_sections df =
    [ ("Initial Issue", mkFrame (cols df) (iloc_slice (rows df) 0 s));
      ("Follow-ups", mkFrame (cols df) (iloc_slice (rows df) s (2 * s)));
      ("Developments", mkFrame (cols df) (iloc_slice (rows df) (2 * s) (3 * s)));
      ("Later Incidents", mkFrame (cols df) (iloc_slice (rows df) (3 * s) (4 * s)));
      ("Recent Events", mkFrame (cols df) (iloc_slice (rows df) (4 * s) n)) ].
Proof.
  intros He n s; unfold divide_tickets_into_sections; rewrite He.
  cbn -[Nat.max Nat.div Nat.mul iloc_slice]. repeat f_equal; unfold s, n; lia.
Qed.

Lemma frame_empty_false (df : frame) :
  cols df <> [] -> rows df <> [] -> frame_empty df = false.
Proof.
  unfold frame_empty; destruct (rows df), (cols df); congruence.
Qed.

Lemma section_sizes_nonempty (df : frame) :
  frame_empty df = false ->
  let n := length (rows df) in
  let s := Nat.max 1 (n / 5) in
  section_sizes df =
    [ Nat.min s n; Nat.min s (n - s); Nat.min s (n - 2 * s); Nat.min s (n - 3 * s); n - 4 * s ].
Proof.
  intros He n s; unfold section_sizes; rewrite (divide_nonempty df He).
  cbn [map fst snd rows]; rewrite !iloc_slice_length; unfold s, n.
  repeat (f_equal; [lia|]); f_equal; lia.
Qed.

Example sections_of_23 : section_sizes (net_frame 23) = [4; 4; 4; 4; 7]%nat.
Proof. reflexivity. Qed.

Example sections_of_3 : section_sizes (net_frame 3) = [1; 1; 1; 0; 0]%nat.
Proof. reflexivity. Qed.

(** C1: for every ticket batch (a frame whose rows carry at least one
    column), of any length including 0, [divide_tickets_into_sections]
    returns the five sections named by [STORY_SECTIONS] in order, and the
    concatenation of their rows is exactly the batch's rows. *)
Theorem sections_concat_reproduces_batch (df : frame) (Hcols : cols df <> []) :
  map fst (divide_tickets_into_sections df) = STORY_SECTIONS /\
  concat (map (fun p => rows (snd p)) (divide_tickets_into_sections df)) = rows df.
Proof.
  destruct (rows df) as [|r rs] eqn:Hr.
  - unfold divide_tickets_into_sections, frame_empty; rewrite Hr; split; reflexivity.
  - assert (He : frame_empty df = false) by (apply frame_empty_false; congruence).
    rewrite (divide_nonempty df He); cbn [map fst snd rows concat]; split; [reflexivity|].
    rewrite app_nil_r, Hr.
    set (l := r :: rs). set (n := length l). set (s := Nat.max 1 (n / 5)).
    rewrite !app_assoc.
    rewrite (iloc_slice_app l 0 s (2 * s)) by lia.
    rewrite (iloc_slice_app l 0 (2 * s) (3 * s)) by lia.
    rewrite (iloc_slice_app l 0 (3 * s) (4 * s)) by lia.
    destruct (Nat.le_gt_cases (4 * s) n) as [Hle|Hgt].
    + rewrite (iloc_slice_app l 0 (4 * s) n) by lia.
      rewrite iloc_slice_from_0; apply firstn_all.
    + unfold iloc_slice at 2; replace (n - 4 * s) with 0 by lia.
      rewrite iloc_slice_from_0; simpl; rewrite app_nil_r.
      apply firstn_all2; unfold n in Hgt; lia.
Qed.

Lemma sections_concat_reproduces_batch_witness :
  cols (net_frame 6) <> [] /\
  concat (map (fun p => rows (snd p)) (divide_tickets_into_sections (net_frame 6)))
    = rows (net_frame 6).
Proof.
  split; [discriminate|].
  apply (sections_concat_reproduces_batch (net_frame 6)); discriminate.
Defined.

(** C4, as the spec states it: for a batch of positive length not a
    multiple of 5, the fifth section is strictly larger than the other four.
    It fails for a batch of one ticket: the sizes are [1;0;0;0;0]. *)
Lemma sections_last_larger_fails_for_1 :
  ~ (forall df : frame, cols df <> [] -> 0 < length (rows df) -> length (rows df) mod 5 <> 0 ->
       forall k, k < 4 -> nth k (section_sizes df) 0 < nth 4 (section_sizes df) 0).
Proof.
  intro H.
  specialize (H (net_frame 1) ltac:(discriminate) ltac:(simpl; lia) ltac:(simpl; lia) 0 ltac:(lia)).
  vm_compute in H; lia.
Qed.

(** C4 amended: for a batch of at least 5 tickets whose length is not a
    multiple of 5, the fifth section is strictly larger than each of the
    other four; a batch of 23 tickets has section sizes [4;4;4;4;7]. *)
Theorem sections_last_absorbs_remainder (df : frame) (Hcols : cols df <> []) :
  (5 <= length (rows df) -> length (rows df) mod 5 <> 0 ->
   forall k, k < 4 -> nth k (section_sizes df) 0 < nth 4 (section_sizes df) 0) /\
  (length (rows df) = 23 -> section_sizes df = [4; 4; 4; 4; 7]%nat).
Proof.
  assert (Hsz : 0 < length (rows df) ->
                section_sizes df =
                  (let n := length (rows df) in let s := Nat.max 1 (n / 5) in
                   [ Nat.min s n; Nat.min s (n - s); Nat.min s (n - 2 * s);
                     Nat.min s (n - 3 * s); n - 4 * s ])).
  { intro Hpos; apply section_sizes_nonempty, frame_empty_false; auto.
    destruct (rows df); simpl in Hpos; [lia | discriminate]. }
  split.
  - intros H5 Hm k Hk; rewrite Hsz by lia; cbv zeta.
    set (n := length (rows df)) in *.
    pose proof (Nat.div_mod_eq n 5); pose proof (Nat.mod_upper_bound n 5 ltac:(lia)).
    assert (Hs : Nat.max 1 (n / 5) = n / 5) by lia.
    rewrite Hs.
    destruct k as [|[|[|[|k]]]]; cbn [nth]; lia.
  - intros H23; rewrite Hsz by lia; cbv zeta; rewrite H23; reflexivity.
Qed.

Lemma sections_last_absorbs_remainder_witness :
  cols (net_frame 23) <> [] /\ section_sizes (net_frame 23) = [4; 4; 4; 4; 7]%nat.
Proof.
  split; [discriminate|].
  apply (sections_last_absorbs_remainder (net_frame 23)); [discriminate | reflexivity].
Defined.

(** ** Rows and columns *)

Lemma get_set_same (r : row) (c : string) (v : cell) : get (set r c v) c = v.
Proof.
  induction r as [|[k w] r IH]; simpl.
  - now rewrite String.eqb_refl.
  - destruct (String.eqb k c) eqn:E; simpl; rewrite ?E; auto.
Qed.

Lemma get_set_other (r : row) (c c' : string) (v : cell) :
  c <> c' -> get (set r c v) c' = get r c'.
Proof.
  intros Hne; induction r as [|[k w] r IH]; simpl.
  - destruct (String.eqb c c') eqn:E; auto. apply String.eqb_eq in E; congruence.
  - destruct (String.eqb k c) eqn:E; simpl.
    + apply String.eqb_eq in E; subst k.
      destruct (String.eqb c c') eqn:E'; auto. apply String.eqb_eq in E'; congruence.
    + destruct (String.eqb k c'); auto.
Qed.

Lemma mem_In (c : string) (l : list string) : mem c l = true <-> In c l.
Proof.
  unfold mem; rewrite existsb_exists; split.
  - intros [x [Hx E]]; apply String.eqb_eq in E; now subst.
  - intros H; exists c; split; auto; apply String.eqb_refl.
Qed.

Lemma fold_map_column (f : cell -> cell) (L : list string) (d : frame) :
  fold_left (fun d c => if mem c (cols d) then map_column f c d else d) L d =
  mkFrame (cols d) (map (fun r => fold_left (row_step (cols d) f) L r) (rows d)).
Proof.
  revert d; induction L as [|c L IH]; intros [cs rs]; simpl.
  - now rewrite map_id.
  - destruct (mem c cs) eqn:E; rewrite IH; simpl; [rewrite map_map|];
      f_equal; apply map_ext; intros r; f_equal; unfold row_step; now rewrite E.
Qed.

Lemma get_fold_row_step_other (cs : list string) (f : cell -> cell) (L : list string)
      (r : row) (k : string) :
  ~ In k L -> get (fold_left (row_step cs f) L r) k = get r k.
Proof.
  revert r; induction L as [|c L IH]; intros r Hk; simpl; auto.
  rewrite IH by (simpl in Hk; tauto).
  unfold row_step; destruct (mem c cs); auto.
  apply get_set_other; simpl in Hk; tauto.
Qed.

Lemma get_fold_row_step_in (cs : list string) (f : cell -> cell) (L : list string)
      (r : row) (k : string) :
  NoDup L -> In k L -> mem k cs = true ->
  get (fold_left (row_step cs f) L r) k = f (get r k).
Proof.
  revert r; induction L as [|c L IH]; intros r Hnd Hk Hm; [destruct Hk|].
  inversion Hnd as [|? ? Hc Hnd']; subst; simpl.
  destruct (String.eqb c k) eqn:E.
  - apply String.eqb_eq in E; subst c.
    rewrite get_fold_row_step_other by assumption.
    unfold row_step; rewrite Hm; apply get_set_same.
  - assert (c <> k) by (intro; subst; now rewrite String.eqb_refl in E).
    rewrite IH by (auto; destruct Hk; congruence).
    unfold row_step; destruct (mem c cs); auto.
    now rewrite get_set_other.
Qed.

Lemma convert_dates_eq (to_datetime : cell -> option Z) (d : frame) :
  convert_dates to_datetime d =
  mkFrame (cols d) (map (convert_row to_datetime (cols d)) (rows d)).
Proof. apply fold_map_column. Qed.

Lemma fill_text_eq (d : frame) :
  fill_text d = mkFrame (cols d) (map (fill_row (cols d)) (rows d)).
Proof. apply fold_map_column. Qed.

Lemma get_project_row (avail : list string) (r : row) (c : string) :
  In c avail -> get (project_row avail r) c = get r c.
Proof.
  induction avail as [|a avail IH]; intros H; [destruct H|]; simpl.
  destruct (String.eqb a c) eqn:E.
  - apply String.eqb_eq in E; now subst.
  - apply IH; destruct H; auto; subst; now rewrite String.eqb_refl in E.
Qed.

Lemma mem_cons (c a : string) (l : list string) : mem c (a :: l) = String.eqb c a || mem c l.
Proof. reflexivity. Qed.

Lemma mem_filter_mem (c : string) (cs l : list string) :
  mem c (filter (fun col => mem col cs) l) = mem c l && mem c cs.
Proof.
  apply Bool.eq_iff_eq_true; rewrite andb_true_iff, !mem_In, filter_In.
  cbv beta; rewrite mem_In; tauto.
Qed.

Lemma mem_available (c : string) (df : frame) :
  mem c (available_columns_of df) = mem c SELECTED_COLUMNS && mem c (cols df).
Proof. apply mem_filter_mem. Qed.

(** ** A batch without the category column *)

(** C7: a raw batch with no [SERVICE_CATEGORY] column normalises to the
    empty frame, whatever else it holds; the function is total, so the
    empty result is the only signal. *)
Theorem normalize_without_category_is_empty (to_datetime : cell -> option Z)
        (argsort : list Z -> list nat) (raw : frame) :
  mem "SERVICE_CATEGORY" (cols raw) = false ->
  filter_and_clean_data to_datetime argsort raw = empty_frame.
Proof.
  intros H; unfold filter_and_clean_data.
  destruct (frame_empty raw); auto.
  rewrite mem_available, H, andb_false_r; reflexivity.
Qed.

Lemma normalize_without_category_is_empty_witness :
  mem "SERVICE_CATEGORY" (cols (mkFrame ["ORDER_NUMBER"; "NOTE_MAXIMUM"]
                                  [[("ORDER_NUMBER", CNum 1); ("NOTE_MAXIMUM", CStr "x")]])) = false /\
  filter_and_clean_data (fun _ => None) NumpySort.numpy_argsort
    (mkFrame ["ORDER_NUMBER"; "NOTE_MAXIMUM"]
             [[("ORDER_NUMBER", CNum 1); ("NOTE_MAXIMUM", CStr "x")]]) = empty_frame.
Proof.
  split; [reflexivity|].
  apply normalize_without_category_is_empty; reflexivity.
Defined.

(** ** Permutations: [insertion_argsort] meets the argsort contract *)

Lemma ins_idx_perm (ks : list Z) (i : nat) (l : list nat) :
  Permutation (ins_idx ks i l) (i :: l).
Proof.
  induction l as [|j l IH]; simpl; auto.
  destruct (Z.leb _ _); auto.
  eapply perm_trans; [apply perm_skip, IH | apply perm_swap].
Qed.

Lemma ins_idx_sorted (ks : list Z) (i : nat) (l : list nat) :
  Sorted (fun a b => (nth a ks 0 <= nth b ks 0)%Z) l ->
  Sorted (fun a b => (nth a ks 0 <= nth b ks 0)%Z) (ins_idx ks i l).
Proof.
  induction l as [|j l IH]; intros Hs; simpl; [repeat constructor|].
  destruct (Z.leb (nth i ks 0%Z) (nth j ks 0%Z)) eqn:E.
  - constructor; auto; constructor; now apply Z.leb_le.
  - apply Z.leb_gt in E. inversion Hs as [|? ? Hs' Hhd]; subst.
    constructor; [now apply IH|].
    destruct l as [|k l]; simpl; [constructor; lia|].
    inversion Hhd; subst.
    destruct (Z.leb (nth i ks 0%Z) (nth k ks 0%Z)); constructor; lia.
Qed.

Lemma insertion_argsort_spec : argsort_spec insertion_argsort.
Proof.
  intros ks; unfold insertion_argsort; split.
  - induction (seq 0 (length ks)) as [|i l IH]; simpl; auto.
    eapply perm_trans; [apply ins_idx_perm | now apply perm_skip].
  - induction (seq 0 (length ks)) as [|i l IH]; simpl; [constructor|].
    now apply ins_idx_sorted.
Qed.

(** ** [sort_values] permutes the rows *)

Lemma map_nth_seq_id {A} (l : list A) (d : A) :
  map (fun j => nth j l d) (seq 0 (length l)) = l.
Proof.
  induction l as [|a l IH]; simpl; auto.
  f_equal; rewrite <- seq_shift, map_map; exact IH.
Qed.

Lemma filter_split_perm {A} (f : A -> bool) (l : list A) :
  Permutation (filter (fun x => negb (f x)) l ++ filter f l) l.
Proof.
  induction l as [|a l IH]; simpl; auto.
  destruct (f a); simpl.
  - symmetry; apply Permutation_cons_app; symmetry; exact IH.
  - now apply perm_skip.
Qed.

Section Sorting.
Variable argsort : list Z -> list nat.
Hypothesis Hargsort : argsort_spec argsort.

Lemma nargsort_perm (items : list cell) :
  Permutation (nargsort argsort items) (seq 0 (length items)).
Proof.
  unfold nargsort.
  set (nni := filter (fun i => negb (isna (nth i items CNull))) (seq 0 (length items))).
  set (nn := map (fun i => values_for_argsort (nth i items CNull)) nni).
  eapply perm_trans; [|apply (filter_split_perm (fun i => isna (nth i items CNull)))].
  apply Permutation_app_tail.
  destruct (Hargsort nn) as [Hp _].
  eapply perm_trans; [apply Permutation_map, Hp|].
  unfold nn; rewrite length_map, map_nth_seq_id; apply Permutation_refl.
Qed.

Lemma sort_values_perm (c : string) (d : frame) :
  cols (sort_values argsort c d) = cols d /\
  Permutation (rows (sort_values argsort c d)) (rows d).
Proof.
  split; [reflexivity|]; unfold sort_values; cbn [rows].
  eapply perm_trans; [apply Permutation_map, nargsort_perm|].
  rewrite length_map, map_nth_seq_id; apply Permutation_refl.
Qed.

End Sorting.

Lemma clean_filtered_rows (to_datetime : cell -> option Z) (argsort : list Z -> list nat)
      (d : frame) :
  argsort_spec argsort ->
  cols (clean_filtered to_datetime argsort d) = cols d ++ ["PRODUCT"] /\
  Permutation (rows (clean_filtered to_datetime argsort d))
              (map (finish_row to_datetime (cols d)) (rows d)).
Proof.
  intros Hs; unfold clean_filtered; rewrite convert_dates_eq.
  set (d2 := add_product _).
  assert (Hc2 : cols d2 = cols d ++ ["PRODUCT"]) by reflexivity.
  assert (Hr2 : rows d2 = map (fun r => product_row (convert_row to_datetime (cols d) r)) (rows d))
    by (unfold d2, add_product, product_row; cbn [rows]; now rewrite map_map).
  set (d3 := if mem "ACCEPTANCE_TIME" (cols d2) then _ else d2).
  assert (H3 : cols d3 = cols d2 /\ Permutation (rows d3) (rows d2)).
  { unfold d3; destruct (mem _ _); [now apply sort_values_perm | auto]. }
  destruct H3 as [Hc3 Hp3].
  rewrite fill_text_eq; cbn [cols rows]; split; [congruence|].
  rewrite Hc3, Hc2; eapply perm_trans; [apply Permutation_map, Hp3|].
  rewrite Hr2, map_map; apply Permutation_refl.
Qed.

Lemma get_project_row_notin (avail : list string) (r : row) (c : string) :
  ~ In c avail -> get (project_row avail r) c = CNull.
Proof.
  induction avail as [|a avail IH]; intros H; simpl; auto.
  destruct (String.eqb a c) eqn:E.
  - apply String.eqb_eq in E; subst; simpl in H; tauto.
  - apply IH; simpl in H; tauto.
Qed.

Lemma post_filter_without_category (raw : frame) :
  mem "SERVICE_CATEGORY" (available_columns_of raw) = false -> post_filter_rows raw = [].
Proof.
  intros H; unfold post_filter_rows, filter_valid, project; cbn [rows].
  induction (rows raw) as [|r rs IH]; simpl; auto.
  rewrite get_project_row_notin; auto.
  intro Hin; apply mem_In in Hin; congruence.
Qed.

(** Every path of [filter_and_clean_data]: the output rows are the
    post-filter rows, each passed through [finish_row], in some order. *)
Lemma normalize_rows_perm (to_datetime : cell -> option Z) (argsort : list Z -> list nat)
      (raw : frame) :
  argsort_spec argsort ->
  Permutation (rows (filter_and_clean_data to_datetime argsort raw))
              (map (finish_row to_datetime (available_columns_of raw)) (post_filter_rows raw)).
Proof.
  intros Hs; unfold filter_and_clean_data.
  destruct (mem "SERVICE_CATEGORY" (available_columns_of raw)) eqn:Hm.
  - destruct (frame_empty raw) eqn:He.
    + unfold post_filter_rows, filter_valid, project; cbn [rows].
      unfold frame_empty in He; destruct (rows raw) as [|r rs]; [constructor|].
      rewrite mem_available in Hm; destruct (cols raw); [|discriminate].
      rewrite andb_false_r in Hm; discriminate.
    + cbn [negb].
      change (post_filter_rows raw)
        with (rows (filter_valid (project (available_columns_of raw) raw))).
      destruct (frame_empty (filter_valid (project (available_columns_of raw) raw))) eqn:Hf.
      * unfold frame_empty in Hf.
        destruct (rows (filter_valid _)) eqn:Hp; [constructor|].
        cbn [cols filter_valid project] in Hf.
        destruct (available_columns_of raw); [discriminate | discriminate].
      * apply clean_filtered_rows; auto.
  - rewrite post_filter_without_category by auto.
    destruct (frame_empty raw); simpl; constructor.
Qed.

(** ** What [finish_row] does to each column *)

Ltac not_in_cols := simpl; intuition discriminate.

Lemma get_finish_other (to_datetime : cell -> option Z) (cs : list string) (r : row) (k : string) :
  ~ In k DATE_COLUMNS -> ~ In k TEXT_COLUMNS -> k <> "PRODUCT" ->
  get (finish_row to_datetime cs r) k = get r k.
Proof.
  intros Hd Ht Hp; unfold finish_row, fill_row, product_row, convert_row.
  rewrite get_fold_row_step_other, get_set_other, get_fold_row_step_other; auto.
Qed.

Lemma get_finish_product (to_datetime : cell -> option Z) (cs : list string) (r : row) :
  get (finish_row to_datetime cs r) "PRODUCT" = map_category (get r "SERVICE_CATEGORY").
Proof.
  unfold finish_row, fill_row, product_row, convert_row.
  rewrite get_fold_row_step_other by not_in_cols.
  rewrite get_set_same, get_fold_row_step_other by not_in_cols; reflexivity.
Qed.

Lemma get_finish_text (to_datetime : cell -> option Z) (cs : list string) (r : row) (k : string) :
  In k TEXT_COLUMNS -> mem k cs = true ->
  get (finish_row to_datetime cs r) k = fillna (get r k).
Proof.
  intros Hk Hm; unfold finish_row, fill_row, product_row, convert_row.
  assert (Hd : ~ In k DATE_COLUMNS) by (simpl in Hk |- *; intuition (subst; discriminate)).
  assert (Hp : "PRODUCT" <> k) by (simpl in Hk; intuition (subst; discriminate)).
  rewrite get_fold_row_step_in; auto.
  - rewrite get_set_other, get_fold_row_step_other; auto.
  - repeat constructor; not_in_cols.
  - rewrite mem_In in Hm |- *; apply in_or_app; auto.
Qed.

Lemma get_finish_date (to_datetime : cell -> option Z) (cs : list string) (r : row) :
  mem "ACCEPTANCE_TIME" cs = true ->
  get (finish_row to_datetime cs r) "ACCEPTANCE_TIME"
  = convert_cell to_datetime (get r "ACCEPTANCE_TIME").
Proof.
  intros Hm; unfold finish_row, fill_row, product_row, convert_row.
  rewrite get_fold_row_step_other by not_in_cols.
  rewrite get_set_other by discriminate.
  apply get_fold_row_step_in; auto; [repeat constructor; not_in_cols | now left].
Qed.

(** Each output row comes from one input row that passed the filter. *)
Lemma normalize_row_origin (to_datetime : cell -> option Z) (argsort : list Z -> list nat)
      (raw : frame) (r : row) :
  argsort_spec argsort ->
  In r (rows (filter_and_clean_data to_datetime argsort raw)) ->
  exists rr, In rr (rows raw) /\ isin_valid (get rr "SERVICE_CATEGORY") = true /\
             mem "SERVICE_CATEGORY" (available_columns_of raw) = true /\
             r = finish_row to_datetime (available_columns_of raw)
                            (project_row (available_columns_of raw) rr).
Proof.
  intros Hs Hin.
  apply (Permutation_in _ (normalize_rows_perm to_datetime argsort raw Hs)) in Hin.
  apply in_map_iff in Hin as [r0 [Hr Hin]].
  destruct (mem "SERVICE_CATEGORY" (available_columns_of raw)) eqn:Hm.
  - unfold post_filter_rows, filter_valid, project in Hin; cbn [rows] in Hin.
    apply filter_In in Hin as [Hin Hv].
    apply in_map_iff in Hin as [rr [Hrr Hin]]; subst r0.
    rewrite get_project_row in Hv by (now apply mem_In).
    exists rr; auto.
  - rewrite post_filter_without_category in Hin by auto; destruct Hin.
Qed.

Lemma isin_valid_In (c : cell) :
  isin_valid c = true -> exists s, c = CStr s /\ In s VALID_CATEGORIES.
Proof.
  destruct c; cbn [isin_valid]; try discriminate.
  intros H; exists s; split; auto; now apply mem_In.
Qed.

Lemma length_filter_map {A B} (f : B -> bool) (g : A -> B) (l : list A) :
  length (filter f (map g l)) = length (filter (fun x => f (g x)) l).
Proof. induction l as [|a l IH]; simpl; auto; destruct (f (g a)); simpl; auto. Qed.

(** ** Category whitelist and product mapping *)

Example isin_valid_is_case_sensitive :
  isin_valid (CStr "net") = false /\ isin_valid (CStr " NET") = false /\
  isin_valid (CStr "NET") = true /\ isin_valid CNull = false.
Proof. repeat split; reflexivity. Qed.

(** C2: every row of a normalised batch has a [SERVICE_CATEGORY] that is
    one of the seven whitelist strings (exact, case-sensitive match), equal
    to the value its input row had (nothing is repaired); when the input has
    the column, the output has exactly as many rows as the input has rows
    whose value passes that exact match, so every other row is dropped. *)
Theorem normalize_category_whitelist (to_datetime : cell -> option Z)
        (argsort : list Z -> list nat) (raw : frame) (Hs : argsort_spec argsort) :
  (forall r, In r (rows (filter_and_clean_data to_datetime argsort raw)) ->
     exists rr s, In rr (rows raw) /\ get rr "SERVICE_CATEGORY" = CStr s /\
                  get r "SERVICE_CATEGORY" = CStr s /\ In s VALID_CATEGORIES) /\
  (mem "SERVICE_CATEGORY" (cols raw) = true ->
     length (rows (filter_and_clean_data to_datetime argsort raw)) =
     length (filter (fun rr => isin_valid (get rr "SERVICE_CATEGORY")) (rows raw))).
Proof.
  split.
  - intros r Hin.
    destruct (normalize_row_origin _ _ _ _ Hs Hin) as [rr [Hrr [Hv [Hm Hr]]]].
    destruct (isin_valid_In _ Hv) as [s [Hc Hs']].
    exists rr, s; repeat split; auto.
    subst r; rewrite get_finish_other by not_in_cols.
    rewrite get_project_row by (now apply mem_In); exact Hc.
  - intros Hc.
    rewrite (Permutation_length (normalize_rows_perm to_datetime argsort raw Hs)), length_map.
    unfold post_filter_rows, filter_valid, project; cbn [rows].
    rewrite length_filter_map; f_equal; apply filter_ext; intros rr.
    rewrite get_project_row; auto.
    apply mem_In; rewrite mem_available, Hc; reflexivity.
Qed.

Lemma normalize_category_whitelist_witness :
  argsort_spec insertion_argsort /\
  length (rows (filter_and_clean_data passthrough_datetime insertion_argsort ex_raw)) = 10%nat.
Proof.
  split; [exact insertion_argsort_spec|].
  rewrite (proj2 (normalize_category_whitelist passthrough_datetime insertion_argsort ex_raw
                    insertion_argsort_spec) eq_refl).
  reflexivity.
Defined.

(** C3: every row of a normalised batch has a non-null [PRODUCT], the image
    of its [SERVICE_CATEGORY] under [CATEGORY_MAPPING]; the mapping is total
    on the whitelist with NET, KAI to Broadband, KAV to Voice, KAD to TV,
    GIGA to GIGA, VOD to VOD and HDW to Hardware. *)
Theorem normalize_product_mapping (to_datetime : cell -> option Z)
        (argsort : list Z -> list nat) (raw : frame) (Hs : argsort_spec argsort) :
  (forall r, In r (rows (filter_and_clean_data to_datetime argsort raw)) ->
     exists s p, get r "SERVICE_CATEGORY" = CStr s /\ CATEGORY_MAPPING s = Some p /\
                 get r "PRODUCT" = CStr p) /\
  map CATEGORY_MAPPING VALID_CATEGORIES =
    [Some "Hardware"; Some "Broadband"; Some "Broadband"; Some "Voice"; Some "GIGA";
     Some "VOD"; Some "TV"].
Proof.
  split; [|reflexivity].
  intros r Hin.
  destruct (normalize_row_origin _ _ _ _ Hs Hin) as [rr [Hrr [Hv [Hm Hr]]]].
  destruct (isin_valid_In _ Hv) as [s [Hc Hs']].
  assert (Hsc : get r "SERVICE_CATEGORY" = CStr s).
  { subst r; rewrite get_finish_other by not_in_cols.
    rewrite get_project_row by (now apply mem_In); exact Hc. }
  assert (Hp : get r "PRODUCT" = map_category (CStr s)).
  { subst r; rewrite get_finish_product.
    rewrite get_project_row by (now apply mem_In); now rewrite Hc. }
  simpl in Hs'.
  destruct Hs' as [<-|[<-|[<-|[<-|[<-|[<-|[<-|[]]]]]]]]; rewrite Hp;
    (eexists _, _; split; [exact Hsc | split; reflexivity]).
Qed.

Lemma normalize_product_mapping_witness :
  argsort_spec insertion_argsort /\
  (forall r, In r (rows (filter_and_clean_data passthrough_datetime insertion_argsort ex_raw)) ->
     exists s p, get r "SERVICE_CATEGORY" = CStr s /\ CATEGORY_MAPPING s = Some p /\
                 get r "PRODUCT" = CStr p).
Proof.
  split; [exact insertion_argsort_spec|].
  apply (normalize_product_mapping passthrough_datetime insertion_argsort ex_raw
           insertion_argsort_spec).
Defined.

(** ** Text fill *)

(** C6, as the spec states it, has [filter_and_clean_data] replace null
    and empty free-text values by the sentinel.  [fillna] replaces NaN only:
    in the example batch, ticket 4 has an empty [NOTE_MAXIMUM] string and
    keeps it (last row of the output), while ticket 3's missing note becomes
    the sentinel. *)
Lemma normalize_keeps_empty_text :
  mem "NOTE_MAXIMUM" (cols ex_raw) = true /\
  In (ex_row 4 "HDW" CNull (CStr "")) (rows ex_raw) /\
  column (filter_and_clean_data passthrough_datetime NumpySort.numpy_argsort ex_raw)
         "NOTE_MAXIMUM" =
    [CStr "ok"; CStr "ok"; CStr SENTINEL; CStr "line check"; CStr "ok"; CStr "ok";
     CStr "router reset"; CStr "ok"; CStr "ok"; CStr ""].
Proof.
  split; [reflexivity|]; split; [simpl; tauto|].
  vm_compute; reflexivity.
Qed.

Lemma text_column_selected (col : string) : In col TEXT_COLUMNS -> mem col SELECTED_COLUMNS = true.
Proof. simpl; intros [<-|[<-|[<-|[<-|[]]]]]; reflexivity. Qed.

(** ** The order [sort_values] produces *)

Lemma Sorted_map_rel {A B} (R : B -> B -> Prop) (f : A -> B) (l : list A) :
  Sorted (fun a b => R (f a) (f b)) l -> Sorted R (map f l).
Proof.
  induction 1 as [|a l Hs IH Hhd]; simpl; constructor; auto.
  destruct Hhd; simpl; constructor; auto.
Qed.

(** [nargsort] lists the non-NaN positions first, their values ascending,
    then the NaN positions. *)
Lemma nargsort_split (argsort : list Z -> list nat) (Hs : argsort_spec argsort)
      (items : list cell) :
  Forall time_or_null items ->
  exists xs ns, map (fun i => nth i items CNull) (nargsort argsort items) = map CTime xs ++ ns /\
                Sorted Z.le xs /\ Forall (fun c => c = CNull) ns.
Proof.
  intros Hty; unfold nargsort.
  set (nni := filter (fun i => negb (isna (nth i items CNull))) (seq 0 (length items))).
  set (nn := map (fun i => values_for_argsort (nth i items CNull)) nni).
  destruct (Hs nn) as [Hp Hsort].
  exists (map (fun j => nth j nn 0%Z) (argsort nn)), (map (fun i => nth i items CNull)
    (filter (fun i => isna (nth i items CNull)) (seq 0 (length items)))).
  split; [|split].
  - rewrite map_app, !map_map; f_equal.
    apply map_ext_in; intros j Hj.
    apply (Permutation_in _ Hp), in_seq in Hj.
    assert (Hlen : length nn = length nni) by apply length_map.
    assert (Hi : In (nth j nni 0%nat) nni) by (apply nth_In; lia).
    apply filter_In in Hi as [Hi Hna]; apply in_seq in Hi.
    rewrite Forall_forall in Hty.
    destruct (Hty (nth (nth j nni 0%nat) items CNull) ltac:(apply nth_In; lia))
      as [Hc|[t Ht]]; [rewrite Hc in Hna; discriminate|].
    rewrite Ht; f_equal.
    assert (E : nth j nn 0%Z = nth j nn (values_for_argsort (nth 0%nat items CNull)))
      by (apply nth_indep; lia).
    rewrite E.
    unfold nn.
    rewrite (map_nth (fun i => values_for_argsort (nth i items CNull)) nni 0%nat j).
    cbv beta; rewrite Ht; reflexivity.
  - now apply Sorted_map_rel.
  - apply Forall_forall; intros c Hc.
    apply in_map_iff in Hc as [i [<- Hi]]; apply filter_In in Hi as [_ Hi].
    destruct (nth i items CNull); simpl in Hi; congruence.
Qed.

(** The paths of [filter_and_clean_data]: nothing survives, or the cleaning
    steps run on the non-empty filtered frame. *)
Lemma normalize_cases (to_datetime : cell -> option Z) (argsort : list Z -> list nat)
      (raw : frame) :
  (rows (filter_and_clean_data to_datetime argsort raw) = [] /\ post_filter_rows raw = []) \/
  (mem "SERVICE_CATEGORY" (available_columns_of raw) = true /\
   filter_and_clean_data to_datetime argsort raw =
   clean_filtered to_datetime argsort (filter_valid (project (available_columns_of raw) raw))).
Proof.
  unfold filter_and_clean_data.
  destruct (mem "SERVICE_CATEGORY" (available_columns_of raw)) eqn:Hm.
  - destruct (frame_empty raw) eqn:He.
    + left; split; [reflexivity|].
      unfold post_filter_rows, filter_valid, project; cbn [rows].
      unfold frame_empty in He; destruct (rows raw) as [|r rs]; [reflexivity|].
      rewrite mem_available in Hm; destruct (cols raw); [|discriminate].
      rewrite andb_false_r in Hm; discriminate.
    + cbn [negb].
      destruct (frame_empty (filter_valid (project (available_columns_of raw) raw))) eqn:Hf;
        [left | right; auto].
      unfold frame_empty in Hf; unfold post_filter_rows.
      destruct (rows (filter_valid _)) eqn:Hp; [auto|].
      cbn [cols filter_valid project] in Hf.
      destruct (available_columns_of raw); discriminate.
  - left; rewrite post_filter_without_category by auto.
    destruct (frame_empty raw); auto.
Qed.

Lemma mem_app (c : string) (l l' : list string) : mem c (l ++ l') = mem c l || mem c l'.
Proof. unfold mem; apply existsb_app. Qed.

Lemma convert_cell_time_or_null (to_datetime : cell -> option Z) (c : cell) :
  time_or_null (convert_cell to_datetime c).
Proof.
  unfold convert_cell, time_or_null; destruct (to_datetime c); [right; eauto | left; auto].
Qed.

(** The acceptance times after [clean_filtered]: the converted times of the
    input rows, in the order of the [nargsort] indexer. *)
Lemma clean_filtered_times (to_datetime : cell -> option Z) (argsort : list Z -> list nat)
      (d : frame) :
  mem "ACCEPTANCE_TIME" (cols d) = true ->
  let keys := map (fun r => convert_cell to_datetime (get r "ACCEPTANCE_TIME")) (rows d) in
  column (clean_filtered to_datetime argsort d) "ACCEPTANCE_TIME" =
  map (fun i => nth i keys CNull) (nargsort argsort keys).
Proof.
  intros Hm keys; unfold clean_filtered; cbv zeta; rewrite convert_dates_eq.
  set (d2 := add_product _).
  assert (Hm2 : mem "ACCEPTANCE_TIME" (cols d2) = true)
    by (unfold d2, add_product; cbn [cols]; now rewrite mem_app, Hm).
  rewrite Hm2, fill_text_eq; unfold column; cbn [rows]; rewrite map_map.
  assert (Hk : map (fun r => get r "ACCEPTANCE_TIME") (rows d2) = keys).
  { unfold d2, add_product, keys; cbn [rows]; rewrite !map_map; apply map_ext; intros r.
    rewrite get_set_other by discriminate.
    unfold convert_row; apply get_fold_row_step_in; auto.
    - repeat constructor; not_in_cols.
    - now left. }
  unfold sort_values; cbn [rows]; rewrite Hk, map_map; apply map_ext; intros i.
  unfold fill_row; rewrite get_fold_row_step_other by not_in_cols.
  rewrite <- Hk; symmetry; exact (map_nth (fun r => get r "ACCEPTANCE_TIME") (rows d2) [] i).
Qed.

(** The acceptance times of a normalised batch whose input has the column:
    ascending datetimes, then NaT. *)
Lemma normalize_times_split (to_datetime : cell -> option Z) (argsort : list Z -> list nat)
      (raw : frame) :
  argsort_spec argsort -> mem "ACCEPTANCE_TIME" (cols raw) = true ->
  exists xs ns,
    column (filter_and_clean_data to_datetime argsort raw) "ACCEPTANCE_TIME" = map CTime xs ++ ns /\
    Sorted Z.le xs /\ Forall (fun c => c = CNull) ns.
Proof.
  intros Hs Hc.
  destruct (normalize_cases to_datetime argsort raw) as [[Hr _]|[_ Heq]].
  - exists [], []; unfold column; rewrite Hr; auto.
  - rewrite Heq, clean_filtered_times.
    + apply nargsort_split; auto.
      apply Forall_forall; intros c Hin; apply in_map_iff in Hin as [r [<- _]].
      apply convert_cell_time_or_null.
    + cbn [cols filter_valid project]; now rewrite mem_available, Hc.
Qed.

Lemma nth_error_time_part (xs : list Z) (ns : list cell) (k : nat) :
  k < length xs -> exists t, nth_error (map CTime xs ++ ns) k = Some (CTime t) /\
                             nth_error xs k = Some t.
Proof.
  intros Hk; rewrite nth_error_app1 by (now rewrite length_map).
  rewrite nth_error_map.
  destruct (nth_error xs k) eqn:E; [eexists; split; reflexivity|].
  apply nth_error_None in E; lia.
Qed.

Lemma nth_error_null_part (xs : list Z) (ns : list cell) (k : nat) (c : cell) :
  Forall (fun c => c = CNull) ns -> length xs <= k ->
  nth_error (map CTime xs ++ ns) k = Some c -> c = CNull.
Proof.
  intros Hn Hk He; rewrite nth_error_app2 in He by (now rewrite length_map).
  apply nth_error_In in He; rewrite Forall_forall in Hn; auto.
Qed.

Lemma Sorted_nth_error_succ (xs : list Z) (i : nat) (a b : Z) :
  Sorted Z.le xs -> nth_error xs i = Some a -> nth_error xs (S i) = Some b -> (a <= b)%Z.
Proof.
  revert i; induction xs as [|x xs IH]; intros i Hs Ha Hb; [destruct i; discriminate|].
  apply Sorted_inv in Hs as [Hs Hhd].
  destruct i as [|i]; simpl in Ha, Hb.
  - injection Ha as <-; destruct xs as [|y xs]; [discriminate|].
    injection Hb as <-; now inversion Hhd.
  - eapply IH; eauto.
Qed.

(** C9: when the input has an [ACCEPTANCE_TIME] column, every normalised row
    whose acceptance time is NaT comes after every row whose acceptance time
    is not (nulls last). *)
Theorem normalize_null_times_last (to_datetime : cell -> option Z)
        (argsort : list Z -> list nat) (raw : frame) (Hs : argsort_spec argsort)
        (Hc : mem "ACCEPTANCE_TIME" (cols raw) = true) :
  forall i j c,
    nth_error (column (filter_and_clean_data to_datetime argsort raw) "ACCEPTANCE_TIME") i
      = Some CNull ->
    nth_error (column (filter_and_clean_data to_datetime argsort raw) "ACCEPTANCE_TIME") j
      = Some c ->
    c <> CNull -> j < i.
Proof.
  intros i j c Hi Hj Hnn.
  destruct (normalize_times_split to_datetime argsort raw Hs Hc) as [xs [ns [Ht [_ Hn]]]].
  rewrite Ht in Hi, Hj.
  destruct (Nat.lt_ge_cases i (length xs)) as [Hil|Hig].
  - destruct (nth_error_time_part xs ns i Hil) as [t [E _]]; congruence.
  - destruct (Nat.lt_ge_cases j (length xs)) as [Hjl|Hjg]; [lia|].
    exfalso; apply Hnn; eapply nth_error_null_part; eauto.
Qed.

Lemma normalize_null_times_last_witness :
  argsort_spec insertion_argsort /\ mem "ACCEPTANCE_TIME" (cols ex_raw) = true /\
  (forall j c,
     nth_error (column (filter_and_clean_data passthrough_datetime insertion_argsort ex_raw)
                       "ACCEPTANCE_TIME") j = Some c -> c <> CNull -> j < 9).
Proof.
  split; [exact insertion_argsort_spec|]; split; [reflexivity|].
  intros j c Hj Hnn.
  apply (normalize_null_times_last passthrough_datetime insertion_argsort ex_raw
           insertion_argsort_spec eq_refl 9 j c); [vm_compute; reflexivity | exact Hj | exact Hnn].
Defined.

(** C5, as the spec states it, asks for a stable sort.  [sort_values] runs
    numpy's quicksort argsort, which is not stable: the seventeen tickets of
    [tie_raw] all pass the filter and share one acceptance time, so a stable
    sort would keep them in input order 1..17; the normalised batch lists
    them as 1, 15, 14, ..., so ticket 15 comes before ticket 2. *)
Lemma normalize_sort_not_stable :
  mem "ACCEPTANCE_TIME" (cols tie_raw) = true /\
  column (filter_and_clean_data passthrough_datetime NumpySort.numpy_argsort tie_raw)
         "ACCEPTANCE_TIME" = repeat (CTime 1000) 17 /\
  column tie_raw "ORDER_NUMBER" = map (fun k => CNum (Z.of_nat k)) (seq 1 17) /\
  column (filter_and_clean_data passthrough_datetime NumpySort.numpy_argsort tie_raw)
         "ORDER_NUMBER" =
    map CNum [1; 15; 14; 13; 12; 11; 10; 16; 9; 7; 6; 5; 4; 3; 2; 8; 17]%Z /\
  column (filter_and_clean_data passthrough_datetime NumpySort.numpy_argsort tie_raw)
         "ORDER_NUMBER" <> column tie_raw "ORDER_NUMBER".
Proof.
  split; [reflexivity|]. split; [vm_compute; reflexivity|].
  split; [reflexivity|]. split; [vm_compute; reflexivity|].
  vm_compute; discriminate.
Qed.

(** C5 amended: when the input has an [ACCEPTANCE_TIME] column, adjacent
    normalised rows whose acceptance times are both non-null are in
    ascending order of time, and every row with a non-null time comes before
    every row with NaT; rows with equal times may change their relative
    order (see the counterexample above).  When the column is missing, the
    rows keep their post-filter order. *)
Theorem normalize_sorted_by_time (to_datetime : cell -> option Z)
        (argsort : list Z -> list nat) (raw : frame) (Hs : argsort_spec argsort) :
  (mem "ACCEPTANCE_TIME" (cols raw) = true ->
   forall i c1 c2,
     nth_error (column (filter_and_clean_data to_datetime argsort raw) "ACCEPTANCE_TIME") i
       = Some c1 ->
     nth_error (column (filter_and_clean_data to_datetime argsort raw) "ACCEPTANCE_TIME") (S i)
       = Some c2 ->
     c1 <> CNull -> c2 <> CNull ->
     exists t1 t2, c1 = CTime t1 /\ c2 = CTime t2 /\ (t1 <= t2)%Z) /\
  (mem "ACCEPTANCE_TIME" (cols raw) = true ->
   forall i j c,
     nth_error (column (filter_and_clean_data to_datetime argsort raw) "ACCEPTANCE_TIME") i
       = Some CNull ->
     nth_error (column (filter_and_clean_data to_datetime argsort raw) "ACCEPTANCE_TIME") j
       = Some c ->
     c <> CNull -> j < i) /\
  (mem "ACCEPTANCE_TIME" (cols raw) = false ->
   rows (filter_and_clean_data to_datetime argsort raw) =
   map (finish_row to_datetime (available_columns_of raw)) (post_filter_rows raw)).
Proof.
  split; [|split].
  - intros Hc i c1 c2 H1 H2 Hn1 Hn2.
    destruct (normalize_times_split to_datetime argsort raw Hs Hc) as [xs [ns [Ht [Hso Hn]]]].
    rewrite Ht in H1, H2.
    destruct (Nat.lt_ge_cases (S i) (length xs)) as [Hl|Hg].
    + destruct (nth_error_time_part xs ns i ltac:(lia)) as [t1 [E1 X1]].
      destruct (nth_error_time_part xs ns (S i) Hl) as [t2 [E2 X2]].
      exists t1, t2; split; [congruence|]; split; [congruence|].
      eapply Sorted_nth_error_succ; eauto.
    + exfalso; apply Hn2; eapply nth_error_null_part; eauto.
  - intros Hc i j c Hi Hj Hnn.
    destruct (normalize_times_split to_datetime argsort raw Hs Hc) as [xs [ns [Ht [_ Hn]]]].
    rewrite Ht in Hi, Hj.
    destruct (Nat.lt_ge_cases i (length xs)) as [Hil|Hig].
    + destruct (nth_error_time_part xs ns i Hil) as [t [E _]]; congruence.
    + destruct (Nat.lt_ge_cases j (length xs)) as [Hjl|Hjg]; [lia|].
      exfalso; apply Hnn; eapply nth_error_null_part; eauto.
  - intros Hc.
    destruct (normalize_cases to_datetime argsort raw) as [[Hr Hp]|[_ Heq]].
    + now rewrite Hr, Hp.
    + rewrite Heq; unfold clean_filtered; rewrite convert_dates_eq.
      assert (Hm2 : mem "ACCEPTANCE_TIME" (available_columns_of raw ++ ["PRODUCT"]) = false)
        by (now rewrite mem_app, mem_available, Hc).
      unfold add_product; cbn [cols rows filter_valid project]; rewrite Hm2.
      rewrite fill_text_eq; cbn [rows cols]; rewrite !map_map.
      unfold post_filter_rows, finish_row, product_row; cbn [rows filter_valid project].
      reflexivity.
Qed.

Lemma normalize_sorted_by_time_witness :
  argsort_spec insertion_argsort /\
  (forall i c1 c2,
     nth_error (column (filter_and_clean_data passthrough_datetime insertion_argsort ex_raw)
                       "ACCEPTANCE_TIME") i = Some c1 ->
     nth_error (column (filter_and_clean_data passthrough_datetime insertion_argsort ex_raw)
                       "ACCEPTANCE_TIME") (S i) = Some c2 ->
     c1 <> CNull -> c2 <> CNull ->
     exists t1 t2, c1 = CTime t1 /\ c2 = CTime t2 /\ (t1 <= t2)%Z) /\
  (forall i j c,
     nth_error (column (filter_and_clean_data passthrough_datetime insertion_argsort ex_raw)
                       "ACCEPTANCE_TIME") i = Some CNull ->
     nth_error (column (filter_and_clean_data passthrough_datetime insertion_argsort ex_raw)
                       "ACCEPTANCE_TIME") j = Some c ->
     c <> CNull -> j < i).
Proof.
  split; [exact insertion_argsort_spec|].
  destruct (normalize_sorted_by_time passthrough_datetime insertion_argsort ex_raw
              insertion_argsort_spec) as [H1 [H2 _]].
  split; [apply H1; reflexivity|apply H2; reflexivity].
Defined.

(** ** The date span of a summary *)

Lemma as_times_dropna (l : list cell) :
  Forall time_or_null l -> as_times (dropna l) = Some (cell_times l).
Proof.
  induction 1 as [|c l Hc _ IH]; [reflexivity|].
  destruct Hc as [->|[t ->]]; simpl; [exact IH|now rewrite IH].
Qed.







(** ** Counts of a summary *)

Lemma sum_tally_add (c : cell) (m : list (cell * nat)) :
  sum_counts (tally_add c m) = S (sum_counts m).
Proof.
  induction m as [|[k n] m IH]; simpl; auto.
  destruct (cell_eqb k c); simpl; [reflexivity|]; rewrite IH; lia.
Qed.

Lemma sum_tally_from (l : list cell) (m : list (cell * nat)) :
  sum_counts (fold_left (fun m c => tally_add c m) l m) = (length l + sum_counts m)%nat.
Proof.
  revert m; induction l as [|c l IH]; intros m; simpl; auto.
  rewrite IH, sum_tally_add; lia.
Qed.

Lemma sum_insert_desc (p : cell * nat) (l : list (cell * nat)) :
  sum_counts (insert_desc p l) = (snd p + sum_counts l)%nat.
Proof.
  induction l as [|q l IH]; simpl; [reflexivity|].
  destruct (Nat.ltb (snd q) (snd p)); simpl; [reflexivity|]; rewrite IH; lia.
Qed.

Lemma sum_insert_desc_from (m acc : list (cell * nat)) :
  sum_counts (fold_left (fun acc p => insert_desc p acc) m acc) =
  (sum_counts m + sum_counts acc)%nat.
Proof.
  revert acc; induction m as [|p m IH]; intros acc; simpl; auto.
  rewrite IH, sum_insert_desc; lia.
Qed.

(** [value_counts] counts every non-NaN value once. *)
Lemma sum_value_counts (l : list cell) : sum_counts (value_counts l) = length (dropna l).
Proof.
  unfold value_counts, tally; rewrite sum_insert_desc_from, sum_tally_from; simpl; lia.
Qed.

Lemma dropna_none_null (l : list cell) : Forall (fun c => isna c = false) l -> dropna l = l.
Proof.
  induction 1 as [|c l Hc _ IH]; simpl; auto.
  rewrite Hc; simpl; now rewrite IH.
Qed.

(** Category and product cells of a normalised batch are never null. *)
Lemma normalize_category_product_present (to_datetime : cell -> option Z)
      (argsort : list Z -> list nat) (raw : frame) :
  argsort_spec argsort ->
  forall r, In r (rows (filter_and_clean_data to_datetime argsort raw)) ->
  isna (get r "SERVICE_CATEGORY") = false /\ isna (get r "PRODUCT") = false.
Proof.
  intros Hs r Hin.
  destruct (normalize_row_origin _ _ _ _ Hs Hin) as [rr [Hrr [Hv [Hm Hr]]]].
  destruct (isin_valid_In _ Hv) as [s [Hc Hs']].
  subst r; rewrite get_finish_other, get_finish_product by not_in_cols.
  rewrite get_project_row by (now apply mem_In); rewrite Hc.
  split; [reflexivity|].
  simpl in Hs'; destruct Hs' as [<-|[<-|[<-|[<-|[<-|[<-|[<-|[]]]]]]]]; reflexivity.
Qed.

(** The columns of a non-empty normalised batch. *)
Lemma normalize_cols (to_datetime : cell -> option Z) (argsort : list Z -> list nat)
      (raw : frame) :
  argsort_spec argsort ->
  rows (filter_and_clean_data to_datetime argsort raw) <> [] ->
  cols (filter_and_clean_data to_datetime argsort raw) = available_columns_of raw ++ ["PRODUCT"] /\
  mem "SERVICE_CATEGORY" (available_columns_of raw) = true.
Proof.
  intros Hs Hne.
  destruct (normalize_cases to_datetime argsort raw) as [[Hr _]|[Hm Heq]]; [congruence|].
  split; [|exact Hm].
  rewrite Heq; apply clean_filtered_rows; exact Hs.
Qed.


(** Acceptance times of a normalised batch are timestamps or NaT. *)
Lemma normalize_times_typed (to_datetime : cell -> option Z) (argsort : list Z -> list nat)
      (raw : frame) :
  argsort_spec argsort ->
  mem "ACCEPTANCE_TIME" (cols (filter_and_clean_data to_datetime argsort raw)) = true ->
  Forall time_or_null (column (filter_and_clean_data to_datetime argsort raw) "ACCEPTANCE_TIME").
Proof.
  intros Hs Hm.
  destruct (rows (filter_and_clean_data to_datetime argsort raw)) eqn:Hr.
  - unfold column; rewrite Hr; constructor.
  - assert (Hne : rows (filter_and_clean_data to_datetime argsort raw) <> [])
      by (rewrite Hr; discriminate).
    destruct (normalize_cols to_datetime argsort raw Hs Hne) as [Hc _].
    rewrite Hc, mem_app, mem_available in Hm.
    assert (Hraw : mem "ACCEPTANCE_TIME" (cols raw) = true)
      by (destruct (mem _ (cols raw)); [reflexivity|discriminate]).
    destruct (normalize_times_split to_datetime argsort raw Hs Hraw) as [xs [ns [Ht [_ Hn]]]].
    rewrite Ht; apply Forall_app; split.
    + apply Forall_forall; intros c Hin; apply in_map_iff in Hin as [t [<- _]].
      right; eauto.
    + eapply Forall_impl; [|exact Hn]; intros c ->; left; reflexivity.
Qed.

Lemma column_none_null_length (df : frame) (c : string) :
  (forall r, In r (rows df) -> isna (get r c) = false) ->
  length (dropna (column df c)) = length (rows df).
Proof.
  intros H; rewrite dropna_none_null.
  - unfold column; apply length_map.
  - unfold column; apply Forall_forall; intros x Hx.
    apply in_map_iff in Hx as [r [<- Hr]]; auto.
Qed.



(** ** Value counts *)

Lemma cell_eqb_eq (a b : cell) : cell_eqb a b = true <-> a = b.
Proof.
  destruct a, b; simpl; try rewrite String.eqb_eq; try rewrite Z.eqb_eq;
    split; intro H; try discriminate; congruence.
Qed.

Lemma cell_eqb_refl (a : cell) : cell_eqb a a = true.
Proof. now apply cell_eqb_eq. Qed.

Lemma count_value_app (k : cell) (l l' : list cell) :
  count_value k (l ++ l') = (count_value k l + count_value k l')%nat.
Proof. unfold count_value; now rewrite filter_app, length_app. Qed.

Lemma count_value_single (k c : cell) :
  count_value k [c] = if cell_eqb c k then 1%nat else 0%nat.
Proof. unfold count_value; simpl; destruct (cell_eqb c k); reflexivity. Qed.

Lemma count_value_notin (k : cell) (l : list cell) : ~ In k l -> count_value k l = 0%nat.
Proof.
  unfold count_value; induction l as [|c l IH]; simpl; auto; intros H.
  destruct (cell_eqb c k) eqn:E.
  - apply cell_eqb_eq in E; subst; tauto.
  - apply IH; tauto.
Qed.

Lemma count_value_in (k : cell) (l : list cell) : In k l -> (0 < count_value k l)%nat.
Proof.
  unfold count_value; induction l as [|c l IH]; simpl; [tauto|]; intros [<-|H].
  - rewrite cell_eqb_refl; simpl; lia.
  - destruct (cell_eqb c k); simpl; [lia|auto].
Qed.

Lemma tally_add_keys (c : cell) (m : list (cell * nat)) (k : cell) :
  In k (map fst (tally_add c m)) <-> k = c \/ In k (map fst m).
Proof.
  induction m as [|[k0 n0] m IH]; simpl; [intuition congruence|].
  destruct (cell_eqb k0 c) eqn:E; simpl.
  - apply cell_eqb_eq in E; subst; intuition congruence.
  - rewrite IH; tauto.
Qed.

Lemma tally_add_nodup (c : cell) (m : list (cell * nat)) :
  NoDup (map fst m) -> NoDup (map fst (tally_add c m)).
Proof.
  induction m as [|[k0 n0] m IH]; simpl; intros H.
  - constructor; [simpl; tauto|constructor].
  - inversion H as [|? ? Hn Hd]; subst.
    destruct (cell_eqb k0 c) eqn:E; simpl; constructor; auto.
    rewrite tally_add_keys; intros [->|Hin]; [rewrite cell_eqb_refl in E; discriminate|tauto].
Qed.

Lemma tally_add_counts (c : cell) (l : list cell) (m : list (cell * nat)) :
  NoDup (map fst m) ->
  (forall k n, In (k, n) m -> n = count_value k l) ->
  (In c l -> In c (map fst m)) ->
  forall k n, In (k, n) (tally_add c m) -> n = count_value k (l ++ [c]).
Proof.
  induction m as [|[k0 n0] m IH]; simpl; intros Hd Hc Hl k n Hin.
  - destruct Hin as [E|[]]; injection E as <- <-.
    rewrite count_value_app, count_value_single, cell_eqb_refl, count_value_notin; auto.
  - inversion Hd as [|? ? Hn Hd']; subst.
    rewrite count_value_app, count_value_single.
    destruct (cell_eqb k0 c) eqn:E.
    + apply cell_eqb_eq in E; subst k0.
      destruct Hin as [E|Hin].
      * injection E as <- <-; rewrite cell_eqb_refl, <- (Hc c n0 (or_introl eq_refl)); lia.
      * assert (Hk : k <> c) by (intro; subst; apply Hn, (in_map fst _ (c, n)), Hin).
        destruct (cell_eqb c k) eqn:E'; [apply cell_eqb_eq in E'; congruence|].
        rewrite (Hc k n (or_intror Hin)); lia.
    + destruct Hin as [E'|Hin].
      * injection E' as <- <-.
        destruct (cell_eqb c k0) eqn:E2;
          [apply cell_eqb_eq in E2; subst; rewrite cell_eqb_refl in E; discriminate|].
        rewrite (Hc k0 n0 (or_introl eq_refl)); lia.
      * rewrite <- count_value_single, <- count_value_app.
        apply IH; auto.
        intros Hcl; destruct (Hl Hcl) as [E2|E2]; auto.
        subst; rewrite cell_eqb_refl in E; discriminate.
Qed.

Lemma tally_from_inv (l0 l : list cell) (m : list (cell * nat)) :
  NoDup (map fst m) ->
  (forall k n, In (k, n) m -> n = count_value k l0) ->
  (forall k, In k (map fst m) <-> In k l0) ->
  let m' := fold_left (fun m c => tally_add c m) l m in
  NoDup (map fst m') /\
  (forall k n, In (k, n) m' -> n = count_value k (l0 ++ l)) /\
  (forall k, In k (map fst m') <-> In k (l0 ++ l)).
Proof.
  revert l0 m; induction l as [|c l IH]; intros l0 m Hd Hc Hk; simpl.
  - rewrite app_nil_r; auto.
  - replace (l0 ++ c :: l) with ((l0 ++ [c]) ++ l) by (now rewrite <- app_assoc).
    apply IH.
    + now apply tally_add_nodup.
    + apply tally_add_counts; auto; apply Hk.
    + intros k; rewrite tally_add_keys, in_app_iff, Hk; simpl; intuition congruence.
Qed.

Lemma tally_inv (l : list cell) :
  NoDup (map fst (tally l)) /\
  (forall k n, In (k, n) (tally l) -> n = count_value k l) /\
  (forall k, In k (map fst (tally l)) <-> In k l).
Proof.
  exact (tally_from_inv [] l [] (NoDup_nil _) ltac:(simpl; tauto) ltac:(simpl; tauto)).
Qed.

Lemma insert_desc_perm (p : cell * nat) (l : list (cell * nat)) :
  Permutation (insert_desc p l) (p :: l).
Proof.
  induction l as [|q l IH]; simpl; auto.
  destruct (Nat.ltb (snd q) (snd p)); auto.
  eapply perm_trans; [apply perm_skip, IH|apply perm_swap].
Qed.

Lemma insert_desc_sorted (p : cell * nat) (l : list (cell * nat)) :
  counts_descending l -> counts_descending (insert_desc p l).
Proof.
  unfold counts_descending; induction l as [|q l IH]; simpl; intros Hs.
  - repeat constructor.
  - destruct (Nat.ltb (snd q) (snd p)) eqn:E.
    + apply Nat.ltb_lt in E; constructor; auto; constructor; lia.
    + apply Nat.ltb_ge in E.
      apply Sorted_inv in Hs as [Hs Hh].
      constructor; [now apply IH|].
      destruct l as [|q' l]; simpl.
      * constructor; lia.
      * inversion Hh; subst.
        destruct (Nat.ltb (snd q') (snd p)); constructor; lia.
Qed.

Lemma value_counts_perm (l : list cell) : Permutation (value_counts l) (rev (tally (dropna l))).
Proof.
  unfold value_counts.
  assert (H : forall m acc, Permutation (fold_left (fun acc p => insert_desc p acc) m acc)
                                        (rev m ++ acc)).
  { induction m as [|p m IH]; intros acc; simpl; auto.
    eapply perm_trans; [apply IH|].
    rewrite <- app_assoc; simpl.
    apply Permutation_app_head, insert_desc_perm. }
  rewrite <- (app_nil_r (rev _)); apply H.
Qed.

Lemma value_counts_sorted (l : list cell) : counts_descending (value_counts l).
Proof.
  unfold value_counts.
  assert (H : forall m acc, counts_descending acc ->
                counts_descending (fold_left (fun acc p => insert_desc p acc) m acc)).
  { induction m as [|p m IH]; intros acc Ha; simpl; auto.
    apply IH, insert_desc_sorted, Ha. }
  apply H; constructor.
Qed.

Lemma dropna_In (c : cell) (l : list cell) : In c (dropna l) <-> In c l /\ c <> CNull.
Proof.
  unfold dropna; rewrite filter_In.
  destruct c; simpl; split; intros [H1 H2]; split; auto; congruence.
Qed.

Lemma count_value_dropna (k : cell) (l : list cell) :
  k <> CNull -> count_value k (dropna l) = count_value k l.
Proof.
  intros Hk; unfold count_value, dropna; induction l as [|c l IH]; simpl; auto.
  destruct (isna c) eqn:Hn; simpl.
  - destruct c; try discriminate; simpl; destruct k; simpl; auto; congruence.
  - destruct (cell_eqb c k); simpl; auto.
Qed.

(** What [value_counts] lists: each non-NaN value of [l] once, with its
    count. *)
Lemma value_counts_exact (l : list cell) :
  exact_counts (value_counts l) l /\
  (forall v, In v l -> v <> CNull -> In v (map fst (value_counts l))).
Proof.
  destruct (tally_inv (dropna l)) as [Hd [Hc Hk]].
  pose proof (value_counts_perm l) as Hp.
  assert (Hin : forall p, In p (value_counts l) <-> In p (tally (dropna l))).
  { intros p; split; intros H.
    - apply (Permutation_in _ Hp) in H; now rewrite <- in_rev in H.
    - eapply Permutation_in; [apply Permutation_sym, Hp|]; now apply in_rev in H. }
  assert (Hkeys : forall k, In k (map fst (value_counts l)) <-> In k (dropna l)).
  { intros k; rewrite <- Hk, !in_map_iff; split; intros [p [<- Hp']]; exists p;
      split; auto; now apply Hin. }
  split; [split|].
  - eapply Permutation_NoDup; [apply Permutation_map, Permutation_sym, Hp|].
    rewrite map_rev; apply NoDup_rev, Hd.
  - intros k n Hkn.
    assert (Hk' : In k (dropna l)) by (apply Hkeys, (in_map fst _ (k, n)), Hkn).
    apply dropna_In in Hk' as [_ Hnn]; split; auto.
    rewrite (Hc k n (proj1 (Hin _) Hkn)); now apply count_value_dropna.
  - intros v Hv Hnn; apply Hkeys, dropna_In; auto.
Qed.

(** ** Counts in the summary and in the customer chart *)

Lemma exact_counts_nil (l : list cell) : exact_counts [] l.
Proof. split; [constructor|intros k n []]. Qed.

(** Extra: [product_counts] and [category_counts] list distinct non-null
    values, each with its exact number of rows in the batch. *)
Theorem summary_counts_exact (df : frame) :
  exact_counts (product_counts (get_data_summary df)) (column df "PRODUCT") /\
  exact_counts (category_counts (get_data_summary df)) (column df "SERVICE_CATEGORY").
Proof.
  unfold get_data_summary.
  destruct (frame_empty df); [split; apply exact_counts_nil|].
  destruct (date_range df); [|split; apply exact_counts_nil]; cbn [product_counts category_counts].
  split; [destruct (mem "PRODUCT" _)|destruct (mem "SERVICE_CATEGORY" _)];
    solve [apply value_counts_exact | apply exact_counts_nil].
Qed.

(** Extra: the counts of the summary are listed from the most frequent
    value to the least frequent. *)
Theorem summary_counts_descending (df : frame) :
  counts_descending (product_counts (get_data_summary df)) /\
  counts_descending (category_counts (get_data_summary df)).
Proof.
  unfold get_data_summary.
  destruct (frame_empty df); [split; constructor|].
  destruct (date_range df); [|split; constructor]; cbn [product_counts category_counts].
  split; [destruct (mem "PRODUCT" _)|destruct (mem "SERVICE_CATEGORY" _)];
    solve [apply value_counts_sorted | constructor].
Qed.




Lemma as_times_dropna_bad (l : list cell) (v : cell) :
  In v l -> v <> CNull -> (forall t, v <> CTime t) -> as_times (dropna l) = None.
Proof.
  unfold dropna; induction l as [|c l IH]; simpl; [tauto|]; intros [->|Hin] Hn Ht.
  - destruct v; simpl; try congruence; try reflexivity.
  - destruct c; simpl; try rewrite (IH Hin Hn Ht); auto.
Qed.

(** Extra: when the batch has an [ACCEPTANCE_TIME] column holding a
    non-null value that is not a datetime (a batch that was not
    normalised), [get_data_summary] takes its exception path: only
    [total_tickets] is filled in, every count is empty and the other
    numbers are 0. *)
Theorem summary_non_datetime_acceptance (df : frame) (Hne : frame_empty df = false)
        (Hc : mem "ACCEPTANCE_TIME" (cols df) = true) (v : cell)
        (Hv : In v (column df "ACCEPTANCE_TIME")) (Hn : v <> CNull)
        (Hnt : forall t, v <> CTime t) :
  get_data_summary df = mkSummary (length (rows df)) 0 0 [] [].
Proof.
  unfold get_data_summary, date_range; rewrite Hne, Hc.
  now rewrite (as_times_dropna_bad _ v Hv Hn Hnt).
Qed.

Lemma summary_non_datetime_acceptance_witness :
  get_data_summary upload_raw = mkSummary 2 0 0 [] [].
Proof.
  apply (summary_non_datetime_acceptance upload_raw eq_refl eq_refl
           (CStr "01/15/2024 10:30") (or_introl eq_refl)); discriminate.
Defined.

Lemma sorted_app_prefix {A} (R : A -> A -> Prop) (l1 l2 : list A) :
  Sorted R (l1 ++ l2) -> Sorted R l1.
Proof.
  induction l1 as [|a l1 IH]; intros Hs; [constructor|].
  apply Sorted_inv in Hs as [Hs Hh]; constructor; [now apply IH|].
  destruct l1; [constructor|]; simpl in Hh; inversion Hh; now constructor.
Qed.

Lemma strongly_sorted_firstn_skipn {A} (R : A -> A -> Prop) (k : nat) (l : list A) (x y : A) :
  StronglySorted R l -> In x (firstn k l) -> In y (skipn k l) -> R x y.
Proof.
  revert l; induction k as [|k IH]; intros l Hs Hx Hy; [destruct Hx|].
  destruct l as [|a l]; [destruct Hx|]; simpl in Hx, Hy.
  apply StronglySorted_inv in Hs as [Hs Hf].
  destruct Hx as [<-|Hx].
  - rewrite Forall_forall in Hf; apply Hf.
    rewrite <- (firstn_skipn k l); apply in_or_app; now right.
  - eapply IH; eauto.
Qed.

(** Extra: the customer activity chart shows at most ten customers, each
    with its exact number of tickets, most active first; a customer left
    out has no more tickets than any customer shown.  When there is no
    chart, the batch is empty, lacks the column or has no non-null
    customer number. *)
Theorem customer_activity_top10 (df : frame) :
  match create_customer_activity_chart df with
  | Some top =>
      (length top <= 10)%nat /\ exact_counts top (column df "CUSTOMER_NUMBER") /\
      counts_descending top /\
      forall v, In v (column df "CUSTOMER_NUMBER") -> v <> CNull -> ~ In v (map fst top) ->
        forall k n, In (k, n) top -> (count_value v (column df "CUSTOMER_NUMBER") <= n)%nat
  | None =>
      frame_empty df = true \/ mem "CUSTOMER_NUMBER" (cols df) = false \/
      forall v, In v (column df "CUSTOMER_NUMBER") -> v = CNull
  end.
Proof.
  unfold create_customer_activity_chart.
  destruct (frame_empty df) eqn:He; [now left|].
  destruct (mem "CUSTOMER_NUMBER" (cols df)) eqn:Hm; [|now right; left].
  cbn [orb negb].
  set (l := column df "CUSTOMER_NUMBER").
  destruct (value_counts_exact l) as [[Hd Hc] Hcomp].
  pose proof (value_counts_sorted l) as Hs.
  destruct (firstn 10 (value_counts l)) as [|p ps] eqn:Hf.
  - right; right; intros v Hv.
    destruct (cell_eqb v CNull) eqn:Ev; [now apply cell_eqb_eq|exfalso].
    assert (Hk : In v (map fst (value_counts l))).
    { apply Hcomp; [exact Hv|intros ->; discriminate]. }
    destruct (value_counts l); [destruct Hk|discriminate].
  - rewrite <- Hf.
    assert (Hss : StronglySorted (fun p q => (snd q <= snd p)%nat) (value_counts l))
      by (apply Sorted_StronglySorted; [intros ? ? ? ? ?; lia|exact Hs]).
    split; [apply firstn_le_length|].
    split; [split|].
    + rewrite <- (firstn_skipn 10 (value_counts l)) in Hd.
      rewrite map_app in Hd; eapply NoDup_app_remove_r; exact Hd.
    + intros k n Hkn; apply Hc; rewrite <- (firstn_skipn 10 (value_counts l)).
      apply in_or_app; now left.
    + split.
      * unfold counts_descending; rewrite <- (firstn_skipn 10 (value_counts l)) in Hs.
        eapply sorted_app_prefix; exact Hs.
      * intros v Hv Hn Hnot k n Hkn.
        assert (Hvk : In v (map fst (value_counts l))) by (apply Hcomp; auto).
        apply in_map_iff in Hvk as [[v' c] [Hv' Hvc]]; simpl in Hv'; subst v'.
        assert (Hc' := proj2 (Hc v c Hvc)).
        rewrite <- (firstn_skipn 10 (value_counts l)) in Hvc.
        apply in_app_iff in Hvc as [Hvc|Hvc].
        { exfalso; apply Hnot, (in_map fst _ (v, c)), Hvc. }
        rewrite <- Hc'.
        exact (strongly_sorted_firstn_skipn _ 10 _ (k, n) (v, c) Hss Hkn Hvc).
Qed.

(** ** The rows and fields of a normalised batch *)

Lemma keys_set_in (r : row) (c : string) (v : cell) :
  In c (map fst r) -> map fst (set r c v) = map fst r.
Proof.
  induction r as [|[k w] r IH]; simpl; [tauto|]; intros H.
  destruct (String.eqb k c) eqn:E; simpl; [reflexivity|].
  f_equal; apply IH; destruct H; auto; subst; now rewrite String.eqb_refl in E.
Qed.

Lemma keys_set_notin (r : row) (c : string) (v : cell) :
  ~ In c (map fst r) -> map fst (set r c v) = map fst r ++ [c].
Proof.
  induction r as [|[k w] r IH]; simpl; [reflexivity|]; intros H.
  destruct (String.eqb k c) eqn:E.
  - apply String.eqb_eq in E; subst; tauto.
  - simpl; f_equal; apply IH; tauto.
Qed.

Lemma keys_fold_row_step (cs : list string) (f : cell -> cell) (L : list string) (r : row) :
  (forall c, mem c cs = true -> In c (map fst r)) ->
  map fst (fold_left (row_step cs f) L r) = map fst r.
Proof.
  revert r; induction L as [|c L IH]; intros r H; simpl; [reflexivity|].
  assert (Hk : map fst (row_step cs f r c) = map fst r).
  { unfold row_step; destruct (mem c cs) eqn:E; [apply keys_set_in, H, E|reflexivity]. }
  rewrite IH, Hk; [reflexivity|]. rewrite Hk; exact H.
Qed.

Lemma keys_project_row (avail : list string) (r : row) : map fst (project_row avail r) = avail.
Proof. unfold project_row; rewrite map_map; apply map_id. Qed.

Lemma product_not_available (raw : frame) : ~ In "PRODUCT" (available_columns_of raw).
Proof.
  intros H; apply mem_In in H; rewrite mem_available in H.
  apply andb_true_iff in H as [H _]; discriminate.
Qed.

Lemma keys_finish_row (to_datetime : cell -> option Z) (raw : frame) (rr : row) :
  map fst (finish_row to_datetime (available_columns_of raw)
                      (project_row (available_columns_of raw) rr))
  = available_columns_of raw ++ ["PRODUCT"].
Proof.
  set (av := available_columns_of raw).
  assert (Hc : map fst (convert_row to_datetime av (project_row av rr)) = av).
  { unfold convert_row; rewrite keys_fold_row_step; rewrite keys_project_row; [reflexivity|].
    intros c Hc; now apply mem_In. }
  assert (Hp : map fst (product_row (convert_row to_datetime av (project_row av rr)))
               = av ++ ["PRODUCT"]).
  { unfold product_row; rewrite keys_set_notin; rewrite Hc; [reflexivity|].
    apply product_not_available. }
  unfold finish_row, fill_row; rewrite keys_fold_row_step; [exact Hp|].
  intros c Hm; rewrite Hp; now apply mem_In.
Qed.

Lemma get_finish_date_col (to_datetime : cell -> option Z) (cs : list string) (r : row)
      (k : string) :
  In k DATE_COLUMNS -> mem k cs = true ->
  get (finish_row to_datetime cs r) k = convert_cell to_datetime (get r k).
Proof.
  intros Hk Hm; unfold finish_row, fill_row, product_row, convert_row.
  assert (Ht : ~ In k TEXT_COLUMNS) by (simpl in Hk |- *; intuition (subst; discriminate)).
  assert (Hp : "PRODUCT" <> k) by (simpl in Hk; intuition (subst; discriminate)).
  rewrite get_fold_row_step_other by exact Ht.
  rewrite get_set_other by exact Hp.
  apply get_fold_row_step_in; auto; repeat constructor; not_in_cols.
Qed.

Lemma filter_map_commute {A B} (p : B -> bool) (g : A -> B) (l : list A) :
  filter p (map g l) = map g (filter (fun a => p (g a)) l).
Proof. induction l as [|a l IH]; simpl; [reflexivity|]; destruct (p (g a)); simpl; congruence. Qed.

Lemma post_filter_rows_eq (raw : frame) :
  mem "SERVICE_CATEGORY" (cols raw) = true ->
  post_filter_rows raw =
  map (project_row (available_columns_of raw))
      (filter (fun rr => isin_valid (get rr "SERVICE_CATEGORY")) (rows raw)).
Proof.
  intros Hm; unfold post_filter_rows, filter_valid, project; cbn [rows].
  rewrite filter_map_commute; f_equal; apply filter_ext; intros rr.
  rewrite get_project_row; [reflexivity|].
  apply mem_In; rewrite mem_available, Hm; reflexivity.
Qed.

Lemma get_not_key (r : row) (k : string) : ~ In k (map fst r) -> get r k = CNull.
Proof.
  induction r as [|[k' v] r IH]; simpl; [reflexivity|]; intros H.
  destruct (String.eqb k' k) eqn:E; [apply String.eqb_eq in E; tauto|apply IH; tauto].
Qed.

Lemma finish_row_fields (to_datetime : cell -> option Z) (raw : frame) (rr : row) :
  mem "SERVICE_CATEGORY" (available_columns_of raw) = true ->
  let r := finish_row to_datetime (available_columns_of raw)
                      (project_row (available_columns_of raw) rr) in
  get r "PRODUCT" = map_category (get rr "SERVICE_CATEGORY") /\
  forall k, In k (available_columns_of raw) ->
    get r k = if mem k DATE_COLUMNS then convert_cell to_datetime (get rr k)
              else if mem k TEXT_COLUMNS then fillna (get rr k)
              else get rr k.
Proof.
  intros Hsc r; split.
  - unfold r; rewrite get_finish_product; f_equal; apply get_project_row, mem_In, Hsc.
  - intros k Hk; unfold r.
    destruct (mem k DATE_COLUMNS) eqn:Hd.
    { rewrite get_finish_date_col by (apply mem_In in Hd; auto; now apply mem_In).
      now rewrite get_project_row. }
    destruct (mem k TEXT_COLUMNS) eqn:Ht.
    { rewrite get_finish_text by (apply mem_In in Ht; auto; now apply mem_In).
      now rewrite get_project_row. }
    rewrite get_finish_other.
    + now rewrite get_project_row.
    + intros H; apply mem_In in H; congruence.
    + intros H; apply mem_In in H; congruence.
    + intros ->; exact (product_not_available raw Hk).
Qed.

(** Extra: on a raw batch with a [SERVICE_CATEGORY] column,
    [filter_and_clean_data] returns one row for each raw row whose category
    is in the whitelist, and no other: the output rows are these rows,
    projected on the selected columns and cleaned, in some order. *)
Theorem normalize_keeps_valid_rows (to_datetime : cell -> option Z)
        (argsort : list Z -> list nat) (raw : frame)
        (Hs : argsort_spec argsort) (Hm : mem "SERVICE_CATEGORY" (cols raw) = true) :
  Permutation (rows (filter_and_clean_data to_datetime argsort raw))
    (map (fun rr => finish_row to_datetime (available_columns_of raw)
                               (project_row (available_columns_of raw) rr))
         (filter (fun rr => isin_valid (get rr "SERVICE_CATEGORY")) (rows raw))) /\
  length (rows (filter_and_clean_data to_datetime argsort raw)) =
  length (filter (fun rr => isin_valid (get rr "SERVICE_CATEGORY")) (rows raw)).
Proof.
  assert (Hp : Permutation (rows (filter_and_clean_data to_datetime argsort raw))
    (map (fun rr => finish_row to_datetime (available_columns_of raw)
                               (project_row (available_columns_of raw) rr))
         (filter (fun rr => isin_valid (get rr "SERVICE_CATEGORY")) (rows raw)))).
  { eapply perm_trans; [apply (normalize_rows_perm to_datetime argsort raw Hs)|].
    rewrite post_filter_rows_eq, map_map by exact Hm; apply Permutation_refl. }
  split; [exact Hp|]; rewrite (Permutation_length Hp); apply length_map.
Qed.

Lemma normalize_keeps_valid_rows_witness :
  length (rows (filter_and_clean_data passthrough_datetime insertion_argsort ex_raw)) = 10%nat.
Proof.
  rewrite (proj2 (normalize_keeps_valid_rows passthrough_datetime insertion_argsort ex_raw
                    insertion_argsort_spec eq_refl)).
  vm_compute; reflexivity.
Defined.

Lemma normalize_row_fields_aux (to_datetime : cell -> option Z) (argsort : list Z -> list nat)
      (raw : frame) (r : row) :
  argsort_spec argsort ->
  In r (rows (filter_and_clean_data to_datetime argsort raw)) ->
  exists rr, In rr (rows raw) /\ isin_valid (get rr "SERVICE_CATEGORY") = true /\
    map fst r = cols (filter_and_clean_data to_datetime argsort raw) /\
    get r "PRODUCT" = map_category (get rr "SERVICE_CATEGORY") /\
    forall k, In k (available_columns_of raw) ->
      get r k = if mem k DATE_COLUMNS then convert_cell to_datetime (get rr k)
                else if mem k TEXT_COLUMNS then fillna (get rr k)
                else get rr k.
Proof.
  intros Hs Hin.
  destruct (normalize_row_origin _ _ _ _ Hs Hin) as [rr [Hrr [Hv [Hm ->]]]].
  exists rr; split; [exact Hrr|]; split; [exact Hv|]; split.
  - rewrite keys_finish_row; symmetry; apply (normalize_cols _ _ _ Hs).
    intros He; rewrite He in Hin; destruct Hin.
  - exact (finish_row_fields to_datetime raw rr Hm).
Qed.

(** Extra: every row of a normalised batch has exactly the batch's columns,
    in order, and comes from a raw row whose category is in the whitelist:
    its date columns hold that row's value passed through [pd.to_datetime]
    (NaT on failure), its text columns that row's value with NaN replaced by
    the sentinel, [PRODUCT] the mapped category, and every other selected
    column that row's value unchanged. *)
Theorem normalize_row_fields (to_datetime : cell -> option Z) (argsort : list Z -> list nat)
        (raw : frame) (r : row) (Hs : argsort_spec argsort)
        (Hin : In r (rows (filter_and_clean_data to_datetime argsort raw))) :
  exists rr, In rr (rows raw) /\ isin_valid (get rr "SERVICE_CATEGORY") = true /\
    map fst r = cols (filter_and_clean_data to_datetime argsort raw) /\
    get r "PRODUCT" = map_category (get rr "SERVICE_CATEGORY") /\
    forall k, In k (available_columns_of raw) ->
      get r k = if mem k DATE_COLUMNS then convert_cell to_datetime (get rr k)
                else if mem k TEXT_COLUMNS then fillna (get rr k)
                else get rr k.
Proof. exact (normalize_row_fields_aux to_datetime argsort raw r Hs Hin). Qed.

Lemma normalize_row_fields_witness :
  exists rr, In rr (rows ex_raw) /\
    get rr "SERVICE_CATEGORY" = CStr "VOD" /\
    map fst (hd [] (rows (filter_and_clean_data passthrough_datetime insertion_argsort ex_raw)))
    = ["ORDER_NUMBER"; "ACCEPTANCE_TIME"; "SERVICE_CATEGORY"; "NOTE_MAXIMUM"; "PRODUCT"].
Proof.
  destruct (normalize_row_fields passthrough_datetime insertion_argsort ex_raw
              (hd [] (rows (filter_and_clean_data passthrough_datetime insertion_argsort ex_raw)))
              insertion_argsort_spec (or_introl eq_refl))
    as [rr [Hrr [_ [Hk [_ Hf]]]]].
  exists rr; split; [exact Hrr|]; split.
  - assert (Hsc := Hf "SERVICE_CATEGORY" ltac:(apply mem_In; reflexivity)).
    rewrite (eq_refl : mem "SERVICE_CATEGORY" DATE_COLUMNS = false),
      (eq_refl : mem "SERVICE_CATEGORY" TEXT_COLUMNS = false) in Hsc.
    rewrite <- Hsc; vm_compute; reflexivity.
  - rewrite Hk; reflexivity.
Defined.

(** Extra: in a normalised batch, each of the three date columns holds only
    datetimes and NaT; when the column is present in the input, its values
    are the input values of the whitelisted rows passed through
    [pd.to_datetime] with [errors='coerce'] (NaT where parsing fails), in
    some order. *)
Theorem normalize_date_columns_typed (to_datetime : cell -> option Z)
        (argsort : list Z -> list nat) (raw : frame) (k : string)
        (Hs : argsort_spec argsort) (Hk : In k DATE_COLUMNS) :
  Forall time_or_null (column (filter_and_clean_data to_datetime argsort raw) k) /\
  (mem "SERVICE_CATEGORY" (cols raw) = true -> mem k (cols raw) = true ->
   Permutation (column (filter_and_clean_data to_datetime argsort raw) k)
     (map (fun rr => convert_cell to_datetime (get rr k))
          (filter (fun rr => isin_valid (get rr "SERVICE_CATEGORY")) (rows raw)))).
Proof.
  split.
  - apply Forall_forall; intros c Hc; unfold column in Hc.
    apply in_map_iff in Hc as [r [<- Hr]].
    destruct (normalize_row_fields_aux _ _ _ _ Hs Hr) as [rr [_ [_ [Hkeys [_ Hf]]]]].
    destruct (in_dec String.string_dec k (available_columns_of raw)) as [Ha|Ha].
    + rewrite (Hf k Ha); apply mem_In in Hk; rewrite Hk; unfold convert_cell.
      destruct (to_datetime (get rr k)); [right; eexists; reflexivity|left; reflexivity].
    + left; apply get_not_key; rewrite Hkeys.
      rewrite (proj1 (normalize_cols _ _ _ Hs ltac:(intros He; rewrite He in Hr; destruct Hr))).
      intros H; apply in_app_iff in H as [H|[H|[]]]; [tauto|subst k].
      simpl in Hk; intuition discriminate.
  - intros Hsc Hc.
    assert (Hm : mem k (available_columns_of raw) = true).
    { rewrite mem_available, Hc, andb_true_r.
      simpl in Hk; destruct Hk as [<-|[<-|[<-|[]]]]; reflexivity. }
    unfold column.
    eapply perm_trans; [apply Permutation_map, (normalize_rows_perm to_datetime argsort raw Hs)|].
    rewrite post_filter_rows_eq by exact Hsc; rewrite !map_map.
    apply Permutation_refl'; apply map_ext; intros rr.
    rewrite get_finish_date_col by assumption.
    rewrite get_project_row by (now apply mem_In); reflexivity.
Qed.

Lemma normalize_date_columns_typed_witness :
  let raw := mkFrame ["SERVICE_CATEGORY"; "ACCEPTANCE_TIME"; "COMPLETION_TIME"]
    [ [("SERVICE_CATEGORY", CStr "NET"); ("ACCEPTANCE_TIME", CTime 1);
       ("COMPLETION_TIME", CStr "pending")];
      [("SERVICE_CATEGORY", CStr "XYZ"); ("ACCEPTANCE_TIME", CTime 2);
       ("COMPLETION_TIME", CTime 9)];
      [("SERVICE_CATEGORY", CStr "KAV"); ("ACCEPTANCE_TIME", CTime 3);
       ("COMPLETION_TIME", CTime 7)] ] in
  Forall time_or_null
    (column (filter_and_clean_data passthrough_datetime insertion_argsort raw) "COMPLETION_TIME") /\
  Permutation
    (column (filter_and_clean_data passthrough_datetime insertion_argsort raw) "COMPLETION_TIME")
    [CNull; CTime 7].
Proof.
  intros raw.
  destruct (normalize_date_columns_typed passthrough_datetime insertion_argsort raw
              "COMPLETION_TIME" insertion_argsort_spec ltac:(right; left; reflexivity)) as [H1 H2].
  split; [exact H1|].
  exact (H2 eq_refl eq_refl).
Defined.

(** ** Ticket text, narratives and product summaries *)

Lemma contains_dash3_cons_nondash (c : ascii) (s : string) :
  is_dash c = false -> contains_dash3 (String c s) = contains_dash3 s.
Proof. intros H; destruct s as [|c2 [|c3 s]]; simpl; rewrite ?H; reflexivity. Qed.

Lemma contains_dash3_app_nondash (a b : string) (c : ascii) :
  is_dash c = false ->
  contains_dash3 (a ++ String c b) = contains_dash3 a || contains_dash3 b.
Proof.
  intros Hc; induction a as [|x a IH].
  - simpl append; now rewrite contains_dash3_cons_nondash.
  - simpl append. change (contains_dash3 (String x (a ++ String c b))) with
      (match (a ++ String c b)%string with
       | String c2 (String c3 _) => (is_dash x && is_dash c2 && is_dash c3) || contains_dash3 (a ++ String c b)
       | _ => contains_dash3 (a ++ String c b) end).
    rewrite IH.
    destruct a as [|y [|z a]]; simpl append; cbv iota beta.
    + rewrite Hc, andb_false_r; simpl. destruct b; reflexivity.
    + rewrite Hc, andb_false_r; simpl. reflexivity.
    + change (contains_dash3 (String x (String y (String z a)))) with
        (is_dash x && is_dash y && is_dash z || contains_dash3 (String y (String z a))).
      now rewrite orb_assoc.
Qed.

Lemma contains_dash3_app_r (a b : string) :
  contains_dash3 (a ++ b) = false -> contains_dash3 b = false.
Proof.
  induction a as [|x a IH]; simpl append; [auto|]; intros H; apply IH.
  destruct (a ++ b)%string as [|c2 [|c3 s]]; simpl in H; auto.
  apply orb_false_iff in H; tauto.
Qed.

Lemma contains_dash3_app_l (a b : string) :
  contains_dash3 (a ++ b) = false -> contains_dash3 a = false.
Proof.
  induction a as [|x a IH]; simpl append; [auto|]; intros H.
  assert (Ht : contains_dash3 (a ++ b) = false).
  { destruct (a ++ b)%string as [|c2 [|c3 s]]; simpl in H; auto.
    apply orb_false_iff in H; tauto. }
  specialize (IH Ht).
  destruct a as [|y [|z a]]; [reflexivity|reflexivity|].
  change (contains_dash3 (String x (String y (String z a)))) with
    (is_dash x && is_dash y && is_dash z || contains_dash3 (String y (String z a))).
  change (contains_dash3 (String x (String y (String z (a ++ b))))) with
    (is_dash x && is_dash y && is_dash z || contains_dash3 (String y (String z (a ++ b)))) in H.
  rewrite IH, orb_false_r; apply orb_false_iff in H; tauto.
Qed.

Lemma split_dash3_keep (c1 : ascii) (s1 : string) :
  match s1 with String c2 (String c3 _) => is_dash c1 && is_dash c2 && is_dash c3 | _ => false end
  = false ->
  split_dash3 (String c1 s1) =
  match split_dash3 s1 with p :: ps => String c1 p :: ps | [] => [String c1 ""] end.
Proof.
  intros H; destruct s1 as [|c2 [|c3 rest]]; try reflexivity.
  change (split_dash3 (String c1 (String c2 (String c3 rest)))) with
    (if is_dash c1 && is_dash c2 && is_dash c3 then "" :: split_dash3 rest
     else match split_dash3 (String c2 (String c3 rest)) with
          | p :: ps => String c1 p :: ps | [] => [String c1 ""] end).
  now rewrite H.
Qed.

Lemma split_dash3_none (s : string) : contains_dash3 s = false -> split_dash3 s = [s].
Proof.
  induction s as [|c s IH]; intros H; [reflexivity|].
  assert (Hs : contains_dash3 s = false).
  { destruct s as [|c2 [|c3 s]]; auto; apply orb_false_iff in H; tauto. }
  rewrite split_dash3_keep, IH by (auto; destruct s as [|c2 [|c3 s]]; auto;
                                    apply orb_false_iff in H; tauto).
  reflexivity.
Qed.

Lemma split_dash3_sep (t b : string) :
  contains_dash3 t = false ->
  split_dash3 (t ++ String "010" (String "-" (String "-" (String "-" b))))%string =
  (t ++ String "010" "")%string :: split_dash3 b.
Proof.
  induction t as [|x t IH]; intros H.
  - reflexivity.
  - simpl append. rewrite split_dash3_keep.
    + rewrite IH; [reflexivity|].
      destruct t as [|c2 [|c3 s]]; [reflexivity|exact H|apply orb_false_iff in H; tauto].
    + destruct t as [|y [|z t]];
        [simpl; destruct (is_dash x); reflexivity|simpl; destruct (is_dash x), (is_dash y); reflexivity|].
      simpl append; simpl in H; apply orb_false_iff in H; tauto.
Qed.

Lemma contains_dash3_sep (t b : string) :
  contains_dash3 (t ++ String "010" (String "-" (String "-" (String "-" b))))%string = true.
Proof.
  induction t as [|x t IH]; [reflexivity|].
  simpl append.
  destruct (t ++ _)%string as [|c2 [|c3 s]] eqn:E; [destruct t; discriminate| |].
  - destruct t as [|y t]; [discriminate|]; simpl in E. destruct t; discriminate.
  - change (contains_dash3 (String x (String c2 (String c3 s)))) with
      (is_dash x && is_dash c2 && is_dash c3 || contains_dash3 (String c2 (String c3 s))).
    rewrite IH, orb_true_r; reflexivity.
Qed.

Lemma contains_dash3_cons2_nondash (c1 c2 : ascii) (s : string) :
  is_dash c2 = false -> contains_dash3 (String c1 (String c2 s)) = contains_dash3 (String c2 s).
Proof. intros H; destruct s as [|c3 s]; simpl; rewrite ?H, ?andb_false_r; reflexivity. Qed.

Lemma split_dash3_nonempty (s : string) : split_dash3 s <> [].
Proof.
  destruct s as [|c1 s1]; [discriminate|]; simpl.
  destruct s1 as [|c2 [|c3 rest]];
    repeat match goal with |- context [match ?x with _ => _ end] => destruct x end;
    discriminate.
Qed.

Lemma split_dash3_length_cons_nondash (c : ascii) (s : string) :
  is_dash c = false -> length (split_dash3 (String c s)) = length (split_dash3 s).
Proof.
  intros H; rewrite split_dash3_keep.
  - pose proof (split_dash3_nonempty s); destruct (split_dash3 s); [congruence|reflexivity].
  - destruct s as [|c2 [|c3 s]]; rewrite ?H; reflexivity.
Qed.

Lemma list_ascii_of_string_app (a b : string) :
  list_ascii_of_string (a ++ b) = list_ascii_of_string a ++ list_ascii_of_string b.
Proof. induction a as [|c a IH]; simpl; congruence. Qed.

Lemma string_of_list_ascii_app (l1 l2 : list ascii) :
  string_of_list_ascii (l1 ++ l2) = (string_of_list_ascii l1 ++ string_of_list_ascii l2)%string.
Proof. induction l1 as [|c l1 IH]; simpl; congruence. Qed.

Lemma lstrip_suffix (s : string) : exists p, s = (p ++ lstrip s)%string.
Proof.
  induction s as [|c s [p Hp]]; [exists ""; reflexivity|]; simpl.
  destruct (is_space c); [exists (String c p); simpl; congruence|exists ""; reflexivity].
Qed.

Lemma rstrip_prefix (s : string) : exists q, s = (rstrip s ++ q)%string.
Proof.
  unfold rstrip.
  destruct (lstrip_suffix (string_of_list_ascii (rev (list_ascii_of_string s)))) as [p Hp].
  exists (string_of_list_ascii (rev (list_ascii_of_string p))).
  rewrite <- string_of_list_ascii_app, <- rev_app_distr, <- list_ascii_of_string_app, <- Hp.
  rewrite list_ascii_of_string_of_list_ascii, rev_involutive.
  symmetry; apply string_of_list_ascii_of_string.
Qed.

Lemma contains_dash3_strip (s : string) :
  contains_dash3 s = false -> contains_dash3 (strip s) = false.
Proof.
  intros H; unfold strip.
  destruct (lstrip_suffix s) as [p Hp]; rewrite Hp in H; apply contains_dash3_app_r in H.
  destruct (rstrip_prefix (lstrip s)) as [q Hq]; rewrite Hq in H.
  exact (contains_dash3_app_l _ _ H).
Qed.

Lemma string_of_uint_no_dash (u : Decimal.uint) :
  contains_dash3 (string_of_uint u) = false /\
  forall c s, string_of_uint u = String c s -> is_dash c = false.
Proof.
  induction u; cbn [string_of_uint]; try (split; [reflexivity|discriminate]);
    (split; [rewrite contains_dash3_cons_nondash by reflexivity; tauto
            |intros c s E; injection E as <- _; reflexivity]).
Qed.

Lemma contains_dash3_py_str_Z (z : Z) : contains_dash3 (py_str_Z z) = false.
Proof.
  unfold py_str_Z; destruct (Z.to_int z) as [u|u]; [apply string_of_uint_no_dash|].
  destruct (string_of_uint_no_dash u) as [H1 H2].
  destruct (string_of_uint u) as [|c s] eqn:E; [reflexivity|].
  rewrite contains_dash3_cons2_nondash; [exact H1|exact (H2 c s eq_refl)].
Qed.

Lemma contains_dash3_month (k : nat) : contains_dash3 (nth k MONTHS "") = false.
Proof. do 12 (destruct k as [|k]; [reflexivity|]); destruct k; reflexivity. Qed.

Ltac no_dash3_step :=
  match goal with
  | |- context [contains_dash3 (String ?c ?s)] =>
      rewrite (contains_dash3_cons_nondash c s) by reflexivity
  | |- context [contains_dash3 (String ?c1 (String ?c2 ?s))] =>
      rewrite (contains_dash3_cons2_nondash c1 c2 s) by reflexivity
  | |- context [contains_dash3 (?a ++ String ?c ?b)] =>
      rewrite (contains_dash3_app_nondash a b c) by reflexivity
  end.

Ltac no_dash3 :=
  repeat no_dash3_step;
  repeat match goal with
         | |- (_ || _) = false => apply orb_false_iff; split
         end.

Lemma contains_dash3_strftime (t : Z) : contains_dash3 (strftime_date t) = false.
Proof.
  unfold strftime_date; destruct (civil_from_days _) as [[y m] d].
  unfold two_digits; destruct (d <? 10)%Z; simpl append; no_dash3;
    solve [apply contains_dash3_month | apply contains_dash3_py_str_Z | reflexivity].
Qed.

Lemma contains_dash3_ticket_info (render : string -> cell -> string) (df : frame) (r : row) :
  (forall col, contains_dash3 (cell_str render col (get r col)) = false) ->
  contains_dash3 (ticket_info render df r) = false.
Proof.
  intros Hr; unfold ticket_info; apply contains_dash3_strip.
  assert (Hf : forall col d, contains_dash3 d = false ->
                 contains_dash3 (ticket_field render df r col d) = false).
  { intros col d Hd; unfold ticket_field; destruct (mem col (cols df)); auto. }
  assert (Hd : contains_dash3 (ticket_date df r) = false).
  { unfold ticket_date; destruct (mem _ _); [|reflexivity].
    destruct (get r _); try reflexivity; apply contains_dash3_strftime. }
  remember (ticket_date df r) as dt.
  remember (ticket_field render df r "ORDER_NUMBER" "Unknown") as f1.
  remember (ticket_field render df r "CUSTOMER_NUMBER" "Unknown") as f2.
  remember (ticket_field render df r "ORDER_DESCRIPTION_1" "No description") as f3.
  remember (ticket_field render df r "ORDER_DESCRIPTION_2" "No description") as f4.
  remember (ticket_field render df r "COMPLETION_RESULT_KB" "No resolution info") as f5.
  remember (ticket_field render df r "NOTE_MAXIMUM" "No additional notes") as f6.
  unfold nl; simpl append; no_dash3; subst; auto.
Qed.

Lemma fallback_count_concat (ts : list string) (t : string) :
  Forall (fun x => contains_dash3 x = false) (t :: ts) ->
  length (split_dash3 (String.concat TICKET_SEPARATOR (t :: ts))) = S (length ts).
Proof.
  revert t; induction ts as [|t2 rest IH]; intros t Hf; inversion Hf as [|? ? Ht Hf']; subst.
  - simpl String.concat; rewrite split_dash3_none by exact Ht; reflexivity.
  - change (String.concat TICKET_SEPARATOR (t :: t2 :: rest)) with
      (t ++ TICKET_SEPARATOR ++ String.concat TICKET_SEPARATOR (t2 :: rest))%string.
    unfold TICKET_SEPARATOR, nl; cbn [append].
    rewrite split_dash3_sep by exact Ht; cbn [length].
    rewrite split_dash3_length_cons_nondash by reflexivity.
    now rewrite IH.
Qed.

Lemma contains_dash3_concat_sep (t t2 : string) (rest : list string) :
  contains_dash3 (String.concat TICKET_SEPARATOR (t :: t2 :: rest)) = true.
Proof.
  change (String.concat TICKET_SEPARATOR (t :: t2 :: rest)) with
    (t ++ TICKET_SEPARATOR ++ String.concat TICKET_SEPARATOR (t2 :: rest))%string.
  unfold TICKET_SEPARATOR, nl; cbn [append]; apply contains_dash3_sep.
Qed.

Lemma fallback_count_prepare (render : string -> cell -> string) (df : frame) :
  frame_empty df = false ->
  (forall r col, In r (rows df) -> contains_dash3 (cell_str render col (get r col)) = false) ->
  fallback_ticket_count (prepare_ticket_data_for_gemini render df) = length (rows df).
Proof.
  intros He Hr; unfold prepare_ticket_data_for_gemini; rewrite He.
  unfold frame_empty in He; destruct (rows df) as [|r rs] eqn:Hrows; [discriminate|].
  assert (Hf : Forall (fun x => contains_dash3 x = false) (map (ticket_info render df) (r :: rs))).
  { apply Forall_forall; intros x Hx; apply in_map_iff in Hx as [r' [<- Hr']].
    apply contains_dash3_ticket_info; intros col; apply Hr, Hr'. }
  unfold fallback_ticket_count.
  destruct rs as [|r2 rs].
  - inversion Hf as [|? ? H1 _]; cbn [String.concat map]; cbv beta in H1; now rewrite H1.
  - cbn [map]; rewrite contains_dash3_concat_sep, fallback_count_concat by exact Hf.
    cbn [length]; now rewrite length_map.
Qed.

Lemma first_answer_all_fail (generate : string -> string -> option string)
      (names : list string) (p : string) :
  (forall m, In m names -> generate m p = None) -> first_answer generate names p = None.
Proof.
  induction names as [|m names IH]; intros H; [reflexivity|]; simpl.
  rewrite (H m (or_introl eq_refl)); apply IH; intros m' Hm'; apply H; now right.
Qed.

(** Extra: when no key is set, or every model fails, the narrative of a
    non-empty section whose fields contain no ["---"] is the fallback text,
    which reports exactly the section's number of tickets; without a key
    the model is never consulted. *)
Theorem narrative_fallback_counts_tickets (render : string -> cell -> string)
        (generate : string -> string -> option string) (api_key : option string)
        (df : frame) (section_name product_name : string)
        (Hne : frame_empty df = false)
        (Hclean : forall r col, In r (rows df) ->
                  contains_dash3 (cell_str render col (get r col)) = false)
        (Hfail : setup_gemini api_key = false \/
                 forall m p, In m model_names -> generate m p = None) :
  generate_gemini_narrative generate api_key (prepare_ticket_data_for_gemini render df)
    section_name product_name =
  ("During this " ++ py_lower section_name ++ " period, " ++
   py_str_nat (length (rows df)) ++ " tickets were processed for " ++
   product_name ++ " services. The team worked on resolving various technical issues " ++
   "and maintaining service quality. (AI summary unavailable: " ++
   (if setup_gemini api_key then "All Gemini models failed"
    else "Please set GEMINI_API_KEY environment variable") ++ ")")%string.
Proof.
  unfold generate_gemini_narrative.
  assert (Hc := fallback_count_prepare render df Hne Hclean).
  destruct (setup_gemini api_key) eqn:Hs.
  - destruct Hfail as [Hf|Hf]; [discriminate|].
    rewrite first_answer_all_fail by (intros m Hm; now apply Hf).
    unfold fallback_narrative; now rewrite Hc.
  - unfold fallback_narrative; now rewrite Hc.
Qed.

Lemma narrative_fallback_counts_tickets_witness :
  generate_gemini_narrative (fun _ _ => None) None
    (prepare_ticket_data_for_gemini (fun _ _ => "nan") upload_raw) "Initial Issue" "Broadband" =
  ("During this initial issue period, 2 tickets were processed for Broadband services. " ++
   "The team worked on resolving various technical issues and maintaining service quality. " ++
   "(AI summary unavailable: Please set GEMINI_API_KEY environment variable)")%string.
Proof.
  rewrite (narrative_fallback_counts_tickets (fun _ _ => "nan") (fun _ _ => None) None upload_raw
             "Initial Issue" "Broadband" eq_refl).
  - reflexivity.
  - intros r col [<-|[<-|[]]]; cbn [get];
      repeat (destruct (String.eqb _ col)); reflexivity.
  - left; reflexivity.
Defined.

Lemma string_app_nil_r (s : string) : (s ++ "")%string = s.
Proof. induction s as [|c s IH]; simpl; congruence. Qed.

Lemma string_app_assoc (a b c : string) : ((a ++ b) ++ c)%string = (a ++ (b ++ c))%string.
Proof. induction a as [|x a IH]; simpl; congruence. Qed.

Lemma concat_empty_cons (t : string) (ts : list string) :
  String.concat "" (t :: ts) = (t ++ String.concat "" ts)%string.
Proof. destruct ts; simpl; [symmetry; apply string_app_nil_r|reflexivity]. Qed.

Lemma Forall_iloc_slice {A} (P : A -> Prop) (l : list A) (a b : nat) :
  Forall P l -> Forall P (iloc_slice l a b).
Proof.
  rewrite !Forall_forall; intros H x Hx; apply H; unfold iloc_slice in Hx.
  apply (proj1 (Forall_forall (fun y => In y l) _)) with (x := x) in Hx; auto.
  apply Forall_forall; intros y Hy.
  rewrite <- (firstn_skipn a l); apply in_or_app; right.
  rewrite <- (firstn_skipn (b - a) (skipn a l)); apply in_or_app; now left.
Qed.

Lemma section_text_nonempty (render : string -> cell -> string)
      (generate : string -> string -> option string) (api_key : option string)
      (product_name section_name : string) (sdf : frame) :
  frame_empty sdf = false -> mem "ACCEPTANCE_TIME" (cols sdf) = true ->
  Forall time_or_null (column sdf "ACCEPTANCE_TIME") ->
  exists body, section_text render generate api_key product_name section_name sdf =
               Some ("## " ++ section_name ++ nl ++ nl ++ body)%string.
Proof.
  intros He Hm Ht; unfold section_text, timeframe_line; rewrite He, Hm, as_times_dropna by exact Ht.
  destruct (cell_times _); eexists; reflexivity.
Qed.

Lemma section_text_empty (render : string -> cell -> string)
      (generate : string -> string -> option string) (api_key : option string)
      (product_name section_name : string) (sdf : frame) :
  frame_empty sdf = true ->
  section_text render generate api_key product_name section_name sdf = Some "".
Proof. intros He; unfold section_text; now rewrite He. Qed.

Lemma append_sections_prefix (render : string -> cell -> string)
      (generate : string -> string -> option string) (api_key : option string)
      (p : string) (secs : list (string * frame)) (k : nat) (s : string) :
  (forall i x, nth_error secs i = Some x -> (i < k)%nat ->
     frame_empty (snd x) = false /\ mem "ACCEPTANCE_TIME" (cols (snd x)) = true /\
     Forall time_or_null (column (snd x) "ACCEPTANCE_TIME")) ->
  (forall i x, nth_error secs i = Some x -> (k <= i)%nat -> frame_empty (snd x) = true) ->
  exists bodies, length bodies = Nat.min k (length secs) /\
    append_sections render generate api_key p s secs =
    Some (s ++ String.concat ""
                 (map (fun nb => "## " ++ fst nb ++ nl ++ nl ++ snd nb)
                      (combine (firstn k (map fst secs)) bodies)))%string.
Proof.
  revert k s; induction secs as [|[name sdf] secs IH]; intros k s H1 H2.
  - exists []; split; [simpl; lia|]; simpl; rewrite firstn_nil; simpl.
    now rewrite string_app_nil_r.
  - destruct k as [|k].
    + assert (He := H2 0%nat (name, sdf) eq_refl (le_n 0)).
      destruct (IH 0%nat (s ++ "")%string) as [bodies [Hl Ha]].
      * intros i x _ Hi; lia.
      * intros i x Hx _; exact (H2 (S i) x Hx (Nat.le_0_l _)).
      * exists []; split; [reflexivity|].
        simpl; rewrite (section_text_empty _ _ _ _ _ _ He), Ha.
        simpl in Hl; destruct bodies; [|discriminate]; simpl.
        now rewrite !string_app_nil_r.
    + destruct (H1 0%nat (name, sdf) eq_refl (Nat.lt_0_succ k)) as [He [Hm Ht]].
      destruct (section_text_nonempty render generate api_key p name sdf He Hm Ht) as [b Hb].
      destruct (IH k (s ++ "## " ++ name ++ nl ++ nl ++ b)%string) as [bodies [Hl Ha]].
      * intros i x Hx Hi; apply (H1 (S i) x Hx); lia.
      * intros i x Hx Hi; apply (H2 (S i) x Hx); lia.
      * exists (b :: bodies); split; [simpl; lia|].
        simpl append_sections; rewrite Hb, Ha.
        cbn [map fst firstn combine]; rewrite concat_empty_cons, string_app_assoc.
        reflexivity.
Qed.

Lemma section_frame_empty (df : frame) (a b : nat) :
  frame_empty df = false ->
  frame_empty (mkFrame (cols df) (iloc_slice (rows df) a b)) =
  Nat.eqb (Nat.min (b - a) (length (rows df) - a)) 0.
Proof.
  intros He; rewrite <- iloc_slice_length; unfold frame_empty in *; cbn [rows cols].
  destruct (cols df); [destruct (rows df); discriminate|].
  destruct (iloc_slice _ _ _); reflexivity.
Qed.

Lemma section_frame_typed (df : frame) (a b : nat) :
  Forall time_or_null (column df "ACCEPTANCE_TIME") ->
  Forall time_or_null (column (mkFrame (cols df) (iloc_slice (rows df) a b)) "ACCEPTANCE_TIME").
Proof.
  unfold column; cbn [rows]; rewrite !Forall_map; apply Forall_iloc_slice.
Qed.

Lemma product_summary_shape (render : string -> cell -> string)
        (generate : string -> string -> option string) (api_key : option string)
        (df : frame) (product_name : string)
        (Hne : frame_empty df = false) (Hm : mem "ACCEPTANCE_TIME" (cols df) = true)
        (Ht : Forall time_or_null (column df "ACCEPTANCE_TIME")) :
  exists bodies, length bodies = Nat.min (length (rows df)) 5 /\
    create_product_summary_with_gemini render generate api_key df product_name =
    Some (("# " ++ product_name ++ " Service Journey" ++ nl ++ nl) ++
          String.concat ""
            (map (fun nb => "## " ++ fst nb ++ nl ++ nl ++ snd nb)
                 (combine (firstn (Nat.min (length (rows df)) 5) STORY_SECTIONS) bodies)))%string.
Proof.
  unfold create_product_summary_with_gemini; rewrite Hne, Hm; cbn [negb].
  set (n := length (rows df)).
  destruct (append_sections_prefix render generate api_key product_name
              (divide_tickets_into_sections df) (Nat.min n 5)
              ("# " ++ product_name ++ " Service Journey" ++ nl ++ nl)%string)
    as [bodies [Hl Ha]].
  - rewrite (divide_nonempty df Hne); fold n.
    set (s := Nat.max 1 (n / 5)); assert (Hs : s = Nat.max 1 (n / 5)) by reflexivity;
      clearbody s; intros i x Hx Hi.
    assert (Hq : 5 * (n / 5) <= n /\ n < 5 * S (n / 5))
      by (split; [apply Nat.Div0.mul_div_le | apply Nat.mul_succ_div_gt; discriminate]).
    revert Hs Hq; generalize (n / 5); intros q Hs Hq.
    destruct i as [|[|[|[|[|i]]]]]; cbn [nth_error] in Hx; try discriminate; try (destruct i; discriminate);
      injection Hx as <-; cbn [snd cols];
      (split; [rewrite section_frame_empty by exact Hne; apply Nat.eqb_neq; fold n; lia|]);
      (split; [exact Hm|apply section_frame_typed, Ht]).
  - rewrite (divide_nonempty df Hne); fold n.
    set (s := Nat.max 1 (n / 5)); assert (Hs : s = Nat.max 1 (n / 5)) by reflexivity;
      clearbody s; intros i x Hx Hi.
    assert (Hq : 5 * (n / 5) <= n /\ n < 5 * S (n / 5))
      by (split; [apply Nat.Div0.mul_div_le | apply Nat.mul_succ_div_gt; discriminate]).
    revert Hs Hq; generalize (n / 5); intros q Hs Hq.
    destruct i as [|[|[|[|[|i]]]]]; cbn [nth_error] in Hx; try discriminate; try (destruct i; discriminate);
      injection Hx as <-; cbn [snd];
      rewrite section_frame_empty by exact Hne; apply Nat.eqb_eq; fold n; lia.
  - exists bodies.
    assert (Hd : map fst (divide_tickets_into_sections df) = STORY_SECTIONS)
      by (rewrite (divide_nonempty df Hne); reflexivity).
    assert (H5 : length (divide_tickets_into_sections df) = 5%nat)
      by (rewrite (divide_nonempty df Hne); reflexivity).
    rewrite Hd, H5 in *; split; [rewrite Hl; lia|exact Ha].
Qed.

Lemma timeframe_line_typed (sdf : frame) :
  mem "ACCEPTANCE_TIME" (cols sdf) = true ->
  Forall time_or_null (column sdf "ACCEPTANCE_TIME") ->
  exists tf, timeframe_line sdf = Some tf.
Proof.
  intros Hm Ht; unfold timeframe_line; rewrite Hm, as_times_dropna by exact Ht.
  destruct (cell_times _); eexists; reflexivity.
Qed.

Lemma In_firstn_nth {A} (k : nat) (l : list A) (x : A) :
  In x (firstn k l) -> exists i, (i < k)%nat /\ nth_error l i = Some x.
Proof.
  revert l; induction k as [|k IH]; intros [|y l] H; simpl in H; try contradiction.
  destruct H as [<-|H]; [exists 0%nat; split; [lia|reflexivity]|].
  destruct (IH l H) as [i [Hi E]]; exists (S i); split; [lia|exact E].
Qed.

Lemma In_skipn_nth {A} (k : nat) (l : list A) (x : A) :
  In x (skipn k l) -> exists i, (k <= i)%nat /\ nth_error l i = Some x.
Proof.
  revert l; induction k as [|k IH]; intros l H.
  - destruct (In_nth_error _ _ H) as [i E]; exists i; split; [lia|exact E].
  - destruct l as [|y l]; simpl in H; [contradiction|].
    destruct (IH l H) as [i [Hi E]]; exists (S i); split; [lia|exact E].
Qed.

Lemma append_sections_blocks (render : string -> cell -> string)
      (generate : string -> string -> option string) (api_key : option string)
      (p : string) (secs : list (string * frame)) (k : nat) (s : string) :
  (forall i x, nth_error secs i = Some x -> (i < k)%nat ->
     frame_empty (snd x) = false /\ mem "ACCEPTANCE_TIME" (cols (snd x)) = true /\
     Forall time_or_null (column (snd x) "ACCEPTANCE_TIME")) ->
  (forall i x, nth_error secs i = Some x -> (k <= i)%nat -> frame_empty (snd x) = true) ->
  exists tfs, Forall2 (fun x tf => timeframe_line (snd x) = Some tf) (firstn k secs) tfs /\
    append_sections render generate api_key p s secs =
    Some (s ++ String.concat ""
            (map (fun xt => "## " ++ fst (fst xt) ++ nl ++ nl ++ snd xt ++
                            ticket_numbers_line render (snd (fst xt)) ++ "**Narrative:** " ++
                            generate_gemini_narrative generate api_key
                              (prepare_ticket_data_for_gemini render (snd (fst xt)))
                              (fst (fst xt)) p ++ nl ++ nl ++ "---" ++ nl ++ nl)
                 (combine (firstn k secs) tfs)))%string.
Proof.
  revert k s; induction secs as [|[name sdf] secs IH]; intros k s H1 H2.
  - exists []; rewrite firstn_nil; split; [constructor|].
    simpl; rewrite string_app_nil_r; reflexivity.
  - destruct k as [|k].
    + assert (He : frame_empty sdf = true) by exact (H2 0%nat (name, sdf) eq_refl (le_n 0)).
      cbn [append_sections]; rewrite section_text_empty by exact He.
      destruct (IH 0%nat (s ++ "")%string) as [tfs [Hf Ha]].
      * intros i x _ Hi; lia.
      * intros i x Hx _; exact (H2 (S i) x Hx ltac:(lia)).
      * exists []; split; [constructor|].
        rewrite Ha; inversion Hf; subst; cbn [firstn combine map].
        rewrite !string_app_nil_r; reflexivity.
    + destruct (H1 0%nat (name, sdf) eq_refl ltac:(lia)) as [He [Hm Ht]]; cbn [snd] in *.
      destruct (timeframe_line_typed sdf Hm Ht) as [tf Htf].
      destruct (IH k (s ++ ("## " ++ name ++ nl ++ nl ++ tf ++
                            ticket_numbers_line render sdf ++ "**Narrative:** " ++
                            generate_gemini_narrative generate api_key
                              (prepare_ticket_data_for_gemini render sdf)
                              name p ++ nl ++ nl ++ "---" ++ nl ++ nl))%string) as [tfs [Hf Ha]].
      * intros i x Hx Hi; exact (H1 (S i) x Hx ltac:(lia)).
      * intros i x Hx Hi; exact (H2 (S i) x Hx ltac:(lia)).
      * exists (tf :: tfs); split; [constructor; [exact Htf|exact Hf]|].
        cbn [append_sections]; unfold section_text at 1; rewrite He, Htf.
        rewrite Ha; cbn [firstn combine map fst snd].
        rewrite concat_empty_cons, string_app_assoc; reflexivity.
Qed.

Lemma product_summary_blocks (render : string -> cell -> string)
        (generate : string -> string -> option string) (api_key : option string)
        (df : frame) (product_name : string)
        (Hne : frame_empty df = false) (Hm : mem "ACCEPTANCE_TIME" (cols df) = true)
        (Ht : Forall time_or_null (column df "ACCEPTANCE_TIME")) :
  let k := Nat.min (length (rows df)) 5 in
  let secs := firstn k (divide_tickets_into_sections df) in
  map fst secs = firstn k STORY_SECTIONS /\
  (forall x, In x secs -> frame_empty (snd x) = false) /\
  (forall x, In x (skipn k (divide_tickets_into_sections df)) -> frame_empty (snd x) = true) /\
  exists tfs, Forall2 (fun x tf => timeframe_line (snd x) = Some tf) secs tfs /\
    create_product_summary_with_gemini render generate api_key df product_name =
    Some (("# " ++ product_name ++ " Service Journey" ++ nl ++ nl) ++
          String.concat ""
            (map (fun xt => "## " ++ fst (fst xt) ++ nl ++ nl ++ snd xt ++
                            ticket_numbers_line render (snd (fst xt)) ++ "**Narrative:** " ++
                            generate_gemini_narrative generate api_key
                              (prepare_ticket_data_for_gemini render (snd (fst xt)))
                              (fst (fst xt)) product_name ++ nl ++ nl ++ "---" ++ nl ++ nl)
                 (combine secs tfs)))%string.
Proof.
  intros k secs.
  set (n := length (rows df)) in k.
  assert (H1 : forall i x, nth_error (divide_tickets_into_sections df) i = Some x -> (i < k)%nat ->
     frame_empty (snd x) = false /\ mem "ACCEPTANCE_TIME" (cols (snd x)) = true /\
     Forall time_or_null (column (snd x) "ACCEPTANCE_TIME")).
  { unfold k; rewrite (divide_nonempty df Hne); fold n.
    set (s := Nat.max 1 (n / 5)); assert (Hs : s = Nat.max 1 (n / 5)) by reflexivity;
      clearbody s; intros i x Hx Hi.
    assert (Hq : 5 * (n / 5) <= n /\ n < 5 * S (n / 5))
      by (split; [apply Nat.Div0.mul_div_le | apply Nat.mul_succ_div_gt; discriminate]).
    revert Hs Hq; generalize (n / 5); intros q Hs Hq.
    destruct i as [|[|[|[|[|i]]]]]; cbn [nth_error] in Hx; try discriminate; try (destruct i; discriminate);
      injection Hx as <-; cbn [snd cols];
      (split; [rewrite section_frame_empty by exact Hne; apply Nat.eqb_neq; fold n; lia|]);
      (split; [exact Hm|apply section_frame_typed, Ht]). }
  assert (H2 : forall i x, nth_error (divide_tickets_into_sections df) i = Some x -> (k <= i)%nat ->
     frame_empty (snd x) = true).
  { unfold k; rewrite (divide_nonempty df Hne); fold n.
    set (s := Nat.max 1 (n / 5)); assert (Hs : s = Nat.max 1 (n / 5)) by reflexivity;
      clearbody s; intros i x Hx Hi.
    assert (Hq : 5 * (n / 5) <= n /\ n < 5 * S (n / 5))
      by (split; [apply Nat.Div0.mul_div_le | apply Nat.mul_succ_div_gt; discriminate]).
    revert Hs Hq; generalize (n / 5); intros q Hs Hq.
    destruct i as [|[|[|[|[|i]]]]]; cbn [nth_error] in Hx; try discriminate; try (destruct i; discriminate);
      injection Hx as <-; cbn [snd];
      rewrite section_frame_empty by exact Hne; apply Nat.eqb_eq; fold n; lia. }
  split; [|split; [|split]].
  - unfold secs; rewrite <- firstn_map; f_equal.
    rewrite (divide_nonempty df Hne); reflexivity.
  - intros x Hx; destruct (In_firstn_nth _ _ _ Hx) as [i [Hi Hx']]; exact (proj1 (H1 i x Hx' Hi)).
  - intros x Hx; destruct (In_skipn_nth _ _ _ Hx) as [i [Hi Hx']]; exact (H2 i x Hx' Hi).
  - unfold create_product_summary_with_gemini; rewrite Hne, Hm; cbn [negb].
    exact (append_sections_blocks render generate api_key product_name _ k _ H1 H2).
Qed.

(** Extra: on a non-empty batch with an [ACCEPTANCE_TIME] column holding
    datetimes and NaT only, [create_product_summary_with_gemini] raises
    nothing.  The first [k = min n 5] story sections are the non-empty
    ones and the others are empty.  The summary is the journey title
    followed by one block for each of these [k] sections, in story order:
    its ["## "] heading, its timeframe line, its ticket-numbers line, its
    narrative and the ["---"] rule. *)
Theorem product_summary_sections (render : string -> cell -> string)
        (generate : string -> string -> option string) (api_key : option string)
        (df : frame) (product_name : string)
        (Hne : frame_empty df = false) (Hm : mem "ACCEPTANCE_TIME" (cols df) = true)
        (Ht : Forall time_or_null (column df "ACCEPTANCE_TIME")) :
  let k := Nat.min (length (rows df)) 5 in
  let secs := firstn k (divide_tickets_into_sections df) in
  map fst secs = firstn k STORY_SECTIONS /\
  (forall x, In x secs -> frame_empty (snd x) = false) /\
  (forall x, In x (skipn k (divide_tickets_into_sections df)) -> frame_empty (snd x) = true) /\
  exists tfs, Forall2 (fun x tf => timeframe_line (snd x) = Some tf) secs tfs /\
    create_product_summary_with_gemini render generate api_key df product_name =
    Some (("# " ++ product_name ++ " Service Journey" ++ nl ++ nl) ++
          String.concat ""
            (map (fun xt => "## " ++ fst (fst xt) ++ nl ++ nl ++ snd xt ++
                            ticket_numbers_line render (snd (fst xt)) ++ "**Narrative:** " ++
                            generate_gemini_narrative generate api_key
                              (prepare_ticket_data_for_gemini render (snd (fst xt)))
                              (fst (fst xt)) product_name ++ nl ++ nl ++ "---" ++ nl ++ nl)
                 (combine secs tfs)))%string.
Proof. exact (product_summary_blocks render generate api_key df product_name Hne Hm Ht). Qed.

Lemma product_summary_sections_witness :
  Nat.min (length (rows dated_raw)) 5 = 4%nat /\
  exists tfs, length tfs = 4%nat /\
    Forall2 (fun x tf => timeframe_line (snd x) = Some tf)
            (firstn 4 (divide_tickets_into_sections dated_raw)) tfs /\
    create_product_summary_with_gemini (fun _ _ => "nan") (fun _ _ => None) None dated_raw "Broadband" =
    Some (("# Broadband Service Journey" ++ nl ++ nl) ++
          String.concat ""
            (map (fun xt => "## " ++ fst (fst xt) ++ nl ++ nl ++ snd xt ++
                            ticket_numbers_line (fun _ _ => "nan") (snd (fst xt)) ++
                            "**Narrative:** " ++
                            generate_gemini_narrative (fun _ _ => None) None
                              (prepare_ticket_data_for_gemini (fun _ _ => "nan") (snd (fst xt)))
                              (fst (fst xt)) "Broadband" ++ nl ++ nl ++ "---" ++ nl ++ nl)
                 (combine (firstn 4 (divide_tickets_into_sections dated_raw)) tfs)))%string.
Proof.
  split; [reflexivity|].
  assert (Ht : Forall time_or_null (column dated_raw "ACCEPTANCE_TIME")).
  { vm_compute.
    repeat (apply Forall_cons; [first [left; reflexivity | right; eexists; reflexivity]|]).
    apply Forall_nil. }
  destruct (product_summary_sections (fun _ _ => "nan") (fun _ _ => None) None dated_raw "Broadband"
              eq_refl eq_refl Ht) as [_ [_ [_ [tfs [Hf Hc]]]]].
  exists tfs; split; [|split; [exact Hf|exact Hc]].
  apply Forall2_length in Hf; rewrite <- Hf; vm_compute; reflexivity.
Defined.


Lemma existsb_cell_In (c : cell) (l : list cell) : existsb (cell_eqb c) l = true <-> In c l.
Proof.
  rewrite existsb_exists; split.
  - intros [x [Hx E]]; apply cell_eqb_eq in E; now subst.
  - intros H; exists c; split; [exact H|apply cell_eqb_refl].
Qed.

Lemma unique_values_fold (l acc : list cell) :
  NoDup acc ->
  NoDup (fold_left (fun acc c => if existsb (cell_eqb c) acc then acc else acc ++ [c]) l acc) /\
  forall v, In v (fold_left (fun acc c => if existsb (cell_eqb c) acc then acc else acc ++ [c]) l acc)
            <-> In v acc \/ In v l.
Proof.
  revert acc; induction l as [|c l IH]; intros acc Hd; simpl; [split; [exact Hd|tauto]|].
  destruct (existsb (cell_eqb c) acc) eqn:E.
  - apply existsb_cell_In in E.
    destruct (IH acc Hd) as [H1 H2]; split; [exact H1|]; intros v; rewrite H2.
    split; [tauto|intros [H|[<-|H]]; auto].
  - assert (Hn : ~ In c acc) by (intros H; apply existsb_cell_In in H; congruence).
    assert (Hd' : NoDup (acc ++ [c])).
    { apply NoDup_app; auto; [constructor; [intros []|constructor]|].
      intros x Hx [<-|[]]; contradiction. }
    destruct (IH (acc ++ [c]) Hd') as [H1 H2]; split; [exact H1|]; intros v; rewrite H2.
    rewrite in_app_iff; simpl; split; [intros [[H|[H|[]]]|H]; auto; subst; auto|].
    intros [H|[H|H]]; auto.
Qed.

Lemma unique_values_spec (l : list cell) :
  NoDup (unique_values l) /\ forall v, In v (unique_values l) <-> In v l.
Proof.
  destruct (unique_values_fold l [] (NoDup_nil _)) as [H1 H2]; split; [exact H1|].
  intros v; unfold unique_values; rewrite H2; simpl; tauto.
Qed.

Lemma product_frame_length (df : frame) (v : cell) :
  length (rows (product_frame df v)) = count_value v (column df "PRODUCT").
Proof.
  unfold product_frame, count_value, column; cbn [rows].
  induction (rows df) as [|r rs IH]; simpl; [reflexivity|].
  destruct (cell_eqb (get r "PRODUCT") v); simpl; congruence.
Qed.

Lemma filter_or_disjoint {A} (p q : A -> bool) (l : list A) :
  (forall x, p x = true -> q x = false) ->
  length (filter (fun x => p x || q x) l) = (length (filter p l) + length (filter q l))%nat.
Proof.
  intros H; induction l as [|x l IH]; simpl; [reflexivity|].
  destruct (p x) eqn:Ep; [rewrite (H x Ep)|]; destruct (q x); simpl; lia.
Qed.

Lemma sum_count_keys (K l : list cell) :
  NoDup K ->
  list_sum (map (fun v => count_value v l) K) =
  length (filter (fun c => existsb (cell_eqb c) K) l).
Proof.
  induction K as [|v K IH]; intros Hd; simpl.
  - induction l as [|c l IHl]; simpl; auto.
  - inversion Hd as [|? ? Hv Hd']; subst.
    rewrite IH by exact Hd'. unfold count_value.
    symmetry; apply filter_or_disjoint.
    intros c E; apply cell_eqb_eq in E; subst c.
    destruct (existsb (cell_eqb v) K) eqn:E; [apply existsb_cell_In in E; contradiction|reflexivity].
Qed.

Lemma create_summary_some (render : string -> cell -> string)
      (generate : string -> string -> option string) (api_key : option string)
      (df : frame) (product_name : string) :
  (mem "ACCEPTANCE_TIME" (cols df) = true -> Forall time_or_null (column df "ACCEPTANCE_TIME")) ->
  exists s, create_product_summary_with_gemini render generate api_key df product_name = Some s.
Proof.
  intros Ht; destruct (frame_empty df) eqn:He;
    [unfold create_product_summary_with_gemini; rewrite He; eexists; reflexivity|].
  destruct (mem "ACCEPTANCE_TIME" (cols df)) eqn:Hm;
    [|unfold create_product_summary_with_gemini; rewrite He, Hm; eexists; reflexivity].
  destruct (product_summary_shape render generate api_key df product_name He Hm (Ht eq_refl))
    as [b [_ ->]]; eexists; reflexivity.
Qed.

Lemma product_frame_typed (df : frame) (v : cell) :
  (mem "ACCEPTANCE_TIME" (cols df) = true -> Forall time_or_null (column df "ACCEPTANCE_TIME")) ->
  mem "ACCEPTANCE_TIME" (cols (product_frame df v)) = true ->
  Forall time_or_null (column (product_frame df v) "ACCEPTANCE_TIME").
Proof.
  intros Ht Hm; specialize (Ht Hm); unfold column, product_frame in *; cbn [rows] in *.
  rewrite Forall_map in *; apply Forall_forall; intros r Hr.
  apply filter_In in Hr as [Hr _]; exact (proj1 (Forall_forall _ _) Ht r Hr).
Qed.

Lemma summaries_for_some (render : string -> cell -> string)
      (generate : string -> string -> option string) (api_key : option string)
      (df : frame) (ps : list cell) :
  (mem "ACCEPTANCE_TIME" (cols df) = true -> Forall time_or_null (column df "ACCEPTANCE_TIME")) ->
  exists l, summaries_for render generate api_key df ps = Some l /\ map fst l = ps /\
    forall v s, In (v, s) l ->
      create_product_summary_with_gemini render generate api_key (product_frame df v)
        (cell_str render "PRODUCT" v) = Some s.
Proof.
  intros Ht; induction ps as [|v ps IH]; [exists []; simpl; intuition|].
  destruct IH as [l [Hl [Hk Hs]]].
  destruct (create_summary_some render generate api_key (product_frame df v)
              (cell_str render "PRODUCT" v) (product_frame_typed df v Ht)) as [s Hv].
  exists ((v, s) :: l); simpl; rewrite Hv, Hl; simpl; split; [reflexivity|split; [congruence|]].
  intros v' s' [E|H]; [injection E as <- <-; exact Hv|exact (Hs v' s' H)].
Qed.

Lemma all_summaries_aux (render : string -> cell -> string)
        (generate : string -> string -> option string) (api_key : option string)
        (df : frame) (Hne : frame_empty df = false) (Hp : mem "PRODUCT" (cols df) = true)
        (Ht : mem "ACCEPTANCE_TIME" (cols df) = true ->
              Forall time_or_null (column df "ACCEPTANCE_TIME")) :
  exists l, generate_all_summaries_with_gemini render generate api_key df = Some l /\
    NoDup (map fst l) /\
    (forall v, In v (map fst l) <-> In v (column df "PRODUCT") /\ v <> CNull) /\
    (forall v s, In (v, s) l ->
       create_product_summary_with_gemini render generate api_key (product_frame df v)
         (cell_str render "PRODUCT" v) = Some s) /\
    list_sum (map (fun p => length (rows (product_frame df (fst p)))) l) =
    length (filter (fun r => negb (isna (get r "PRODUCT"))) (rows df)).
Proof.
  unfold generate_all_summaries_with_gemini; rewrite Hne, Hp; cbn [negb].
  set (K := unique_values (dropna (column df "PRODUCT"))).
  destruct (unique_values_spec (dropna (column df "PRODUCT"))) as [Hd Hi]; fold K in Hd, Hi.
  destruct (summaries_for_some render generate api_key df K Ht) as [l [Hl [Hk Hs]]].
  exists l; rewrite Hk; split; [exact Hl|]; split; [exact Hd|]; split.
  { intros v; rewrite Hi; apply dropna_In. }
  split; [exact Hs|].
  rewrite <- (map_map fst (fun v => length (rows (product_frame df v)))), Hk.
  rewrite (map_ext _ (fun v => count_value v (column df "PRODUCT"))) by apply product_frame_length.
  rewrite sum_count_keys by exact Hd.
  transitivity (length (filter (fun c => negb (isna c)) (column df "PRODUCT"))).
  - f_equal; apply filter_ext_in; intros c Hc.
    apply Bool.eq_iff_eq_true; rewrite existsb_cell_In, Hi, dropna_In.
    destruct c; simpl; intuition congruence.
  - unfold column; rewrite filter_map_commute, length_map; reflexivity.
Qed.

(** Extra: on a non-empty batch with a PRODUCT column whose acceptance
    times (when present) are datetimes or missing, [generate_all_summaries_with_gemini]
    returns one summary per distinct non-null product, each being the
    summary of that product's tickets, and the products' ticket counts add
    up to the number of tickets with a product. *)
Theorem all_summaries_by_product (render : string -> cell -> string)
        (generate : string -> string -> option string) (api_key : option string)
        (df : frame) (Hne : frame_empty df = false) (Hp : mem "PRODUCT" (cols df) = true)
        (Ht : mem "ACCEPTANCE_TIME" (cols df) = true ->
              Forall time_or_null (column df "ACCEPTANCE_TIME")) :
  exists l, generate_all_summaries_with_gemini render generate api_key df = Some l /\
    NoDup (map fst l) /\
    (forall v, In v (map fst l) <-> In v (column df "PRODUCT") /\ v <> CNull) /\
    (forall v s, In (v, s) l ->
       create_product_summary_with_gemini render generate api_key (product_frame df v)
         (cell_str render "PRODUCT" v) = Some s) /\
    list_sum (map (fun p => length (rows (product_frame df (fst p)))) l) =
    length (filter (fun r => negb (isna (get r "PRODUCT"))) (rows df)).
Proof. exact (all_summaries_aux render generate api_key df Hne Hp Ht). Qed.

Lemma all_summaries_by_product_witness :
  exists l, generate_all_summaries_with_gemini (fun _ _ => "nan") (fun _ _ => None) None dated_raw = Some l /\
    length l = 3%nat /\
    list_sum (map (fun p => length (rows (product_frame dated_raw (fst p)))) l) = 4%nat.
Proof.
  assert (Ht : Forall time_or_null (column dated_raw "ACCEPTANCE_TIME")).
  { vm_compute.
    repeat (apply Forall_cons; [first [left; reflexivity | right; eexists; reflexivity]|]).
    apply Forall_nil. }
  destruct (all_summaries_by_product (fun _ _ => "nan") (fun _ _ => None) None dated_raw
              eq_refl eq_refl (fun _ => Ht)) as [l [Hg [_ [_ [_ Hs]]]]].
  exists l; split; [exact Hg|]; split; [|rewrite Hs; reflexivity].
  vm_compute in Hg; injection Hg as <-; reflexivity.
Defined.


Lemma as_times_dropna_some (l : list cell) (ts : list Z) :
  as_times (dropna l) = Some ts -> ts = cell_times l /\ Forall time_or_null l.
Proof.
  unfold dropna; revert ts; induction l as [|c l IH]; intros ts H; simpl in *.
  - injection H as <-; split; [reflexivity|constructor].
  - destruct c; simpl in *; try discriminate.
    + destruct (IH ts H) as [-> Hf]; split; [reflexivity|constructor; [left; reflexivity|exact Hf]].
    + destruct (as_times (filter (fun c => negb (isna c)) l)) as [ts'|] eqn:E; simpl in H; [|discriminate].
      injection H as <-; destruct (IH ts' eq_refl) as [-> Hf].
      split; [reflexivity|constructor; [right; eexists; reflexivity|exact Hf]].
Qed.

Lemma keys_count_into (d k : Z) (m : list (Z * nat)) :
  In k (map fst (count_into d m)) <-> k = d \/ In k (map fst m).
Proof.
  induction m as [|[k0 n0] m IH]; simpl; [intuition congruence|].
  destruct (d <? k0)%Z; [simpl; intuition congruence|].
  destruct (d =? k0)%Z eqn:E; simpl; [apply Z.eqb_eq in E; subst; intuition congruence|].
  rewrite IH; intuition congruence.
Qed.

Lemma sum_count_into (d : Z) (m : list (Z * nat)) :
  list_sum (map snd (count_into d m)) = S (list_sum (map snd m)).
Proof.
  induction m as [|[k0 n0] m IH]; simpl; [reflexivity|].
  destruct (d <? k0)%Z; [reflexivity|].
  destruct (d =? k0)%Z; simpl; [reflexivity|rewrite IH; lia].
Qed.

Lemma sorted_count_into (d : Z) (m : list (Z * nat)) :
  StronglySorted Z.lt (map fst m) -> StronglySorted Z.lt (map fst (count_into d m)).
Proof.
  induction m as [|[k0 n0] m IH]; simpl; intros Hs.
  - repeat constructor.
  - inversion Hs as [|? ? Hs' Hf]; subst.
    destruct (d <? k0)%Z eqn:Lt; simpl.
    + apply Z.ltb_lt in Lt; constructor; [exact Hs|].
      constructor; [exact Lt|]; eapply Forall_impl; [|exact Hf]; simpl; intros; lia.
    + destruct (d =? k0)%Z eqn:E; simpl; [constructor; assumption|].
      apply Z.ltb_ge in Lt; apply Z.eqb_neq in E.
      constructor; [exact (IH Hs')|]; apply Forall_forall; intros x Hx.
      apply keys_count_into in Hx as [->|Hx]; [lia|exact (proj1 (Forall_forall _ _) Hf x Hx)].
Qed.

Lemma in_count_into (d k : Z) (n : nat) (m : list (Z * nat)) :
  StronglySorted Z.lt (map fst m) -> In (k, n) (count_into d m) ->
  (k <> d /\ In (k, n) m) \/
  (k = d /\ ((~ In d (map fst m) /\ n = 1%nat) \/ exists n', In (d, n') m /\ n = S n')).
Proof.
  induction m as [|[k0 n0] m IH]; simpl; intros Hs Hin.
  - destruct Hin as [E|[]]; injection E as <- <-; right; split; [reflexivity|left; intuition].
  - inversion Hs as [|? ? Hs' Hf]; subst.
    assert (Hgt : forall x, In x (map fst m) -> (k0 < x)%Z) by (apply Forall_forall; exact Hf).
    destruct (d <? k0)%Z eqn:Lt.
    + apply Z.ltb_lt in Lt; destruct Hin as [E|Hin].
      * injection E as <- <-; right; split; [reflexivity|left; split; [|reflexivity]].
        intros [E|Hx]; [lia|specialize (Hgt d Hx); lia].
      * left; split; [|exact Hin]; intros ->.
        destruct Hin as [E|Hin]; [injection E as <- _; lia|].
        specialize (Hgt d (in_map fst _ _ Hin)); simpl in Hgt; lia.
    + destruct (d =? k0)%Z eqn:E.
      * apply Z.eqb_eq in E; subst k0; destruct Hin as [E|Hin].
        -- injection E as <- <-; right; split; [reflexivity|right; exists n0; intuition].
        -- left; split; [|intuition]; intros ->.
           specialize (Hgt d (in_map fst _ _ Hin)); simpl in Hgt; lia.
      * apply Z.eqb_neq in E; destruct Hin as [E'|Hin].
        -- injection E' as <- <-; left; intuition.
        -- destruct (IH Hs' Hin) as [[Hk Hi]|[Hk [[Hn Hn1]|[n' [Hi Hn]]]]].
           ++ left; intuition.
           ++ right; split; [exact Hk|left; split; [|exact Hn1]].
              intros [E2|H2]; [congruence|intuition].
           ++ right; split; [exact Hk|right; exists n'; intuition].
Qed.

Lemma group_size_inv (ds ds0 : list Z) (m : list (Z * nat)) :
  StronglySorted Z.lt (map fst m) ->
  (forall k n, In (k, n) m -> n = length (filter (fun x => Z.eqb x k) ds0)) ->
  (forall k, In k (map fst m) <-> In k ds0) ->
  list_sum (map snd m) = length ds0 ->
  let m' := fold_left (fun m d => count_into d m) ds m in
  StronglySorted Z.lt (map fst m') /\
  (forall k n, In (k, n) m' -> n = length (filter (fun x => Z.eqb x k) (ds0 ++ ds))) /\
  (forall k, In k (map fst m') <-> In k (ds0 ++ ds)) /\
  list_sum (map snd m') = length (ds0 ++ ds).
Proof.
  revert ds0 m; induction ds as [|d ds IH]; intros ds0 m Hs Hc Hk Hsum; simpl.
  - rewrite app_nil_r; tauto.
  - replace (ds0 ++ d :: ds) with ((ds0 ++ [d]) ++ ds) by (rewrite <- app_assoc; reflexivity).
    apply IH.
    + apply sorted_count_into, Hs.
    + intros k n Hin; rewrite filter_app, length_app; simpl.
      destruct (in_count_into d k n m Hs Hin) as [[Hkd Hi]|[-> [[Hn ->]|[n' [Hi ->]]]]].
      * rewrite (Hc k n Hi); apply Z.eqb_neq in Hkd; rewrite Z.eqb_sym, Hkd; simpl; lia.
      * rewrite Z.eqb_refl; simpl.
        assert (Hz : filter (fun x => Z.eqb x d) ds0 = []).
        {
          destruct (filter (fun x => Z.eqb x d) ds0) as [|y l] eqn:F; [reflexivity|].
          exfalso; assert (Hy : In y (filter (fun x => Z.eqb x d) ds0)) by (rewrite F; left; reflexivity).
          apply filter_In in Hy as [Hy E]; apply Z.eqb_eq in E; subst y; apply Hn, Hk, Hy. }
        rewrite Hz; reflexivity.
      * rewrite (Hc d n' Hi), Z.eqb_refl; simpl; lia.
    + intros k; rewrite keys_count_into, Hk, in_app_iff; simpl; intuition congruence.
    + rewrite sum_count_into, Hsum, length_app; simpl; lia.
Qed.

Lemma times_trichotomy (l : list cell) :
  Forall (fun c => c = CNull) l \/
  (exists v, In v l /\ v <> CNull /\ forall t, v <> CTime t) \/
  (Forall time_or_null l /\ cell_times l <> []).
Proof.
  induction l as [|c l IH]; [left; constructor|].
  destruct c as [|s|z|t].
  - destruct IH as [H|[[v [Hv Hb]]|[Hf Hn]]].
    + left; constructor; [reflexivity|exact H].
    + right; left; exists v; split; [right; exact Hv|exact Hb].
    + right; right; split; [constructor; [left; reflexivity|exact Hf]|exact Hn].
  - right; left; exists (CStr s); split; [left; reflexivity|split; [discriminate|intros t; discriminate]].
  - right; left; exists (CNum z); split; [left; reflexivity|split; [discriminate|intros t; discriminate]].
  - destruct IH as [H|[[v [Hv Hb]]|[Hf Hn]]].
    + right; right; split; [|simpl; discriminate].
      constructor; [right; exists t; reflexivity|].
      eapply Forall_impl; [|exact H]; intros c ->; left; reflexivity.
    + right; left; exists v; split; [right; exact Hv|exact Hb].
    + right; right; split; [constructor; [right; exists t; reflexivity|exact Hf]|simpl; discriminate].
Qed.

Lemma trend_rows_times (df : frame) :
  map (fun r => get r "ACCEPTANCE_TIME")
      (filter (fun r => negb (isna (get r "ACCEPTANCE_TIME"))) (rows df)) =
  dropna (column df "ACCEPTANCE_TIME").
Proof. unfold dropna, column; rewrite filter_map_commute; reflexivity. Qed.

Lemma trend_chart_unfold (df : frame) :
  frame_empty df = false -> mem "ACCEPTANCE_TIME" (cols df) = true ->
  create_ticket_trend_chart df =
  match dropna (column df "ACCEPTANCE_TIME") with
  | [] => None
  | _ => option_map (fun ts => group_size (map (fun t => t / ns_per_day)%Z ts))
           (as_times (dropna (column df "ACCEPTANCE_TIME")))
  end.
Proof.
  intros He Hm; unfold create_ticket_trend_chart; rewrite He, Hm; cbn [orb negb].
  rewrite <- trend_rows_times.
  destruct (filter (fun r => negb (isna (get r "ACCEPTANCE_TIME"))) (rows df)); [reflexivity|].
  cbn [map]; destruct (as_times _); reflexivity.
Qed.

Lemma group_size_spec (ds : list Z) :
  StronglySorted Z.lt (map fst (group_size ds)) /\
  (forall k n, In (k, n) (group_size ds) -> n = length (filter (fun x => Z.eqb x k) ds)) /\
  (forall k, In k (map fst (group_size ds)) <-> In k ds) /\
  list_sum (map snd (group_size ds)) = length ds.
Proof.
  exact (group_size_inv ds [] [] (SSorted_nil _) (fun k n H => match H with end)
           (fun k => conj (fun H => H) (fun H => H)) eq_refl).
Qed.

(** Extra: [create_ticket_trend_chart] returns None exactly when the batch
    is empty, has no ACCEPTANCE_TIME column, has only missing acceptance
    times, or has an acceptance time that is not a datetime; otherwise its
    table lists each calendar day (days since the epoch) once, in
    increasing order, with the number of tickets accepted that day, and the
    counts add up to the number of dated tickets. *)
Theorem trend_chart_daily_counts (df : frame) :
  (create_ticket_trend_chart df = None <->
     frame_empty df = true \/ mem "ACCEPTANCE_TIME" (cols df) = false \/
     Forall (fun c => c = CNull) (column df "ACCEPTANCE_TIME") \/
     exists v, In v (column df "ACCEPTANCE_TIME") /\ v <> CNull /\ forall t, v <> CTime t) /\
  forall m, create_ticket_trend_chart df = Some m ->
    let ts := cell_times (column df "ACCEPTANCE_TIME") in
    Sorted Z.lt (map fst m) /\
    (forall d n, In (d, n) m -> n = length (filter (fun t => Z.eqb (t / ns_per_day)%Z d) ts)) /\
    (forall d, In d (map fst m) <-> exists t, In t ts /\ (t / ns_per_day)%Z = d) /\
    list_sum (map snd m) = length ts.
Proof.
  destruct (frame_empty df) eqn:He.
  { unfold create_ticket_trend_chart; rewrite He; cbn [orb].
    split; [split; [left; reflexivity|reflexivity]|discriminate]. }
  destruct (mem "ACCEPTANCE_TIME" (cols df)) eqn:Hm.
  2:{ unfold create_ticket_trend_chart; rewrite He, Hm; cbn [orb negb].
      split; [split; [right; left; reflexivity|reflexivity]|discriminate]. }
  rewrite (trend_chart_unfold df He Hm); split.
  - split.
    + intros H; right; right.
      destruct (times_trichotomy (column df "ACCEPTANCE_TIME")) as [Ha|[Hb|[Hf Hn]]];
        [left; exact Ha|right; exact Hb|exfalso].
      rewrite (as_times_dropna _ Hf) in H.
      destruct (dropna (column df "ACCEPTANCE_TIME")) eqn:Ed; [|discriminate].
      apply Hn; pose proof (as_times_dropna _ Hf) as E; rewrite Ed in E.
      simpl in E; congruence.
    + intros [H|[H|[H|[v [Hv [Hn Hb]]]]]]; try congruence.
      * replace (dropna (column df "ACCEPTANCE_TIME")) with (@nil cell); [reflexivity|].
        symmetry.
        unfold dropna; induction H as [|c l Hc _ IH]; [reflexivity|]; subst c; exact IH.
      * rewrite (as_times_dropna_bad _ v Hv Hn Hb).
        destruct (dropna _); reflexivity.
  - intros m H ts.
    destruct (dropna (column df "ACCEPTANCE_TIME")) eqn:Ed; [discriminate|].
    rewrite <- Ed in H.
    destruct (as_times (dropna (column df "ACCEPTANCE_TIME"))) as [ts'|] eqn:Ea; [|discriminate].
    injection H as <-; destruct (as_times_dropna_some _ _ Ea) as [Hts _]; fold ts in Hts; subst ts'.
    destruct (group_size_spec (map (fun t => t / ns_per_day)%Z ts)) as [Hs [Hc [Hk Hsum]]].
    split; [apply StronglySorted_Sorted, Hs|]; split; [|split].
    + intros d n Hin; rewrite (Hc d n Hin), filter_map_commute, length_map; reflexivity.
    + intros d; rewrite Hk, in_map_iff; split; intros [t [E Ht]]; exists t; split; assumption.
    + rewrite Hsum, length_map; reflexivity.
Qed.

Lemma trend_chart_daily_counts_witness :
  exists m, create_ticket_trend_chart dated_raw = Some m /\ map fst m = [1%Z; 3%Z; 10%Z] /\
    list_sum (map snd m) = 3%nat.
Proof.
  destruct (trend_chart_daily_counts dated_raw) as [_ H].
  remember (create_ticket_trend_chart dated_raw) as o eqn:Eo; destruct o as [m|].
  - exists m; split; [reflexivity|].
    destruct (H m eq_refl) as [_ [_ [_ Hs]]]; split.
    + vm_compute in Eo; injection Eo as ->; reflexivity.
    + rewrite Hs; vm_compute; reflexivity.
  - vm_compute in Eo; discriminate.
Defined.


Lemma dropna_nil_all_null (l : list cell) :
  dropna l = [] <-> Forall (fun c => c = CNull) l.
Proof.
  unfold dropna; induction l as [|c l IH]; simpl; [split; [constructor|reflexivity]|].
  destruct c; simpl; try (split; [discriminate|intros H; inversion H; discriminate]).
  rewrite IH; split; [intros H; constructor; [reflexivity|exact H]|intros H; inversion H; assumption].
Qed.

Lemma value_counts_nil (l : list cell) : value_counts l = [] <-> dropna l = [].
Proof.
  split; intros H.
  - pose proof (sum_value_counts l) as E; rewrite H in E; simpl in E.
    destruct (dropna l); [reflexivity|discriminate].
  - unfold value_counts; rewrite H; reflexivity.
Qed.

(** Extra: [create_product_distribution_chart] returns None exactly when
    the batch is empty, has no PRODUCT column or has no non-missing
    product; otherwise its slices are the distinct non-missing products,
    each with its number of tickets, from the most to the least frequent,
    and they add up to the number of tickets with a product. *)
Theorem product_chart_counts (df : frame) :
  (create_product_distribution_chart df = None <->
     frame_empty df = true \/ mem "PRODUCT" (cols df) = false \/
     Forall (fun c => c = CNull) (column df "PRODUCT")) /\
  forall m, create_product_distribution_chart df = Some m ->
    exact_counts m (column df "PRODUCT") /\ counts_descending m /\
    (forall v, In v (column df "PRODUCT") -> v <> CNull -> In v (map fst m)) /\
    sum_counts m = length (dropna (column df "PRODUCT")).
Proof.
  unfold create_product_distribution_chart.
  destruct (frame_empty df) eqn:He; cbn [orb].
  { split; [split; [left; reflexivity|reflexivity]|discriminate]. }
  destruct (mem "PRODUCT" (cols df)) eqn:Hm; cbn [negb].
  2:{ split; [split; [right; left; reflexivity|reflexivity]|discriminate]. }
  rewrite <- dropna_nil_all_null, <- value_counts_nil.
  destruct (value_counts_exact (column df "PRODUCT")) as [Hx Hi].
  pose proof (value_counts_sorted (column df "PRODUCT")) as Hs.
  pose proof (sum_value_counts (column df "PRODUCT")) as Hsum.
  destruct (value_counts (column df "PRODUCT")) as [|p m'].
  - split; [split; [intros _; right; right; reflexivity|reflexivity]|discriminate].
  - split; [split; [discriminate|intros [H|[H|H]]; discriminate]|].
    intros m E; injection E as <-; tauto.
Qed.

(** Extra: a non-empty batch of at most four tickets puts its first ticket
    in Initial Issue, its second in Follow-ups, its third in Developments,
    its fourth in Later Incidents, one ticket per section in order, and
    always leaves Recent Events empty. *)
Theorem small_batch_sections (df : frame) (Hne : frame_empty df = false)
        (Hn : (length (rows df) <= 4)%nat) :
  map (fun p => (fst p, rows (snd p))) (divide_tickets_into_sections df) =
  [ ("Initial Issue", firstn 1 (rows df));
    ("Follow-ups", firstn 1 (skipn 1 (rows df)));
    ("Developments", firstn 1 (skipn 2 (rows df)));
    ("Later Incidents", firstn 1 (skipn 3 (rows df)));
    ("Recent Events", []) ].
Proof.
  rewrite (divide_nonempty df Hne); cbv zeta.
  rewrite (Nat.div_small (length (rows df)) 5) by lia; cbn [Nat.max Nat.mul Nat.add map fst snd rows].
  unfold iloc_slice; cbn [Nat.sub skipn].
  replace (length (rows df) - 4) with 0%nat by lia; reflexivity.
Qed.

Lemma product_chart_counts_witness :
  exists m, create_product_distribution_chart dated_raw = Some m /\ sum_counts m = 4%nat.
Proof.
  destruct (product_chart_counts dated_raw) as [_ H].
  remember (create_product_distribution_chart dated_raw) as o eqn:Eo; destruct o as [m|].
  - exists m; split; [reflexivity|].
    destruct (H m eq_refl) as [_ [_ [_ Hs]]]; rewrite Hs; vm_compute; reflexivity.
  - vm_compute in Eo; discriminate.
Defined.

Lemma small_batch_sections_witness :
  frame_empty dated_raw = false /\
  map (fun p => (fst p, rows (snd p))) (divide_tickets_into_sections dated_raw) =
  [ ("Initial Issue", firstn 1 (rows dated_raw));
    ("Follow-ups", firstn 1 (skipn 1 (rows dated_raw)));
    ("Developments", firstn 1 (skipn 2 (rows dated_raw)));
    ("Later Incidents", firstn 1 (skipn 3 (rows dated_raw)));
    ("Recent Events", []) ].
Proof.
  split; [reflexivity|].
  apply (small_batch_sections dated_raw eq_refl); vm_compute; lia.
Defined.


Lemma normalized_product_column (to_datetime : cell -> option Z) (argsort : list Z -> list nat)
      (raw : frame) :
  argsort_spec argsort ->
  frame_empty (filter_and_clean_data to_datetime argsort raw) = false ->
  mem "PRODUCT" (cols (filter_and_clean_data to_datetime argsort raw)) = true.
Proof.
  intros Hs Hne.
  assert (Hr : rows (filter_and_clean_data to_datetime argsort raw) <> [])
    by (unfold frame_empty in Hne; destruct (rows _); discriminate).
  destruct (normalize_cols to_datetime argsort raw Hs Hr) as [-> _].
  rewrite mem_app, (eq_refl : mem "PRODUCT" ["PRODUCT"] = true), orb_true_r; reflexivity.
Qed.

(** Extra: on a non-empty normalized batch, [generate_all_summaries_with_gemini]
    returns one summary per distinct product of the batch, each being the
    summary of that product's tickets, and every ticket of the batch is in
    exactly one product's share: the shares add up to the batch size. *)
Theorem normalized_summaries_cover_batch (render : string -> cell -> string)
        (generate : string -> string -> option string) (api_key : option string)
        (to_datetime : cell -> option Z) (argsort : list Z -> list nat) (raw : frame)
        (Hs : argsort_spec argsort)
        (Hne : frame_empty (filter_and_clean_data to_datetime argsort raw) = false) :
  let out := filter_and_clean_data to_datetime argsort raw in
  exists l, generate_all_summaries_with_gemini render generate api_key out = Some l /\
    NoDup (map fst l) /\
    (forall v, In v (map fst l) <-> In v (column out "PRODUCT")) /\
    (forall v s, In (v, s) l ->
       create_product_summary_with_gemini render generate api_key (product_frame out v)
         (cell_str render "PRODUCT" v) = Some s) /\
    list_sum (map (fun p => length (rows (product_frame out (fst p)))) l) = length (rows out).
Proof.
  intros out.
  pose proof (normalize_category_product_present to_datetime argsort raw Hs) as Hp; fold out in Hp.
  destruct (all_summaries_aux render generate api_key out Hne
              (normalized_product_column to_datetime argsort raw Hs Hne)
              (normalize_times_typed to_datetime argsort raw Hs))
    as [l [Hg [Hd [Hk [Hc Hsum]]]]].
  exists l; split; [exact Hg|]; split; [exact Hd|]; split; [|split; [exact Hc|]].
  - intros v; rewrite Hk; split; [tauto|intros Hv; split; [exact Hv|]].
    unfold column in Hv; apply in_map_iff in Hv as [r [<- Hr]].
    destruct (Hp r Hr) as [_ Hn]; destruct (get r "PRODUCT"); discriminate.
  - rewrite Hsum, <- (column_none_null_length out "PRODUCT") by (intros r Hr; apply (Hp r Hr)).
    unfold dropna, column; rewrite filter_map_commute, length_map; reflexivity.
Qed.

Lemma normalized_summaries_cover_batch_witness :
  argsort_spec insertion_argsort /\
  frame_empty (filter_and_clean_data passthrough_datetime insertion_argsort ex_raw) = false /\
  exists l, generate_all_summaries_with_gemini (fun _ _ => "nan") (fun _ _ => None) None
              (filter_and_clean_data passthrough_datetime insertion_argsort ex_raw) = Some l /\
    list_sum (map (fun p => length (rows (product_frame
               (filter_and_clean_data passthrough_datetime insertion_argsort ex_raw) (fst p)))) l)
    = 10%nat.
Proof.
  split; [exact insertion_argsort_spec|]; split; [vm_compute; reflexivity|].
  destruct (normalized_summaries_cover_batch (fun _ _ => "nan") (fun _ _ => None) None
              passthrough_datetime insertion_argsort ex_raw insertion_argsort_spec
              ltac:(vm_compute; reflexivity)) as [l [Hg [_ [_ [_ Hsum]]]]].
  exists l; split; [exact Hg|]; rewrite Hsum; vm_compute; reflexivity.
Defined.

(** C6 amended: for each of the four free-text columns present in the
    input, every normalised row is the cleaned image of its own input row,
    and holds the sentinel "No information available" where that row held
    NaN and that row's value, unchanged, otherwise (an empty string
    included); so these cells are never NaN after normalisation.  Column
    by column, the output values are the input values of the whitelisted
    rows with NaN replaced by the sentinel and nothing else changed, in
    some order. *)
Theorem normalize_text_fill (to_datetime : cell -> option Z)
        (argsort : list Z -> list nat) (raw : frame) (Hs : argsort_spec argsort) :
  forall col, In col TEXT_COLUMNS -> mem col (cols raw) = true ->
  (forall r, In r (rows (filter_and_clean_data to_datetime argsort raw)) ->
    get r col <> CNull /\
    exists rr, In rr (rows raw) /\ isin_valid (get rr "SERVICE_CATEGORY") = true /\
      r = finish_row to_datetime (available_columns_of raw)
                     (project_row (available_columns_of raw) rr) /\
      ((get rr col = CNull /\ get r col = CStr SENTINEL) \/
       (get rr col <> CNull /\ get r col = get rr col))) /\
  (mem "SERVICE_CATEGORY" (cols raw) = true ->
   Permutation (column (filter_and_clean_data to_datetime argsort raw) col)
     (map (fun rr => fillna (get rr col))
          (filter (fun rr => isin_valid (get rr "SERVICE_CATEGORY")) (rows raw)))).
Proof.
  intros col Hcol Hc.
  assert (Hm : mem col (available_columns_of raw) = true)
    by (rewrite mem_available, text_column_selected, Hc; auto).
  assert (Hg : forall rr, get (finish_row to_datetime (available_columns_of raw)
                                (project_row (available_columns_of raw) rr)) col =
                          fillna (get rr col)).
  { intros rr; rewrite get_finish_text by auto.
    rewrite get_project_row by (now apply mem_In); reflexivity. }
  split.
  - intros r Hin.
    destruct (normalize_row_origin _ _ _ _ Hs Hin) as [rr [Hrr [Hv [_ Hr]]]].
    rewrite Hr, Hg; split.
    + destruct (get rr col); discriminate.
    + exists rr; split; [exact Hrr|]; split; [exact Hv|]; split; [reflexivity|].
      destruct (get rr col); [left | right..]; split; (reflexivity || discriminate).
  - intros Hsc; unfold column.
    eapply perm_trans; [apply Permutation_map, (normalize_rows_perm to_datetime argsort raw Hs)|].
    rewrite post_filter_rows_eq by exact Hsc; rewrite !map_map.
    apply Permutation_refl'; apply map_ext; exact Hg.
Qed.

Lemma normalize_text_fill_witness :
  argsort_spec insertion_argsort /\
  (forall r, In r (rows (filter_and_clean_data passthrough_datetime insertion_argsort ex_raw)) ->
     get r "NOTE_MAXIMUM" <> CNull) /\
  In (CStr "") (column (filter_and_clean_data passthrough_datetime insertion_argsort ex_raw)
                       "NOTE_MAXIMUM").
Proof.
  split; [exact insertion_argsort_spec|].
  destruct (normalize_text_fill passthrough_datetime insertion_argsort ex_raw
              insertion_argsort_spec "NOTE_MAXIMUM" ltac:(simpl; tauto) eq_refl) as [H1 H2].
  split.
  - intros r Hin; exact (proj1 (H1 r Hin)).
  - apply (Permutation_in _ (Permutation_sym (H2 eq_refl))).
    vm_compute; repeat (first [left; reflexivity | right]).
Defined.
